(** * The ingest relay of [server.js]

    A shallow embedding of the WebSocket publisher handler of [server.js]
    (the [wss.on('connection', ...)] closure, lines 44-204) together with the
    process-wide [activeKeys] set (line 30), and the properties of the
    relay's specification that can be settled on it.

    Conventions.
    - A JavaScript string is its sequence of UTF-16 code units.
    - A [Buffer] is its sequence of bytes.
    - Every callback of the closure is a function from the state it can see
      (the shared [activeKeys] set and the closure's own variables) to the
      new state and the list of calls it made on the outside world, in
      order.  [console.log] calls are not recorded.
    - What a callback reads from the outside world ([Date.now()], the
      child that [spawn] returns, [ffmpeg.stdin.writable], whether
      [ffmpeg.stdin.write] throws) is an argument of the callback.
      [ws.send], [ws.close], [spawn], [stdin.end] and [kill] are recorded as
      calls and taken to return.
    - [JSON.parse] and [Buffer.prototype.toString] belong to the runtime, not
      to the repository: the handlers are written over an arbitrary
      [Platform] that provides them. *)

From Stdlib Require Import ZArith NArith Strings.Byte String Ascii.
From stdpp Require Import gmap list.

Set Warnings "-register-all".

#[global] Instance byte_eq_decision : EqDecision byte := byte_eq_dec.

(** ** JavaScript data *)

Definition JSString : Type := list N.
Definition Buffer : Type := list byte.

(** The code units of an ASCII literal of the source. *)
Definition str (s : string) : JSString :=
  N_of_ascii <$> list_ascii_of_string s.

(** The values [JSON.parse] can return.  Of a number the handler only ever
    observes whether it is zero, which is all that is kept of it. *)
Inductive JSValue : Type :=
| JNull
| JBool (b : bool)
| JNumber (nonzero : bool)
| JString (s : JSString)
| JArray (items : list JSValue)
| JObject (props : list (JSString * JSValue)).

(** ToBoolean. *)
Definition truthy (v : JSValue) : bool :=
  match v with
  | JNull => false
  | JBool b => b
  | JNumber nonzero => nonzero
  | JString s => negb (bool_decide (s = []))
  | JArray _ | JObject _ => true
  end.

(** ToBoolean of a value that may be [undefined] or [null] ([None]). *)
Definition truthy_opt (v : option JSValue) : bool :=
  match v with
  | Some v => truthy v
  | None => false
  end.

Fixpoint assoc (k : JSString) (props : list (JSString * JSValue)) : option JSValue :=
  match props with
  | [] => None
  | (k', v) :: rest => if bool_decide (k = k') then Some v else assoc k rest
  end.

(** [v.name] for a property name that no prototype defines: only an object
    can have it, as an own property; everything else yields [undefined]. *)
Definition get_prop (v : JSValue) (name : JSString) : option JSValue :=
  match v with
  | JObject props => assoc name props
  | _ => None
  end.

(** The result of running a callback: it returns, or an exception escapes
    it (which, for an event callback with no handler installed, ends the
    Node process). *)
Inductive Completion (A : Type) : Type :=
| Normal (a : A)
| Throw (error : string).
Arguments Normal {A} a.
Arguments Throw {A} error.

(** ** The runtime *)

Class Platform : Type := {
  (** [buf.toString()]: UTF-8 decoding *)
  Buffer_toString : Buffer -> JSString;
  (** [JSON.parse(text)]; [None] when it throws a SyntaxError *)
  JSON_parse : JSString -> option JSValue
}.

(** What the source hands to [JSON.parse]: a string, or the message object
    itself. *)
Inductive ParseArg : Type :=
| ArgString (s : JSString)
| ArgBuffer (b : Buffer).

(** [JSON.parse] applies ToString to its argument first; for a [Buffer]
    that is its [toString()] method. *)
Definition JSON_parse_arg `{Platform} (a : ParseArg) : option JSValue :=
  JSON_parse (match a with
              | ArgString s => s
              | ArgBuffer b => Buffer_toString b
              end).

(** ** [rtmpUrl.match(/live2\/(.+)$/)] (line 84) *)

(** The characters [.] does not match. *)
Definition is_line_terminator (c : N) : bool :=
  ((c =? 0x0A) || (c =? 0x0D) || (c =? 0x2028) || (c =? 0x2029))%N.

(** [(.+)$] tried at one position: [.+] has to run up to the end of the
    input, so the group is the whole rest, which must be non-empty and free
    of line terminators. *)
Definition dot_plus_to_end (rest : JSString) : option JSString :=
  match rest with
  | [] => None
  | _ => if forallb (fun c => negb (is_line_terminator c)) rest
         then Some rest else None
  end.

Fixpoint strip_prefix (p s : JSString) : option JSString :=
  match p, s with
  | [], _ => Some s
  | a :: p', b :: s' => if bool_decide (a = b) then strip_prefix p' s' else None
  | _ :: _, [] => None
  end.

(** The pattern tried at the start of [s]. *)
Definition live2_here (s : JSString) : option JSString :=
  match strip_prefix (str "live2/") s with
  | Some rest => dot_plus_to_end rest
  | None => None
  end.

(** Capture group 1 of the leftmost match, [None] when [match] returns
    [null]. *)
Fixpoint match_live2 (s : JSString) : option JSString :=
  match live2_here s with
  | Some key => Some key
  | None =>
      match s with
      | [] => None
      | _ :: s' => match_live2 s'
      end
  end.

(** ** The EBML header check (lines 112-114) *)

(** [Buffer.concat(initialBuffer.map(...))] *)
Definition Buffer_concat (chunks : list Buffer) : Buffer := concat chunks.

(** [concat[i] === v]; an index past the end reads [undefined]. *)
Definition byte_is (b : Buffer) (i : nat) (v : byte) : bool :=
  bool_decide (b !! i = Some v).

Definition ebml_header_check (concat : Buffer) : bool :=
  (4 <? length concat)%nat
  && byte_is concat 0 x1a
  && byte_is concat 1 x45
  && byte_is concat 2 xdf
  && byte_is concat 3 xa3.

(** ** What a connection does to the outside world *)

(** A child process, as returned by [spawn]. *)
Definition ChildProcess : Type := nat.

(** The records the handler serialises with [JSON.stringify] and sends. *)
Inductive Notice : Type :=
| NoticeOk (info : string)
    (* { ok: true, info } *)
| NoticeError (error : string)
    (* { error } *)
| NoticeExit (error : string) (code : option Z) (signal : option string)
    (* { error, code, signal } *)
| NoticeMessage (error : string) (message : string).
    (* { error, message: e && e.message } *)

Inductive Effect : Type :=
| WsSend (n : Notice)                       (* ws.send(JSON.stringify(n)) *)
| WsClose                                   (* ws.close() *)
| Spawn (command : string) (args : list string) (dest : option JSString)
    (* spawn(command, [...args, dest], {stdio}); the child it returns is
       fixed by the environment *)
| StdinWrite (p : ChildProcess) (data : Buffer)   (* p.stdin.write(data) *)
| StdinEnd (p : ChildProcess)                     (* p.stdin.end() *)
| Kill (p : ChildProcess) (signal : string)       (* p.kill(signal) *)
| ClearInterval.                            (* clearInterval(idleInterval) *)

#[global] Instance Notice_eq_dec : EqDecision Notice.
Proof. solve_decision. Defined.
#[global] Instance Effect_eq_dec : EqDecision Effect.
Proof. solve_decision. Defined.

(** What a message callback reads from the outside world while it runs. *)
Record Env : Type := mkEnv {
  now : Z;                       (* Date.now() *)
  spawned : ChildProcess;        (* the value of spawn(...), if it is called *)
  stdin_writable : bool;         (* ffmpeg.stdin.writable *)
  write_error : option string    (* Some m: ffmpeg.stdin.write throws e, with
                                    e && e.message = m *)
}.

(** The fixed part of [ffArgs] (lines 117-137). *)
Definition ffArgs : list string :=
  [ "-fflags"; "+nobuffer";
    "-fflags"; "+genpts";
    "-hide_banner";
    "-loglevel"; "info";
    "-f"; "webm";
    "-i"; "pipe:0";
    "-c:v"; "libx264";
    "-preset"; "fast";
    "-tune"; "zerolatency";
    "-r"; "30";
    "-g"; "60";
    "-b:v"; "2000k";
    "-maxrate"; "2200k";
    "-bufsize"; "3000k";
    "-c:a"; "aac";
    "-ar"; "44100";
    "-b:a"; "128k";
    "-f"; "flv";
    "-flvflags"; "no_duration_filesize" ]%string.

(** ** The variables of one connection closure (lines 47-53, 57, 101) *)

Record Session : Type := mkSession {
  ffmpeg : option ChildProcess;      (* let ffmpeg = null *)
  started : bool;                    (* let started = false *)
  lastChunkAt : Z;                   (* let lastChunkAt = Date.now() *)
  ffmpegError : bool;                (* let ffmpegError = false *)
  initialBuffer : list Buffer;       (* let initialBuffer = [] *)
  headerReceived : bool;             (* let headerReceived = false *)
  rtmpKey : option JSString;         (* let rtmpKey = null *)
  ws_rtmpUrl : option JSString;      (* ws.rtmpUrl, undefined at first *)
  idleInterval : bool                (* the interval timer is still set *)
}.

Definition new_session (t : Z) : Session :=
  mkSession None false t false [] false None None true.

Definition set_ffmpeg (v : option ChildProcess) (s : Session) : Session :=
  mkSession v (started s) (lastChunkAt s) (ffmpegError s) (initialBuffer s)
            (headerReceived s) (rtmpKey s) (ws_rtmpUrl s) (idleInterval s).
Definition set_started (v : bool) (s : Session) : Session :=
  mkSession (ffmpeg s) v (lastChunkAt s) (ffmpegError s) (initialBuffer s)
            (headerReceived s) (rtmpKey s) (ws_rtmpUrl s) (idleInterval s).
Definition set_lastChunkAt (v : Z) (s : Session) : Session :=
  mkSession (ffmpeg s) (started s) v (ffmpegError s) (initialBuffer s)
            (headerReceived s) (rtmpKey s) (ws_rtmpUrl s) (idleInterval s).
Definition set_ffmpegError (v : bool) (s : Session) : Session :=
  mkSession (ffmpeg s) (started s) (lastChunkAt s) v (initialBuffer s)
            (headerReceived s) (rtmpKey s) (ws_rtmpUrl s) (idleInterval s).
Definition set_initialBuffer (v : list Buffer) (s : Session) : Session :=
  mkSession (ffmpeg s) (started s) (lastChunkAt s) (ffmpegError s) v
            (headerReceived s) (rtmpKey s) (ws_rtmpUrl s) (idleInterval s).
Definition set_headerReceived (v : bool) (s : Session) : Session :=
  mkSession (ffmpeg s) (started s) (lastChunkAt s) (ffmpegError s)
            (initialBuffer s) v (rtmpKey s) (ws_rtmpUrl s) (idleInterval s).
Definition set_rtmpKey (v : option JSString) (s : Session) : Session :=
  mkSession (ffmpeg s) (started s) (lastChunkAt s) (ffmpegError s)
            (initialBuffer s) (headerReceived s) v (ws_rtmpUrl s)
            (idleInterval s).
Definition set_ws_rtmpUrl (v : option JSString) (s : Session) : Session :=
  mkSession (ffmpeg s) (started s) (lastChunkAt s) (ffmpegError s)
            (initialBuffer s) (headerReceived s) (rtmpKey s) v
            (idleInterval s).
Definition set_idleInterval (v : bool) (s : Session) : Session :=
  mkSession (ffmpeg s) (started s) (lastChunkAt s) (ffmpegError s)
            (initialBuffer s) (headerReceived s) (rtmpKey s) (ws_rtmpUrl s) v.

(** The state a callback runs in: the shared set and its own closure. *)
Definition State : Type := gset JSString * Session.
Definition Result : Type := State * list Effect.

(** [!rtmpKey] *)
Definition no_key (k : option JSString) : bool :=
  match k with
  | Some k => bool_decide (k = [])
  | None => true
  end.

(** ** The callbacks *)

Definition IDLE_TIMEOUT_MS : Z := 20000.

(** The [setInterval] callback (lines 57-64), run at time [t]. *)
Definition idle_tick (t : Z) (s : Session) : Session * list Effect :=
  match ffmpeg s with
  | Some p =>
      if (IDLE_TIMEOUT_MS <? t - lastChunkAt s)%Z
      then (set_ffmpeg None s, [StdinEnd p; Kill p "SIGINT"])
      else (s, [])
  | None => (s, [])
  end.

Section Handlers.
Context `{Platform}.

(** The first message (lines 68-105). *)
Definition on_init (msg : Buffer) (isBinary : bool) (st : State)
  : Completion Result :=
  let '(keys, s) := st in
  match JSON_parse_arg (if isBinary then ArgString (Buffer_toString msg)
                        else ArgBuffer msg) with
  | None =>
      Normal (keys, s, [WsSend (NoticeError "Invalid init JSON"); WsClose])
  | Some init =>
      let rtmpUrl :=
        if truthy init && truthy_opt (get_prop init (str "rtmpUrl"))
        then get_prop init (str "rtmpUrl") else None in
      if negb (truthy_opt rtmpUrl) then
        Normal (keys, s,
                [WsSend (NoticeError "Missing rtmpUrl in init message");
                 WsClose])
      else
        match rtmpUrl with
        | Some (JString url) =>
            let keyMatch := match_live2 url in
            let s := set_rtmpKey keyMatch s in
            if no_key (rtmpKey s) then
              Normal (keys, s,
                      [WsSend (NoticeError "Invalid RTMP key in URL");
                       WsClose])
            else
              match rtmpKey s with
              | Some key =>
                  if bool_decide (key ∈ keys) then
                    Normal (keys, s,
                            [WsSend (NoticeError "RTMP key already in use");
                             WsClose])
                  else
                    Normal ({[key]} ∪ keys,
                            set_started true (set_ws_rtmpUrl (Some url) s),
                            [WsSend (NoticeOk "waiting for WebM header")])
              | None => Normal (keys, s, [])   (* not reached: [no_key] *)
              end
        | _ => Throw "TypeError: rtmpUrl.match is not a function"
        end
  end.

(** A message while [headerReceived] is false (lines 108-164). *)
Definition on_header_chunk (env : Env) (msg : Buffer) (isBinary : bool)
    (st : State) : Result :=
  let '(keys, s) := st in
  if negb isBinary then (keys, s, [])
  else
    let s := set_initialBuffer (initialBuffer s ++ [msg]) s in
    let concat := Buffer_concat (initialBuffer s) in
    if ebml_header_check concat then
      let s := set_headerReceived true s in
      let p := spawned env in
      let s := set_ffmpeg (Some p) s in
      let s := set_ffmpegError false s in
      (* a throw of the first write is caught and only logged *)
      let s := set_initialBuffer [] s in
      (keys, s,
       [Spawn "ffmpeg" ffArgs (ws_rtmpUrl s);
        StdinWrite p concat;
        WsSend (NoticeOk "ffmpeg started")])
    else (keys, s, []).

(** A message once the header has been seen (lines 167-183). *)
Definition on_stream_chunk (env : Env) (msg : Buffer) (isBinary : bool)
    (st : State) : Result :=
  let '(keys, s) := st in
  if ffmpegError s then (keys, s, [])
  else if negb isBinary then (keys, s, [])
  else
    let s := set_lastChunkAt (now env) s in
    match ffmpeg s with
    | Some p =>
        if stdin_writable env then
          match write_error env with
          | None => (keys, s, [StdinWrite p msg])
          | Some m =>
              (keys, set_ffmpegError true s,
               [StdinWrite p msg;
                WsSend (NoticeMessage "FFmpeg stdin write error" m);
                WsClose])
          end
        else (keys, s, [])
    | None => (keys, s, [])
    end.

(** [ws.on('message', (msg, isBinary) => ...)] (lines 66-184). *)
Definition on_message (env : Env) (msg : Buffer) (isBinary : bool)
    (st : State) : Completion Result :=
  if negb (started (snd st)) then on_init msg isBinary st
  else if negb (headerReceived (snd st))
       then Normal (on_header_chunk env msg isBinary st)
       else Normal (on_stream_chunk env msg isBinary st).

End Handlers.

(** [ffmpeg.on('close', (code, signal) => ...)] (lines 141-147). *)
Definition on_ffmpeg_close (code : option Z) (signal : option string)
    (s : Session) : Session * list Effect :=
  (set_ffmpeg None (set_ffmpegError true s),
   [WsSend (NoticeExit "FFmpeg exited" code signal); WsClose]).

(** [ffmpeg.stdin.on('error', (e) => ...)] (lines 148-153). *)
Definition on_stdin_error (message : string) (s : Session)
  : Session * list Effect :=
  (set_ffmpegError true s,
   [WsSend (NoticeMessage "FFmpeg stdin error" message); WsClose]).

(** [ws.on('close', () => ...)] (lines 186-199). *)
Definition on_ws_close (st : State) : Result :=
  let '(keys, s) := st in
  let '(s, stop) :=
    match ffmpeg s with
    | Some p => (set_ffmpeg None s, [StdinEnd p; Kill p "SIGINT"])
    | None => (s, [])
    end in
  let keys :=
    match rtmpKey s with
    | Some key =>
        if negb (no_key (rtmpKey s)) && bool_decide (key ∈ keys)
        then keys ∖ {[key]} else keys
    | None => keys
    end in
  (keys, set_idleInterval false s, stop ++ [ClearInterval]).

(** [ws.on('error', ...)] (lines 201-203) only logs. *)
Definition on_ws_error (s : Session) : Session * list Effect := (s, []).

(** ** One connection as an event-driven machine *)

(** The callbacks the runtime can run on a connection. *)
Inductive Callback : Type :=
| Message (env : Env) (msg : Buffer) (isBinary : bool)
| IdleTick (t : Z)
| FfmpegClose (code : option Z) (signal : option string)
| StdinError (message : string)
| WsClosed
| WsError.

(** The runtime runs a callback only while it is installed:
    - the socket emits ['close'] once and nothing after it; the close
      callback is the one that clears the timer, so [idleInterval] tells
      whether it has run;
    - the timer fires only until it is cleared;
    - the two process callbacks are installed by the branch that spawns,
      which is the branch that sets [headerReceived]. *)
Definition conn_step `{Platform} (cb : Callback) (st : State)
  : Completion Result :=
  let '(keys, s) := st in
  match cb with
  | Message env msg isBinary =>
      if idleInterval s then on_message env msg isBinary st
      else Normal (st, [])
  | IdleTick t =>
      if idleInterval s
      then let '(s, out) := idle_tick t s in Normal (keys, s, out)
      else Normal (st, [])
  | FfmpegClose code signal =>
      if headerReceived s
      then let '(s, out) := on_ffmpeg_close code signal s in
           Normal (keys, s, out)
      else Normal (st, [])
  | StdinError message =>
      if headerReceived s
      then let '(s, out) := on_stdin_error message s in Normal (keys, s, out)
      else Normal (st, [])
  | WsClosed =>
      if idleInterval s then Normal (on_ws_close st) else Normal (st, [])
  | WsError =>
      let '(s, out) := on_ws_error s in Normal (keys, s, out)
  end.

(** Callbacks run one at a time, each to completion; an escaped exception
    ends the run. *)
Fixpoint conn_run `{Platform} (cbs : list Callback) (st : State)
  : Completion Result :=
  match cbs with
  | [] => Normal (st, [])
  | cb :: cbs =>
      match conn_step cb st with
      | Normal (st, out) =>
          match conn_run cbs st with
          | Normal (st, out') => Normal (st, out ++ out')
          | Throw e => Throw e
          end
      | Throw e => Throw e
      end
  end.

(** ** The server: the shared set and all connection closures *)

Record Server : Type := mkServer {
  activeKeys : gset JSString;          (* const activeKeys = new Set() *)
  connections : gmap nat Session       (* one closure per accepted socket *)
}.

Definition boot : Server := mkServer ∅ ∅.

Inductive Event : Type :=
| Connect (c : nat) (t : Z)      (* wss 'connection' of a new socket, at t *)
| Fire (c : nat) (cb : Callback).

Abbreviation Trace := (list (nat * Effect)).

Definition step `{Platform} (ev : Event) (srv : Server)
  : Completion (Server * Trace) :=
  match ev with
  | Connect c t =>
      match connections srv !! c with
      | None =>
          Normal (mkServer (activeKeys srv)
                           (<[c := new_session t]> (connections srv)), [])
      | Some _ => Normal (srv, [])
      end
  | Fire c cb =>
      match connections srv !! c with
      | Some s =>
          match conn_step cb (activeKeys srv, s) with
          | Normal (keys, s, out) =>
              Normal (mkServer keys (<[c := s]> (connections srv)),
                      (fun e => (c, e)) <$> out)
          | Throw e => Throw e
          end
      | None => Normal (srv, [])
      end
  end.

Fixpoint run `{Platform} (evs : list Event) (srv : Server)
  : Completion (Server * Trace) :=
  match evs with
  | [] => Normal (srv, [])
  | ev :: evs =>
      match step ev srv with
      | Normal (srv, out) =>
          match run evs srv with
          | Normal (srv, out') => Normal (srv, out ++ out')
          | Throw e => Throw e
          end
      | Throw e => Throw e
      end
  end.

(** A connection holds key [k] from the callback that added it to
    [activeKeys] (the only one that sets [started]) until its close
    callback has run. *)
Definition holds (k : JSString) (s : Session) : bool :=
  started s && idleInterval s && bool_decide (rtmpKey s = Some k).

(** Calls that create a child process or feed one. *)
Definition feeds_process (e : Effect) : bool :=
  match e with
  | Spawn _ _ _ | StdinWrite _ _ => true
  | _ => false
  end.

(** The effects of connection [c] in a trace. *)
Definition of_conn (c : nat) (tr : Trace) : list Effect :=
  snd <$> filter (fun ce => fst ce = c) tr.

(** ** A runtime to run the model on

    The statements below hold for every [Platform].  To evaluate the
    handlers on concrete messages one is needed: [Node.platform] decodes
    buffers of ASCII bytes and parses JSON text (ECMA-404) over the value
    type above.  It agrees with Node on ASCII input, which is all the
    examples feed it; a byte above 0x7F is decoded as U+FFFD, and a number
    is not evaluated: it counts as non-zero when a digit of its integer or
    fraction part is. *)
Module Node.

Definition toString (b : Buffer) : JSString :=
  (fun x => let n := Byte.to_N x in if (n <? 0x80)%N then n else 0xFFFD%N) <$> b.

Definition is_ws (c : N) : bool :=
  ((c =? 0x20) || (c =? 0x09) || (c =? 0x0A) || (c =? 0x0D))%N.

Fixpoint skip_ws (s : JSString) : JSString :=
  match s with
  | c :: r => if is_ws c then skip_ws r else s
  | [] => []
  end.

Definition is_digit (c : N) : bool := ((0x30 <=? c) && (c <=? 0x39))%N.

Definition hex_digit (c : N) : option N :=
  if is_digit c then Some (c - 0x30)%N
  else if ((0x41 <=? c) && (c <=? 0x46))%N then Some (c - 0x41 + 10)%N
  else if ((0x61 <=? c) && (c <=? 0x66))%N then Some (c - 0x61 + 10)%N
  else None.

Definition hex4 (a b c d : N) : option N :=
  match hex_digit a, hex_digit b, hex_digit c, hex_digit d with
  | Some a, Some b, Some c, Some d => Some (((a * 16 + b) * 16 + c) * 16 + d)%N
  | _, _, _, _ => None
  end.

(** The character a one-letter escape stands for. *)
Definition escape (e : N) : option N :=
  if (e =? 0x22)%N then Some 0x22%N          (* quotation mark *)
  else if (e =? 0x5C)%N then Some 0x5C%N     (* backslash *)
  else if (e =? 0x2F)%N then Some 0x2F%N     (* slash *)
  else if (e =? 0x62)%N then Some 0x08%N     (* b *)
  else if (e =? 0x66)%N then Some 0x0C%N     (* f *)
  else if (e =? 0x6E)%N then Some 0x0A%N     (* n *)
  else if (e =? 0x72)%N then Some 0x0D%N     (* r *)
  else if (e =? 0x74)%N then Some 0x09%N     (* t *)
  else None.

(** A string, after its opening quotation mark. *)
Fixpoint string_body (s acc : JSString) : option (JSString * JSString) :=
  match s with
  | [] => None
  | c :: r =>
      if (c =? 0x22)%N then Some (rev acc, r)
      else if (c =? 0x5C)%N then
        match r with
        | e :: r' =>
            if (e =? 0x75)%N then
              match r' with
              | h1 :: h2 :: h3 :: h4 :: r'' =>
                  match hex4 h1 h2 h3 h4 with
                  | Some u => string_body r'' (u :: acc)
                  | None => None
                  end
              | _ => None
              end
            else
              match escape e with
              | Some u => string_body r' (u :: acc)
              | None => None
              end
        | [] => None
        end
      else if (c <? 0x20)%N then None
      else string_body r (c :: acc)
  end.

(** A run of digits: how many, whether one of them is not 0, and the rest. *)
Fixpoint digits (s : JSString) : nat * bool * JSString :=
  match s with
  | c :: r =>
      if is_digit c
      then let '(n, nz, r') := digits r in (S n, negb (c =? 0x30)%N || nz, r')
      else (O, false, s)
  | [] => (O, false, [])
  end.

Definition exponent (s : JSString) : option JSString :=
  match s with
  | c :: r =>
      if ((c =? 0x65) || (c =? 0x45))%N then
        let r := match r with
                 | g :: r' => if ((g =? 0x2B) || (g =? 0x2D))%N then r' else r
                 | [] => r
                 end in
        let '(n, _, r') := digits r in
        match n with O => None | S _ => Some r' end
      else Some s
  | [] => Some s
  end.

Definition fraction (s : JSString) : option (bool * JSString) :=
  match s with
  | c :: r =>
      if (c =? 0x2E)%N then
        let '(n, nz, r') := digits r in
        match n with O => None | S _ => Some (nz, r') end
      else Some (false, s)
  | [] => Some (false, s)
  end.

Definition number (s : JSString) : option (JSValue * JSString) :=
  let s := match s with
           | c :: r => if (c =? 0x2D)%N then r else s
           | [] => s
           end in
  let int :=
    match s with
    | c :: r =>
        if (c =? 0x30)%N then Some (false, r)
        else if is_digit c then let '(_, _, r') := digits r in Some (true, r')
        else None
    | [] => None
    end in
  match int with
  | Some (nz, r) =>
      match fraction r with
      | Some (nz', r) =>
          match exponent r with
          | Some r => Some (JNumber (nz || nz'), r)
          | None => None
          end
      | None => None
      end
  | None => None
  end.

Definition literal (s : JSString) : option (JSValue * JSString) :=
  match strip_prefix (str "true") s with
  | Some r => Some (JBool true, r)
  | None =>
      match strip_prefix (str "false") s with
      | Some r => Some (JBool false, r)
      | None =>
          match strip_prefix (str "null") s with
          | Some r => Some (JNull, r)
          | None => number s
          end
      end
  end.

(** Members and items are collected newest first, so that [assoc] finds
    the last of several members with the same name, as [JSON.parse] does. *)
Fixpoint value (fuel : nat) (s : JSString) : option (JSValue * JSString) :=
  match fuel with
  | O => None
  | S fuel =>
      match skip_ws s with
      | [] => None
      | c :: r =>
          if (c =? 0x22)%N then
            match string_body r [] with
            | Some (t, r) => Some (JString t, r)
            | None => None
            end
          else if (c =? 0x7B)%N then
            match skip_ws r with
            | d :: r' => if (d =? 0x7D)%N then Some (JObject [], r')
                         else members fuel r []
            | [] => None
            end
          else if (c =? 0x5B)%N then
            match skip_ws r with
            | d :: r' => if (d =? 0x5D)%N then Some (JArray [], r')
                         else items fuel r []
            | [] => None
            end
          else literal (c :: r)
      end
  end
with members (fuel : nat) (s : JSString) (acc : list (JSString * JSValue))
  : option (JSValue * JSString) :=
  match fuel with
  | O => None
  | S fuel =>
      match skip_ws s with
      | c :: r =>
          if (c =? 0x22)%N then
            match string_body r [] with
            | Some (k, r) =>
                match skip_ws r with
                | d :: r =>
                    if (d =? 0x3A)%N then
                      match value fuel r with
                      | Some (v, r) =>
                          match skip_ws r with
                          | e :: r =>
                              if (e =? 0x2C)%N
                              then members fuel r ((k, v) :: acc)
                              else if (e =? 0x7D)%N
                              then Some (JObject ((k, v) :: acc), r)
                              else None
                          | [] => None
                          end
                      | None => None
                      end
                    else None
                | [] => None
                end
            | None => None
            end
          else None
      | [] => None
      end
  end
with items (fuel : nat) (s : JSString) (acc : list JSValue)
  : option (JSValue * JSString) :=
  match fuel with
  | O => None
  | S fuel =>
      match value fuel s with
      | Some (v, r) =>
          match skip_ws r with
          | e :: r =>
              if (e =? 0x2C)%N then items fuel r (v :: acc)
              else if (e =? 0x5D)%N then Some (JArray (rev (v :: acc)), r)
              else None
          | [] => None
          end
      | None => None
      end
  end.

Definition parse (s : JSString) : option JSValue :=
  match value (S (length s)) s with
  | Some (v, r) => match skip_ws r with [] => Some v | _ => None end
  | None => None
  end.

Definition platform : Platform :=
  {| Buffer_toString := toString; JSON_parse := parse |}.

(** The bytes of the text [{"rtmpUrl":"<url>"}]. *)
Definition init_message (url : string) : Buffer :=
  list_byte_of_string "{" ++ [x22] ++ list_byte_of_string "rtmpUrl" ++ [x22]
  ++ list_byte_of_string ":" ++ [x22] ++ list_byte_of_string url ++ [x22]
  ++ list_byte_of_string "}".

(** An environment for callbacks whose reads do not matter. *)
Definition env (t : Z) : Env := mkEnv t 1 true None.

End Node.

(** * Vocabulary of the statements *)

(** The four bytes line 113 names. *)
Definition EBML_SIGNATURE : Buffer := [x1a; x45; xdf; xa3].

(** A text [(.+)$] can capture: not empty, no line terminator. *)
Definition dot_text (k : JSString) : Prop :=
  k <> [] /\ Forall (fun c => is_line_terminator c = false) k.

(** The text after the last [/] of [s] (all of [s] when it has none): the
    final path segment that the specification, and the comment of line 83,
    take the key to be. *)
Fixpoint final_segment (s : JSString) : JSString :=
  match s with
  | [] => []
  | c :: r =>
      if existsb (N.eqb 0x2F) r then final_segment r
      else if (c =? 0x2F)%N then r else c :: r
  end.

(** The first message carries [url] as its destination. *)
Definition carries_url `{Platform} (msg : Buffer) (url : JSString) : Prop :=
  exists init, JSON_parse (Buffer_toString msg) = Some init
               /\ get_prop init (str "rtmpUrl") = Some (JString url).

(** Calls on a child process. *)
Definition touches_process (e : Effect) : bool :=
  match e with
  | Spawn _ _ _ | StdinWrite _ _ | StdinEnd _ | Kill _ _ => true
  | _ => false
  end.

(** Callbacks of the socket and of the timer, as opposed to those of the
    child process. *)
Definition of_socket_or_timer (cb : Callback) : bool :=
  match cb with
  | Message _ _ _ | IdleTick _ | WsClosed | WsError => true
  | FfmpegClose _ _ | StdinError _ => false
  end.

Definition is_message (cb : Callback) : bool :=
  match cb with
  | Message _ _ _ => true
  | _ => false
  end.

(** Messages, timer ticks and socket errors. *)
Definition quiet (cb : Callback) : bool :=
  match cb with
  | Message _ _ _ | IdleTick _ | WsError => true
  | _ => false
  end.

Definition is_tick_of (c : nat) (ev : Event) : Prop :=
  exists t, ev = Fire c (IdleTick t).

(** Facts about the variables of a closure that every callback keeps. *)
Definition session_inv (s : Session) : Prop :=
  (started s = false -> headerReceived s = false)
  /\ (started s = false -> initialBuffer s = [])
  /\ (headerReceived s = false -> ffmpeg s = None)
  /\ (headerReceived s = true -> initialBuffer s = [])
  /\ (started s = true ->
      exists url key, ws_rtmpUrl s = Some url /\ rtmpKey s = Some key
                      /\ match_live2 url = Some key).

(** The invariant of the whole server, with the trace that led to it: a
    connection whose header has not been seen has touched no process. *)
Definition server_inv (srv : Server) (tr : Trace) : Prop :=
  forall c,
    match connections srv !! c with
    | Some s =>
        session_inv s
        /\ (headerReceived s = false ->
            Forall (fun e => touches_process e = false) (of_conn c tr))
    | None => of_conn c tr = []
    end.

(** The header was accepted and a failure of the process has been
    recorded. *)
Definition failed (s : Session) : Prop :=
  started s = true /\ headerReceived s = true /\ ffmpegError s = true.

(** The header was accepted, the process handle has been dropped and the
    socket has not closed yet. *)
Definition stopped (s : Session) : Prop :=
  started s = true /\ headerReceived s = true /\ ffmpeg s = None
  /\ idleInterval s = true.

(** The variables of a connection that has sent its first message for
    [url] and [key] and nothing else. *)
Definition awaiting_header (t : Z) (url key : JSString) : Session :=
  mkSession None true t false [] false (Some key) (Some url) true.

(** The variables of a connection whose header has just been accepted. *)
Definition streaming (t : Z) (p : ChildProcess) (url key : JSString) : Session :=
  mkSession (Some p) true t false [] true (Some key) (Some url) true.

(** ** Runs used as examples *)

Definition KEY_URL : string := "rtmp://a.rtmp.youtube.com/live2/KEY".

(** A publisher connects, names its destination and sends two bytes that
    are not a header. *)
Definition publisher_waiting : list Event :=
  [Connect 1 0;
   Fire 1 (Message (Node.env 1) (Node.init_message KEY_URL) false);
   Fire 1 (Message (Node.env 2) [x00; x01] true)].

(** Three publishers name the same destination: the second while the first
    is connected, the third after the second, refused, has closed. *)
Definition third_publisher : list Event :=
  [Connect 1 0;
   Fire 1 (Message (Node.env 1) (Node.init_message KEY_URL) false);
   Connect 2 2;
   Fire 2 (Message (Node.env 3) (Node.init_message KEY_URL) false);
   Fire 2 WsClosed;
   Connect 3 4;
   Fire 3 (Message (Node.env 5) (Node.init_message KEY_URL) false)].

(** A server with one connection, streaming to [KEY_URL]. *)
Definition one_streaming : Server :=
  mkServer {[str "KEY"]} {[1%nat := streaming 0 7 (str KEY_URL) (str "KEY")]}.

(** A server with two connections that have not sent anything yet. *)
Definition two_connected : Server :=
  mkServer ∅ (<[2%nat := new_session 2]> {[1%nat := new_session 0]}).

(** The bytes of the scenario's destination, then a chunk that is not a
    header, then a chunk that begins with the signature. *)
Definition late_header : list Callback :=
  [Message (Node.env 1)
     (Node.init_message "https://relay.example/live2/ABCDEF") false;
   Message (Node.env 2) [x00] true;
   Message (Node.env 3) (EBML_SIGNATURE ++ [x01; x02]) true].

(** * Further vocabulary: whole runs of [server.js] *)

(** The bytes handed to [stdin.write], in the order of the calls. *)
Fixpoint written (out : list Effect) : Buffer :=
  match out with
  | [] => []
  | StdinWrite _ data :: out => data ++ written out
  | _ :: out => written out
  end.

(** The bytes of the binary messages among [cbs], in order. *)
Fixpoint binary_bytes (cbs : list Callback) : Buffer :=
  match cbs with
  | [] => []
  | Message _ msg true :: cbs => msg ++ binary_bytes cbs
  | _ :: cbs => binary_bytes cbs
  end.

(** Messages for which the input of the process is writable and the write
    returns. *)
Definition healthy_message (cb : Callback) : Prop :=
  exists env msg tag,
    cb = Message env msg tag
    /\ stdin_writable env = true /\ write_error env = None.


(** Every key of [activeKeys] is held by a connection that is still open. *)
Definition keys_held (srv : Server) : Prop :=
  forall k, k ∈ activeKeys srv ->
    exists c s, connections srv !! c = Some s /\ holds k s = true.

(** Every socket has closed. *)
Definition all_closed (srv : Server) : Prop :=
  forall c s, connections srv !! c = Some s -> idleInterval s = false.

(** The destination of the first message is a value [rtmpUrl.match] cannot
    be called on: truthy and not a string. *)
Definition carries_non_string `{Platform} (msg : Buffer) : Prop :=
  exists init v,
    JSON_parse (Buffer_toString msg) = Some init
    /\ get_prop init (str "rtmpUrl") = Some v
    /\ truthy v = true /\ forall url, v <> JString url.

(** The bytes of the text [{"rtmpUrl":5}]. *)
Definition number_init : Buffer :=
  list_byte_of_string "{" ++ [x22] ++ list_byte_of_string "rtmpUrl"
  ++ [x22] ++ list_byte_of_string ":5}".

(** The key variable of a closure is [null] or a non-empty string. *)
Definition key_inv (s : Session) : Prop :=
  forall k, rtmpKey s = Some k -> k <> [].

(** The binary messages among [cbs], in order. *)
Fixpoint binary_chunks (cbs : list Callback) : list Buffer :=
  match cbs with
  | [] => []
  | Message _ msg true :: cbs => msg :: binary_chunks cbs
  | _ :: cbs => binary_chunks cbs
  end.


(** A server with one uninitialised connection. *)
Definition one_connected : Server := mkServer ∅ {[1%nat := new_session 0]}.

(** A server with connection 1 streaming to [KEY_URL] and connection 2 not
    yet initialised. *)
Definition streaming_and_new : Server :=
  mkServer {[str "KEY"]}
           (<[2%nat := new_session 5]>
              {[1%nat := streaming 0 7 (str KEY_URL) (str "KEY")]}).

(** * [working-youtube-server.js]

    The file holds two earlier servers.  The first (lines 30-155) is
    [server.js] without the set of keys and without the header check: the
    first message spawns at once, failures of the process are only logged.
    Its connection closure is modelled in the same style. *)
Module Working.

Inductive Effect : Type :=
| WsSend (n : Notice)
| WsClose
| Spawn (command : string) (args : list string) (dest : JSValue)
    (* spawn(command, [...args, dest], {stdio}): [dest] is whatever truthy
       value the first message carried *)
| StdinWrite (p : ChildProcess) (data : Buffer)
| StdinEnd (p : ChildProcess)
| Kill (p : ChildProcess) (signal : string)
| ClearInterval.

(** [ffArgs] without the destination (lines 70-98). *)
Definition ffArgs : list string :=
  [ "-fflags"; "+nobuffer";
    "-hide_banner";
    "-loglevel"; "info";
    "-f"; "webm";
    "-i"; "pipe:0";
    "-c:v"; "libx264";
    "-preset"; "fast";
    "-tune"; "zerolatency";
    "-r"; "30";
    "-g"; "60";
    "-b:v"; "2000k";
    "-maxrate"; "2200k";
    "-bufsize"; "3000k";
    "-c:a"; "aac";
    "-ar"; "44100";
    "-b:a"; "128k";
    "-f"; "flv";
    "-flvflags"; "no_duration_filesize" ]%string.

(** The variables of the closure (lines 33-35, 39). *)
Record Session : Type := mkSession {
  ffmpeg : option ChildProcess;      (* let ffmpeg = null *)
  started : bool;                    (* let started = false *)
  lastChunkAt : Z;                   (* let lastChunkAt = Date.now() *)
  idleInterval : bool                (* the interval timer is still set *)
}.

Definition new_session (t : Z) : Session := mkSession None false t true.

(** The timer callback (lines 39-46). *)
Definition idle_tick (t : Z) (s : Session) : Session * list Effect :=
  match ffmpeg s with
  | Some p =>
      if (IDLE_TIMEOUT_MS <? t - lastChunkAt s)%Z
      then (mkSession None (started s) (lastChunkAt s) (idleInterval s),
            [StdinEnd p; Kill p "SIGINT"])
      else (s, [])
  | None => (s, [])
  end.

(** [ws.on('message', (msg, isBinary) => ...)] (lines 48-140).  A write
    that throws is caught and logged: [write_error] is read by nobody. *)
Definition on_message `{Platform} (env : Env) (msg : Buffer) (isBinary : bool)
    (s : Session) : Session * list Effect :=
  if negb (started s) then
    match JSON_parse_arg (if isBinary then ArgString (Buffer_toString msg)
                          else ArgBuffer msg) with
    | None => (s, [WsSend (NoticeError "Invalid init JSON"); WsClose])
    | Some init =>
        let rtmpUrl :=
          if truthy init && truthy_opt (get_prop init (str "rtmpUrl"))
          then get_prop init (str "rtmpUrl") else None in
        if negb (truthy_opt rtmpUrl) then
          (s, [WsSend (NoticeError "Missing rtmpUrl in init message");
               WsClose])
        else
          match rtmpUrl with
          | Some url =>
              (mkSession (Some (spawned env)) true (lastChunkAt s)
                         (idleInterval s),
               [Spawn "ffmpeg" ffArgs url;
                WsSend (NoticeOk "ffmpeg started")])
          | None => (s, [])   (* not reached: [null] is falsy *)
          end
    end
  else if negb isBinary then (s, [])
  else
    let s := mkSession (ffmpeg s) (started s) (now env) (idleInterval s) in
    match ffmpeg s with
    | Some p => if stdin_writable env then (s, [StdinWrite p msg]) else (s, [])
    | None => (s, [])
    end.

(** [ffmpeg.on('close', ...)] (lines 110-113). *)
Definition on_ffmpeg_close (s : Session) : Session * list Effect :=
  (mkSession None (started s) (lastChunkAt s) (idleInterval s), []).

(** [ffmpeg.stdin.on('error', ...)] (lines 115-117) only logs. *)
Definition on_stdin_error (s : Session) : Session * list Effect := (s, []).

(** [ws.on('close', ...)] (lines 142-150). *)
Definition on_ws_close (s : Session) : Session * list Effect :=
  match ffmpeg s with
  | Some p =>
      (mkSession None (started s) (lastChunkAt s) false,
       [StdinEnd p; Kill p "SIGINT"; ClearInterval])
  | None =>
      (mkSession (ffmpeg s) (started s) (lastChunkAt s) false, [ClearInterval])
  end.

(** The callbacks the runtime can run, installed as in [conn_step]: the
    process callbacks exist once [started] is set. *)
Definition conn_step `{Platform} (cb : Callback) (s : Session)
  : Session * list Effect :=
  match cb with
  | Message env msg isBinary =>
      if idleInterval s then on_message env msg isBinary s else (s, [])
  | IdleTick t => if idleInterval s then idle_tick t s else (s, [])
  | FfmpegClose _ _ => if started s then on_ffmpeg_close s else (s, [])
  | StdinError _ => if started s then on_stdin_error s else (s, [])
  | WsClosed => if idleInterval s then on_ws_close s else (s, [])
  | WsError => (s, [])
  end.

Fixpoint conn_run `{Platform} (cbs : list Callback) (s : Session)
  : Session * list Effect :=
  match cbs with
  | [] => (s, [])
  | cb :: cbs =>
      let '(s, out) := conn_step cb s in
      let '(s, out') := conn_run cbs s in
      (s, out ++ out')
  end.

(** The bytes handed to [stdin.write], in the order of the calls. *)
Fixpoint written (out : list Effect) : Buffer :=
  match out with
  | [] => []
  | StdinWrite _ data :: out => data ++ written out
  | _ :: out => written out
  end.

(** Calls on the socket. *)
Definition on_socket (e : Effect) : bool :=
  match e with
  | WsSend _ | WsClose => true
  | _ => false
  end.

Definition is_write (e : Effect) : bool :=
  match e with
  | StdinWrite _ _ => true
  | _ => false
  end.

End Working.

(** * Strings: [trim] and the second pattern *)

(** WhiteSpace and LineTerminator of ECMAScript: what [trim] strips. *)
Definition is_trim_space (c : N) : bool :=
  ((c =? 0x09) || (c =? 0x0A) || (c =? 0x0B) || (c =? 0x0C) || (c =? 0x0D)
   || (c =? 0x20) || (c =? 0xA0) || (c =? 0x1680)
   || ((0x2000 <=? c) && (c <=? 0x200A))
   || (c =? 0x2028) || (c =? 0x2029) || (c =? 0x202F) || (c =? 0x205F)
   || (c =? 0x3000) || (c =? 0xFEFF))%N.

Fixpoint trim_start (s : JSString) : JSString :=
  match s with
  | c :: r => if is_trim_space c then trim_start r else s
  | [] => []
  end.

Definition trim_end (s : JSString) : JSString := rev (trim_start (rev s)).

(** [s.trim()] *)
Definition trim (s : JSString) : JSString := trim_end (trim_start s).

(** [\/.+] at the start of [s]. *)
Definition slash_dot (s : JSString) : bool :=
  match s with
  | c :: d :: _ => (c =? 0x2F)%N && negb (is_line_terminator d)
  | _ => false
  end.

(** [.+\/.+] at the start of [s]: the first [.+] takes one character or
    more, none of them a line terminator, and may stop wherever [\/.+]
    follows. *)
Fixpoint dot_plus_slash_dot (s : JSString) : bool :=
  match s with
  | c :: r => negb (is_line_terminator c) && (slash_dot r || dot_plus_slash_dot r)
  | [] => false
  end.

(** [/^rtmp:\/\/.+\/.+/.test(s)] *)
Definition test_rtmp (s : JSString) : bool :=
  match strip_prefix (str "rtmp://") s with
  | Some rest => dot_plus_slash_dot rest
  | None => false
  end.

(** * The second server of [working-youtube-server.js] (lines 159-268) *)
Module Fallback.

Definition defaultUrl : JSString := str "rtmp://a.rtmp.youtube.com/live2".
Definition defaultKey : JSString := str "your-default-stream-key".

(** [`${defaultUrl}/${defaultKey}`] *)
Definition default_destination : JSString :=
  defaultUrl ++ str "/" ++ defaultKey.

(** The value of [rtmpUrl] after the [try] block (lines 206-214). *)
Definition candidate `{Platform} (msg : Buffer) : JSString :=
  match JSON_parse (Buffer_toString msg) with
  | Some data =>
      match (if truthy data then get_prop data (str "rtmpUrl") else None) with
      | Some (JString u) =>
          if truthy (JString (trim u)) then trim u else default_destination
      | _ => default_destination
      end
  | None => default_destination
  end.

(** The value of [rtmpUrl] handed to [spawn] (lines 215-219). *)
Definition destination `{Platform} (msg : Buffer) : JSString :=
  let rtmpUrl := candidate msg in
  if negb (test_rtmp rtmpUrl) then default_destination else rtmpUrl.

Inductive Effect : Type :=
| Spawn (command : string) (args : list string) (dest : JSString)
| StdinWrite (p : ChildProcess) (data : Buffer)
| StdinEnd (p : ChildProcess)
| Kill (p : ChildProcess) (signal : string).

(** The arguments before the destination (lines 222-237). *)
Definition ffArgs : list string :=
  [ "-re";
    "-f"; "webm";
    "-c:v"; "vp8";
    "-c:a"; "opus";
    "-i"; "pipe:0";
    "-c:v"; "libx264";
    "-preset"; "veryfast";
    "-r"; "30";
    "-g"; "60";
    "-b:v"; "2500k";
    "-c:a"; "aac";
    "-b:a"; "128k";
    "-f"; "flv";
    "-flvflags"; "no_duration_filesize" ]%string.

Record Session : Type := mkSession {
  ffmpeg : option ChildProcess;      (* let ffmpeg *)
  started : bool                     (* let started = false *)
}.

Definition new_session : Session := mkSession None false.

(** [ws.on("message", (msg) => ...)] (lines 203-252).  The write is not in
    a [try]: when it throws, the error escapes. *)
Definition on_message `{Platform} (env : Env) (msg : Buffer) (s : Session)
  : Completion (Session * list Effect) :=
  if negb (started s) then
    Normal (mkSession (Some (spawned env)) true,
            [Spawn "ffmpeg" ffArgs (destination msg)])
  else
    match ffmpeg s with
    | Some p =>
        if stdin_writable env then
          match write_error env with
          | None => Normal (s, [StdinWrite p msg])
          | Some m => Throw m
          end
        else Normal (s, [])
    | None => Normal (s, [])
    end.

(** [ws.on("close", ...)] (lines 254-262): both calls are in one [try], so
    [kill] is not reached when [stdin.end] throws. *)
Definition on_ws_close (end_throws : bool) (s : Session)
  : Session * list Effect :=
  match ffmpeg s with
  | Some p =>
      (s, if end_throws then [StdinEnd p] else [StdinEnd p; Kill p "SIGINT"])
  | None => (s, [])
  end.

(** The message callback on one message after another, each with what it
    reads of its environment; an error that escapes the callback ends the
    run. *)
Fixpoint on_messages `{Platform} (ms : list (Env * Buffer)) (s : Session)
  : Completion (Session * list Effect) :=
  match ms with
  | [] => Normal (s, [])
  | (env, msg) :: ms =>
      match on_message env msg s with
      | Throw e => Throw e
      | Normal (s, out) =>
          match on_messages ms s with
          | Throw e => Throw e
          | Normal (s, out') => Normal (s, out ++ out')
          end
      end
  end.

End Fallback.

(** * The page script ([static/js/script.js]) *)
Module Page.

(** [s.replaceAll(c, rep)] for a pattern [c] of one code unit and a
    replacement without [$]: every occurrence is replaced, left to right. *)
Definition replaceAll (c : N) (rep : JSString) (s : JSString) : JSString :=
  flat_map (fun x => if (x =? c)%N then rep else [x]) s.

(** [escapeHtml(s)] (lines 158-161): a falsy argument gives the empty
    string; on a truthy value that is not a string, [replaceAll] is not a
    function. *)
Definition escapeHtml (s : option JSValue) : Completion JSString :=
  if negb (truthy_opt s) then Normal []
  else
    match s with
    | Some (JString s) =>
        Normal (replaceAll 0x3E (str "&gt;")
                  (replaceAll 0x3C (str "&lt;")
                     (replaceAll 0x26 (str "&amp;") s)))
    | _ => Throw "TypeError: s.replaceAll is not a function"
    end.

(** [text.split(/\r?\n/)]: [cur] is the piece being read, reversed. *)
Fixpoint split_lines_from (cur : JSString) (s : JSString) : list JSString :=
  match s with
  | [] => [rev cur]
  | c :: r =>
      if (c =? 0x0A)%N then rev cur :: split_lines_from [] r
      else
        match r with
        | d :: r' =>
            if ((c =? 0x0D) && (d =? 0x0A))%N
            then rev cur :: split_lines_from [] r'
            else split_lines_from (c :: cur) r
        | [] => split_lines_from (c :: cur) r
        end
  end.

Definition split_lines (s : JSString) : list JSString := split_lines_from [] s.

(** [value.split(/\r?\n/).map(l => l.trim()).filter(l => l)] (line 224) *)
Definition parse_links (value : JSString) : list JSString :=
  filter (fun l => l <> []) (trim <$> split_lines value).

(** [links.join("\n")] (line 233) *)
Fixpoint join_lines (links : list JSString) : JSString :=
  match links with
  | [] => []
  | [l] => l
  | l :: links => l ++ 0x0A%N :: join_lines links
  end.

(** One character of the text, as the three passes of [escapeHtml] leave
    it. *)
Definition escape_unit (x : N) : JSString :=
  if (x =? 0x26)%N then str "&amp;"
  else if (x =? 0x3C)%N then str "&lt;"
  else if (x =? 0x3E)%N then str "&gt;"
  else [x].

End Page.

(** * Further vocabulary: the other files *)

(** Messages that find the input of the process writable. *)
Definition writable_message (cb : Callback) : Prop :=
  exists env msg tag, cb = Message env msg tag /\ stdin_writable env = true.

(** Messages of a healthy connection to the second server: the input is
    writable and the write returns. *)
Definition healthy_env (env : Env) : Prop :=
  stdin_writable env = true /\ write_error env = None.

(** A string [trim] leaves alone: it neither starts nor ends with white
    space. *)
Definition trimmed (l : JSString) : Prop :=
  (forall c r, l = c :: r -> is_trim_space c = false)
  /\ (forall c r, l = r ++ [c] -> is_trim_space c = false).

(** The bytes of the text [{"rtmpUrl":"  rtmp://host/app/key  "}]. *)
Definition padded_init : Buffer :=
  Node.init_message "  rtmp://host/app/key  ".

(** * Further vocabulary: what follows a stop or a refusal *)

(** Callbacks of the child process: its exit and the error of its input. *)
Definition of_process (cb : Callback) : bool :=
  match cb with
  | FfmpegClose _ _ | StdinError _ => true
  | _ => false
  end.

(** An event that leaves [last] as the latest time at which connection [c]
    was made or was sent a binary message. *)
Definition no_chunk_since (c : nat) (last : Z) (ev : Event) : Prop :=
  match ev with
  | Connect c' t0 => c' = c -> (t0 <= last)%Z
  | Fire c' (Message env _ true) => c' = c -> (now env <= last)%Z
  | _ => True
  end.

(** Of connection [c], [evs] runs only messages, ticks and socket errors. *)
Definition calm (c : nat) (evs : list Event) : Prop :=
  forall cb, Fire c cb ∈ evs -> quiet cb = true.

(** How many times [ws.close()] is called in [out]. *)
Definition ws_closes (out : list Effect) : nat :=
  length (filter (fun e => e = WsClose) out).

(** How many callbacks of the process of connection [c] run in [evs]. *)
Definition is_report (c : nat) (ev : Event) : bool :=
  match ev with
  | Fire c' cb => bool_decide (c' = c) && of_process cb
  | Connect _ _ => false
  end.

Definition process_reports (c : nat) (evs : list Event) : nat :=
  length (filter (fun ev => is_report c ev = true) evs).

(** The header was accepted and the process handle has been dropped. *)
Definition handle_dropped (s : Session) : Prop :=
  started s = true /\ headerReceived s = true /\ ffmpeg s = None.

(** The buffer starts with the four bytes of line 113. *)
Definition begins_with_signature (b : Buffer) : Prop :=
  exists rest, b = EBML_SIGNATURE ++ rest.

(** A publisher connects at time 0, names its destination and sends a
    header. *)
Definition stream_started : list Event :=
  [Connect 1 0;
   Fire 1 (Message (Node.env 1) (Node.init_message KEY_URL) false);
   Fire 1 (Message (Node.env 2) (EBML_SIGNATURE ++ [x01]) true)].

(** Two publishers name the same destination; the second is refused. *)
Definition second_refused : list Event :=
  [Connect 1 0;
   Fire 1 (Message (Node.env 1) (Node.init_message KEY_URL) false);
   Connect 2 2;
   Fire 2 (Message (Node.env 3) (Node.init_message KEY_URL) false)].

(** * Properties *)

(** ** The example runtime on the messages used below *)

Example Node_parse_init :
  Node.parse (Node.toString (Node.init_message "rtmp://a.rtmp.youtube.com/live2/KEY"))
  = Some (JObject [(str "rtmpUrl", JString (str "rtmp://a.rtmp.youtube.com/live2/KEY"))]).
Proof. vm_compute. reflexivity. Qed.

Example Node_parse_garbage :
  Node.parse (str "{ rtmpUrl: 5 }") = None
  /\ Node.parse (str " [1, 0.0, true, null, -2e3, [] , {}] ")
     = Some (JArray [JNumber true; JNumber false; JBool true; JNull;
                     JNumber true; JArray []; JObject []]).
Proof. vm_compute. split; reflexivity. Qed.

(** ** The header check *)

Lemma byte_is_true (b : Buffer) (i : nat) (v : byte) :
  byte_is b i v = true <-> b !! i = Some v.
Proof. unfold byte_is. apply bool_decide_eq_true. Qed.

(** What line 114 accepts: more than four bytes, the first four being the
    signature. *)
Lemma ebml_header_check_spec (b : Buffer) :
  ebml_header_check b = true
  <-> (4 < length b)%nat /\ take 4 b = EBML_SIGNATURE.
Proof.
  unfold ebml_header_check, EBML_SIGNATURE.
  rewrite !andb_true_iff, !byte_is_true, Nat.ltb_lt.
  split.
  - intros [[[[Hlen H0] H1] H2] H3]. split; [exact Hlen|].
    destruct b as [|b0 [|b1 [|b2 [|b3 rest]]]]; simpl in *; try lia.
    by simplify_eq/=.
  - intros [Hlen Htake].
    destruct b as [|b0 [|b1 [|b2 [|b3 rest]]]]; simpl in *; try lia.
    simplify_eq/=. repeat split; (lia || reflexivity).
Qed.

Lemma ebml_header_check_app (rest : Buffer) :
  ebml_header_check (EBML_SIGNATURE ++ rest) = negb (bool_decide (rest = [])).
Proof. destruct rest; reflexivity. Qed.

(** ** The destination pattern *)

#[local] Arguments str : simpl never.
#[local] Arguments live2_here : simpl never.

Lemma strip_prefix_Some (p s r : JSString) :
  strip_prefix p s = Some r <-> s = p ++ r.
Proof.
  revert s. induction p as [|a p IH]; intros s; simpl.
  - split; congruence.
  - destruct s as [|b s]; [split; discriminate|].
    case_bool_decide as Hab.
    + subst b. rewrite IH. split; congruence.
    + split; [discriminate|]. intros Heq. congruence.
Qed.

Lemma forallb_not_terminator (k : JSString) :
  forallb (fun c => negb (is_line_terminator c)) k = true
  <-> Forall (fun c => is_line_terminator c = false) k.
Proof.
  induction k as [|c k IH]; simpl.
  - split; [constructor|done].
  - rewrite andb_true_iff, Forall_cons, negb_true_iff, IH. tauto.
Qed.

Lemma dot_plus_to_end_Some (rest k : JSString) :
  dot_plus_to_end rest = Some k <-> rest = k /\ dot_text k.
Proof.
  unfold dot_plus_to_end, dot_text.
  destruct rest as [|c rest].
  - split; [done|]. by intros [<- [? _]].
  - destruct (forallb _ (c :: rest)) eqn:Hall.
    + apply forallb_not_terminator in Hall. split.
      * by intros [= <-].
      * by intros [-> _].
    + split; [done|]. intros [<- [_ Hk]].
      apply forallb_not_terminator in Hk. congruence.
Qed.

Lemma live2_here_Some (s k : JSString) :
  live2_here s = Some k <-> s = str "live2/" ++ k /\ dot_text k.
Proof.
  unfold live2_here. destruct (strip_prefix _ s) as [rest|] eqn:Hp.
  - apply strip_prefix_Some in Hp. rewrite dot_plus_to_end_Some.
    split.
    + intros [-> Hk]. by subst.
    + intros [-> Hk]. apply app_inv_head in Hp. by subst.
  - split; [done|]. intros [-> _].
    assert (strip_prefix (str "live2/") (str "live2/" ++ k) = Some k) as Hyes
      by by apply strip_prefix_Some.
    congruence.
Qed.

(** The group is a suffix of the input that follows an occurrence of
    [live2/]; it is not empty and has no line terminator. *)
Lemma live2_here_nil : live2_here [] = None.
Proof. reflexivity. Qed.

Lemma match_live2_Some (s k : JSString) :
  match_live2 s = Some k ->
  exists pre, s = pre ++ str "live2/" ++ k /\ dot_text k.
Proof.
  induction s as [|c s IH]; cbn [match_live2].
  - by rewrite live2_here_nil.
  - destruct (live2_here (c :: s)) as [k'|] eqn:Hh.
    + intros [= ->]. apply live2_here_Some in Hh as [Heq Hk]. by exists [].
    + intros Hm. destruct (IH Hm) as (pre & -> & Hk). by exists (c :: pre).
Qed.

Lemma match_live2_nonempty (s k : JSString) :
  match_live2 s = Some k -> s <> [] /\ k <> [].
Proof.
  intros Hm. destruct (match_live2_Some _ _ Hm) as (pre & -> & Hk & _).
  split; [|done]. by destruct pre.
Qed.

(** The pattern matches as soon as [live2/] is followed by such a text. *)
Lemma match_live2_is_Some (pre k : JSString) :
  dot_text k -> is_Some (match_live2 (pre ++ str "live2/" ++ k)).
Proof.
  intros Hk. induction pre as [|c pre IH].
  - assert (live2_here (str "live2/" ++ k) = Some k) as Hh
      by by apply live2_here_Some.
    rewrite app_nil_l. destruct (str "live2/" ++ k) eqn:Hs;
      cbn [match_live2]; rewrite Hh; by eexists.
  - rewrite <- app_comm_cons. cbn [match_live2].
    destruct (live2_here (c :: pre ++ str "live2/" ++ k)); [by eexists|done].
Qed.

(** ** The first message *)

Section Init.
Context `{Platform}.

Lemma JSON_parse_arg_tag (msg : Buffer) (isBinary : bool) :
  JSON_parse_arg (if isBinary then ArgString (Buffer_toString msg)
                  else ArgBuffer msg)
  = JSON_parse (Buffer_toString msg).
Proof. by destruct isBinary. Qed.

Lemma on_init_tag (msg : Buffer) (isBinary : bool) (st : State) :
  on_init msg isBinary st = on_init msg true st.
Proof. unfold on_init. destruct st. by rewrite !JSON_parse_arg_tag. Qed.

Lemma carries_url_rtmpUrl (msg : Buffer) (url : JSString) (init : JSValue) :
  JSON_parse (Buffer_toString msg) = Some init ->
  get_prop init (str "rtmpUrl") = Some (JString url) ->
  url <> [] ->
  (if truthy init && truthy_opt (get_prop init (str "rtmpUrl"))
   then get_prop init (str "rtmpUrl") else None) = Some (JString url).
Proof.
  intros _ Hget Hne. rewrite Hget.
  destruct init; try discriminate. simpl.
  by rewrite bool_decide_eq_false_2.
Qed.

Lemma on_init_accept msg isBinary keys s url key :
  carries_url msg url -> match_live2 url = Some key -> key ∉ keys ->
  on_init msg isBinary (keys, s)
  = Normal ({[key]} ∪ keys,
            set_started true (set_ws_rtmpUrl (Some url) (set_rtmpKey (Some key) s)),
            [WsSend (NoticeOk "waiting for WebM header")]).
Proof.
  intros (init & Hparse & Hget) Hm Hfree.
  destruct (match_live2_nonempty _ _ Hm) as [Hurl Hkey].
  unfold on_init. rewrite JSON_parse_arg_tag, Hparse.
  rewrite (carries_url_rtmpUrl msg url init) by done.
  cbn [truthy_opt truthy]. rewrite bool_decide_eq_false_2 by done.
  cbn [negb]. rewrite Hm. cbn [set_rtmpKey rtmpKey no_key].
  rewrite bool_decide_eq_false_2 by done.
  by rewrite bool_decide_eq_false_2 by done.
Qed.

Lemma on_init_duplicate msg isBinary keys s url key :
  carries_url msg url -> match_live2 url = Some key -> key ∈ keys ->
  on_init msg isBinary (keys, s)
  = Normal (keys, set_rtmpKey (Some key) s,
            [WsSend (NoticeError "RTMP key already in use"); WsClose]).
Proof.
  intros (init & Hparse & Hget) Hm Hused.
  destruct (match_live2_nonempty _ _ Hm) as [Hurl Hkey].
  unfold on_init. rewrite JSON_parse_arg_tag, Hparse.
  rewrite (carries_url_rtmpUrl msg url init) by done.
  cbn [truthy_opt truthy]. rewrite bool_decide_eq_false_2 by done.
  cbn [negb]. rewrite Hm. cbn [set_rtmpKey rtmpKey no_key].
  rewrite bool_decide_eq_false_2 by done.
  by rewrite bool_decide_eq_true_2 by done.
Qed.

Lemma on_init_no_match msg isBinary keys s url :
  carries_url msg url -> url <> [] -> match_live2 url = None ->
  on_init msg isBinary (keys, s)
  = Normal (keys, set_rtmpKey None s,
            [WsSend (NoticeError "Invalid RTMP key in URL"); WsClose]).
Proof.
  intros (init & Hparse & Hget) Hurl Hm.
  unfold on_init. rewrite JSON_parse_arg_tag, Hparse.
  rewrite (carries_url_rtmpUrl msg url init) by done.
  cbn [truthy_opt truthy]. rewrite bool_decide_eq_false_2 by done.
  cbn [negb]. by rewrite Hm.
Qed.

(** Every way the first message can end. *)
Lemma on_init_cases msg isBinary keys s keys' s' out :
  on_init msg isBinary (keys, s) = Normal (keys', s', out) ->
  (exists e k, keys' = keys /\ out = [WsSend (NoticeError e); WsClose]
               /\ (s' = s \/ s' = set_rtmpKey k s))
  \/ (exists url key,
        match_live2 url = Some key /\ (key ∉ keys) /\ (keys' = {[key]} ∪ keys)
        /\ s' = set_started true
                  (set_ws_rtmpUrl (Some url) (set_rtmpKey (Some key) s))
        /\ out = [WsSend (NoticeOk "waiting for WebM header")]).
Proof.
  unfold on_init. destruct (JSON_parse_arg _) as [init|].
  2:{ intros [= <- <- <-]. left. exists ("Invalid init JSON"%string), None. eauto. }
  destruct (negb _).
  { intros [= <- <- <-]. left.
    exists ("Missing rtmpUrl in init message"%string), None. eauto. }
  destruct (if truthy init && _ then _ else _) as [[| | |url| |]|]; try done.
  cbn [set_rtmpKey rtmpKey].
  destruct (match_live2 url) as [key|] eqn:Hm.
  2:{ intros [= <- <- <-]. left.
      exists ("Invalid RTMP key in URL"%string), None. eauto. }
  destruct (no_key (Some key)).
  { intros [= <- <- <-]. left.
    exists ("Invalid RTMP key in URL"%string), (Some key). eauto. }
  case_bool_decide as Hused.
  { intros [= <- <- <-]. left.
    exists ("RTMP key already in use"%string), (Some key). eauto. }
  intros [= <- <- <-]. right. exists url, key. eauto.
Qed.

End Init.

(** ** What every reachable connection satisfies *)

Section Invariant.
Context `{Platform}.

Lemma session_inv_new (t : Z) : session_inv (new_session t).
Proof. unfold session_inv; simpl. intuition congruence. Qed.

Ltac unfold_setters :=
  cbn [set_ffmpeg set_started set_lastChunkAt set_ffmpegError
       set_initialBuffer set_headerReceived set_rtmpKey set_ws_rtmpUrl
       set_idleInterval ffmpeg started lastChunkAt ffmpegError initialBuffer
       headerReceived rtmpKey ws_rtmpUrl idleInterval] in *.

Ltac close_inv :=
  unfold session_inv in *; unfold_setters;
  intuition (try congruence; eauto).

Lemma on_init_inv msg isBinary keys s keys' s' out :
  started s = false -> session_inv s ->
  on_init msg isBinary (keys, s) = Normal (keys', s', out) ->
  session_inv s' /\ headerReceived s' = false
  /\ Forall (fun e => touches_process e = false) out.
Proof.
  intros Hns Hinv Hrun.
  assert (headerReceived s = false) as Hh by (unfold session_inv in *; tauto).
  apply on_init_cases in Hrun
    as [(e & k & -> & -> & [-> | ->]) | (url & key & Hm & _ & -> & -> & ->)].
  - split; [done|]. split; [done|]. by repeat constructor.
  - destruct s. split; [close_inv|]. split; [done|]. by repeat constructor.
  - destruct s. split; [|split; [done|by repeat constructor]].
    unfold session_inv in *; unfold_setters.
    repeat split; try tauto; try congruence.
    intros _. by exists url, key.
Qed.

Lemma on_header_chunk_inv env msg isBinary keys s keys' s' out :
  started s = true -> headerReceived s = false -> session_inv s ->
  on_header_chunk env msg isBinary (keys, s) = (keys', s', out) ->
  session_inv s'
  /\ (headerReceived s' = false -> Forall (fun e => touches_process e = false) out).
Proof.
  intros Hst Hh Hinv Hrun.
  unfold on_header_chunk in Hrun. destruct isBinary; cbn [negb] in Hrun.
  2:{ injection Hrun as <- <- <-. split; [done|]. by constructor. }
  destruct (ebml_header_check _); injection Hrun as <- <- <-; destruct s.
  - split; [close_inv|]. unfold_setters. done.
  - split; [close_inv|]. by constructor.
Qed.

Lemma on_stream_chunk_inv env msg isBinary keys s keys' s' out :
  headerReceived s = true -> session_inv s ->
  on_stream_chunk env msg isBinary (keys, s) = (keys', s', out) ->
  session_inv s' /\ headerReceived s' = true.
Proof.
  intros Hh Hinv Hrun.
  unfold on_stream_chunk in Hrun.
  destruct s; unfold_setters.
  repeat
    (match type of Hrun with
     | context [if ?b then _ else _] => destruct b
     | context [match ?o with Some _ => _ | None => _ end] => destruct o
     end; unfold_setters);
    injection Hrun as <- <- <-; (split; [close_inv | done]).
Qed.

(** One callback keeps the invariant, never unsets [headerReceived], and
    touches no process while [headerReceived] stays false. *)
Lemma conn_step_inv cb keys s keys' s' out :
  session_inv s ->
  conn_step cb (keys, s) = Normal (keys', s', out) ->
  session_inv s'
  /\ (headerReceived s = true -> headerReceived s' = true)
  /\ (headerReceived s' = false -> Forall (fun e => touches_process e = false) out).
Proof.
  intros Hinv Hrun.
  assert (forall out0 : list Effect, out0 = [] ->
            Forall (fun e => touches_process e = false) out0) as Hnil
    by (intros ? ->; constructor).
  destruct cb as [env msg isBinary|t|code signal|m| |]; cbn [conn_step] in Hrun.
  - destruct (idleInterval s) eqn:Harmed.
    2:{ injection Hrun as <- <- <-. split; [done|]. split; [congruence|]. auto. }
    unfold on_message in Hrun. cbn [snd] in Hrun.
    destruct (started s) eqn:Hst; cbn [negb] in Hrun.
    2:{ eapply on_init_inv in Hrun as (? & Hh' & ?); [|done..].
        split; [done|]. split; [|done].
        intros Hh. unfold session_inv in Hinv. intuition congruence. }
    destruct (headerReceived s) eqn:Hh; cbn [negb] in Hrun;
      destruct (_ env msg isBinary (keys, s)) as [[keys1 s1] out1] eqn:Hcall;
      injection Hrun as <- <- <-.
    + eapply on_stream_chunk_inv in Hcall as [? Hh']; [|done..].
      split; [done|]. split; [done|]. congruence.
    + eapply on_header_chunk_inv in Hcall as [? ?]; [|done..].
      split; [done|]. split; [done|]. done.
  - destruct (idleInterval s); [|injection Hrun as <- <- <-; split; [done|]; split; [congruence|]; auto].
    unfold idle_tick in Hrun.
    destruct (ffmpeg s) as [p|] eqn:Hp.
    2:{ injection Hrun as <- <- <-. split; [done|]. split; [congruence|]. auto. }
    destruct (headerReceived s) eqn:Hh;
      [|unfold session_inv in Hinv; intuition congruence].
    destruct (_ <? _)%Z; injection Hrun as <- <- <-.
    + destruct s. split; [close_inv|]. unfold_setters. split; congruence.
    + split; [done|]. split; [congruence|]. auto.
  - destruct (headerReceived s) eqn:Hh; [|injection Hrun as <- <- <-; split; [done|]; split; [congruence|]; auto].
    unfold on_ffmpeg_close in Hrun. injection Hrun as <- <- <-.
    destruct s. split; [close_inv|]. unfold_setters. split; congruence.
  - destruct (headerReceived s) eqn:Hh; [|injection Hrun as <- <- <-; split; [done|]; split; [congruence|]; auto].
    unfold on_stdin_error in Hrun. injection Hrun as <- <- <-.
    destruct s. split; [close_inv|]. unfold_setters. split; congruence.
  - destruct (idleInterval s); [|injection Hrun as <- <- <-; split; [done|]; split; [congruence|]; auto].
    unfold on_ws_close in Hrun.
    destruct (ffmpeg s) as [p|] eqn:Hp; injection Hrun as <- <- <-.
    + destruct (headerReceived s) eqn:Hh;
        [|unfold session_inv in Hinv; intuition congruence].
      destruct s. split; [close_inv|]. unfold_setters. split; congruence.
    + destruct s. split; [close_inv|]. unfold_setters.
      split; [done|]. intros _. by repeat constructor.
  - injection Hrun as <- <- <-. split; [done|]. split; [congruence|]. auto.
Qed.

End Invariant.

(** ** The set of keys *)

Lemma deleted_key_absent (keys : gset JSString) (key : JSString) :
  key ∉ keys ∖ {[key]}.
Proof.
  intros [_ Hnot]%elem_of_difference. apply Hnot. by apply elem_of_singleton.
Qed.

Lemma delete_absent_key (keys : gset JSString) (key : JSString) :
  key ∉ keys -> keys ∖ {[key]} = keys.
Proof.
  intros Hnot. apply set_eq. intros x.
  rewrite elem_of_difference, elem_of_singleton.
  split; [tauto|]. intros Hx. split; [done|]. by intros ->.
Qed.

(** ** What every reachable server satisfies *)

Lemma of_conn_app (c : nat) (tr1 tr2 : Trace) :
  of_conn c (tr1 ++ tr2) = of_conn c tr1 ++ of_conn c tr2.
Proof. unfold of_conn. by rewrite filter_app, fmap_app. Qed.

Lemma of_conn_own (c : nat) (out : list Effect) :
  of_conn c ((fun e => (c, e)) <$> out) = out.
Proof.
  unfold of_conn. induction out as [|e out IH]; [done|].
  rewrite fmap_cons, filter_cons_True by done. by rewrite fmap_cons, IH.
Qed.

Lemma of_conn_other (c c' : nat) (out : list Effect) :
  c <> c' -> of_conn c ((fun e => (c', e)) <$> out) = [].
Proof.
  intros Hne. unfold of_conn. induction out as [|e out IH]; [done|].
  rewrite fmap_cons, filter_cons_False; [done|]. simpl. congruence.
Qed.

Section ServerInvariant.
Context `{Platform}.

Lemma server_inv_boot : server_inv boot [].
Proof. intros c. unfold boot. cbn [connections]. by rewrite lookup_empty. Qed.

Lemma step_inv ev srv tr srv' out :
  server_inv srv tr -> step ev srv = Normal (srv', out) ->
  server_inv srv' (tr ++ out).
Proof.
  intros Hinv Hstep c'. specialize (Hinv c') as Hc'.
  destruct ev as [c t|c cb]; cbn [step] in Hstep.
  - destruct (connections srv !! c) as [s|] eqn:Hc.
    + injection Hstep as <- <-. by rewrite app_nil_r.
    + injection Hstep as <- <-. cbn [connections]. rewrite app_nil_r.
      destruct (decide (c = c')) as [->|Hne].
      * rewrite lookup_insert_eq. rewrite Hc in Hc'. rewrite Hc'.
        split; [apply session_inv_new|]. by constructor.
      * by rewrite lookup_insert_ne.
  - destruct (connections srv !! c) as [s|] eqn:Hc.
    2:{ injection Hstep as <- <-. by rewrite app_nil_r. }
    destruct (conn_step cb (activeKeys srv, s)) as [[[keys1 s1] out1]|] eqn:Hcb;
      [|done].
    injection Hstep as <- <-. cbn [connections]. rewrite of_conn_app.
    destruct (decide (c = c')) as [->|Hne].
    + rewrite lookup_insert_eq, of_conn_own. rewrite Hc in Hc'.
      destruct Hc' as [Hs Htr].
      destruct (conn_step_inv _ _ _ _ _ _ Hs Hcb) as (Hs1 & Hmono & Hout).
      split; [done|]. intros Hh1. apply Forall_app. split; [|auto].
      apply Htr. destruct (headerReceived s); [|done].
      rewrite Hmono in Hh1; done.
    + rewrite lookup_insert_ne, of_conn_other, app_nil_r by done. done.
Qed.

Lemma run_inv evs srv tr srv' out :
  server_inv srv tr -> run evs srv = Normal (srv', out) ->
  server_inv srv' (tr ++ out).
Proof.
  revert srv tr out. induction evs as [|ev evs IH]; intros srv tr out Hinv;
    cbn [run].
  - intros [= <- <-]. by rewrite app_nil_r.
  - destruct (step ev srv) as [[srv1 out1]|] eqn:Hstep; [|done].
    destruct (run evs srv1) as [[srv2 out2]|] eqn:Hrun; [|done].
    intros [= <- <-]. rewrite app_assoc.
    eapply IH; [|done]. by eapply step_inv.
Qed.

(** Every server reached from [boot]. *)
Lemma reachable_inv evs srv tr :
  run evs boot = Normal (srv, tr) -> server_inv srv tr.
Proof. intros Hrun. apply (run_inv evs boot [] srv tr server_inv_boot Hrun). Qed.

End ServerInvariant.

(** ** Messages after the first *)

Section Chunks.
Context `{Platform}.

(** A text message while the header is awaited is dropped. *)
Lemma on_message_header_text env msg keys s :
  started s = true -> headerReceived s = false ->
  on_message env msg false (keys, s) = Normal (keys, s, []).
Proof.
  intros Hs Hh. unfold on_message. cbn [snd]. by rewrite Hs, Hh.
Qed.

(** A binary message while the header is awaited, the check failing. *)
Lemma on_message_header_buffer env msg keys s :
  started s = true -> headerReceived s = false ->
  ebml_header_check (Buffer_concat (initialBuffer s ++ [msg])) = false ->
  on_message env msg true (keys, s)
  = Normal (keys, set_initialBuffer (initialBuffer s ++ [msg]) s, []).
Proof.
  intros Hs Hh Hc. unfold on_message, on_header_chunk. cbn [snd].
  rewrite Hs, Hh. cbn [negb set_initialBuffer initialBuffer]. by rewrite Hc.
Qed.

(** A binary message while the header is awaited, the check succeeding. *)
Lemma on_message_header_accept env msg keys s :
  started s = true -> headerReceived s = false ->
  ebml_header_check (Buffer_concat (initialBuffer s ++ [msg])) = true ->
  on_message env msg true (keys, s)
  = Normal (keys,
            mkSession (Some (spawned env)) true (lastChunkAt s) false []
                      true (rtmpKey s) (ws_rtmpUrl s) (idleInterval s),
            [Spawn "ffmpeg" ffArgs (ws_rtmpUrl s);
             StdinWrite (spawned env) (Buffer_concat (initialBuffer s ++ [msg]));
             WsSend (NoticeOk "ffmpeg started")]).
Proof.
  intros Hs Hh Hc. unfold on_message, on_header_chunk. cbn [snd].
  rewrite Hs, Hh. cbn [negb set_initialBuffer initialBuffer]. rewrite Hc.
  destruct s; cbn in *. by subst.
Qed.

(** Once the header has been seen, the only bytes a message can cause to be
    written are its own, nothing is spawned and nothing is buffered. *)
Lemma on_message_streaming env msg isBinary keys s keys' s' out :
  started s = true -> headerReceived s = true ->
  on_message env msg isBinary (keys, s) = Normal (keys', s', out) ->
  keys' = keys /\ headerReceived s' = true
  /\ initialBuffer s' = initialBuffer s
  /\ Forall (fun e => (exists p, e = StdinWrite p msg)
                      \/ touches_process e = false) out.
Proof.
  intros Hs Hh. unfold on_message, on_stream_chunk. cbn [snd].
  rewrite Hs, Hh. cbn [negb].
  destruct s; cbn in *.
  repeat
    (match goal with
     | |- context [if ?b then _ else _] => destruct b
     | |- context [match ?o with Some _ => _ | None => _ end] => destruct o
     end; cbn);
    intros [= <- <- <-]; cbn;
    (split; [done|]; split; [done|]; split; [done|]);
    repeat (apply Forall_cons; split; [first [by left; eexists | by right]|]);
    by apply Forall_nil.
Qed.

End Chunks.

(** ** Runs of one connection *)

Section Runs.
Context `{Platform}.

Lemma conn_run_app (cbs1 cbs2 : list Callback) (st : State) :
  conn_run (cbs1 ++ cbs2) st
  = match conn_run cbs1 st with
    | Normal (st1, out1) =>
        match conn_run cbs2 st1 with
        | Normal (st2, out2) => Normal (st2, out1 ++ out2)
        | Throw e => Throw e
        end
    | Throw e => Throw e
    end.
Proof.
  revert st. induction cbs1 as [|cb cbs1 IH]; intros st.
  - cbn [app conn_run]. by destruct (conn_run cbs2 st) as [[? ?]|].
  - rewrite <- app_comm_cons. cbn [conn_run].
    destruct (conn_step cb st) as [[st1 out1]|]; [|done].
    rewrite IH. destruct (conn_run cbs1 st1) as [[st2 out2]|]; [|done].
    destruct (conn_run cbs2 st2) as [[st3 out3]|]; [|done].
    by rewrite app_assoc.
Qed.

(** After its close callback a connection runs no socket or timer callback
    any more. *)
Lemma conn_run_closed (cbs : list Callback) (keys : gset JSString) (s : Session) :
  idleInterval s = false ->
  Forall (fun cb => of_socket_or_timer cb = true) cbs ->
  conn_run cbs (keys, s) = Normal (keys, s, []).
Proof.
  intros Hclosed Hcbs. induction Hcbs as [|cb cbs Hcb _ IH]; [done|].
  cbn [conn_run].
  assert (conn_step cb (keys, s) = Normal (keys, s, [])) as ->.
  { destruct cb; try done; cbn [conn_step]; by rewrite ?Hclosed. }
  by rewrite IH.
Qed.

(** With the process handle dropped, messages and ticks call nothing. *)
Lemma conn_step_stopped cb keys s :
  stopped s -> quiet cb = true ->
  exists s', conn_step cb (keys, s) = Normal (keys, s', [])
             /\ stopped s' /\ rtmpKey s' = rtmpKey s
             /\ ffmpegError s' = ffmpegError s.
Proof.
  intros (Hs & Hh & Hp & Ha) Hq.
  destruct cb as [env msg isBinary|t| | | |]; try done; cbn [conn_step].
  - rewrite Ha. unfold on_message, on_stream_chunk. cbn [snd].
    rewrite Hs, Hh. cbn [negb].
    destruct (ffmpegError s) eqn:He; [by exists s|].
    destruct isBinary; cbn [negb]; [|by exists s].
    destruct s; cbn in *. subst. eexists. by split.
  - rewrite Ha. unfold idle_tick. rewrite Hp. by exists s.
  - by exists s.
Qed.

Lemma conn_run_stopped cbs keys s :
  stopped s -> Forall (fun cb => quiet cb = true) cbs ->
  exists s', conn_run cbs (keys, s) = Normal (keys, s', [])
             /\ stopped s' /\ rtmpKey s' = rtmpKey s
             /\ ffmpegError s' = ffmpegError s.
Proof.
  intros Hs Hcbs. revert s Hs.
  induction Hcbs as [|cb cbs Hcb _ IH]; intros s Hs; [by exists s|].
  destruct (conn_step_stopped cb keys s Hs Hcb) as (s1 & Hstep & Hs1 & Hk1 & He1).
  destruct (IH s1 Hs1) as (s2 & Hrun & Hs2 & Hk2 & He2).
  exists s2. cbn [conn_run]. rewrite Hstep, Hrun.
  split; [done|]. split; [done|]. split; congruence.
Qed.

(** Only a message can set [started], and only a message adds a key. *)
Lemma conn_step_not_started cb keys s :
  started s = false -> is_message cb = false ->
  exists keys' s' out,
    conn_step cb (keys, s) = Normal (keys', s', out)
    /\ started s' = false /\ keys' ⊆ keys.
Proof.
  intros Hs Hcb.
  destruct cb as [env msg isBinary|t|code signal|m| |]; try done;
    cbn [conn_step].
  - destruct (idleInterval s); [|by exists keys, s, []].
    unfold idle_tick. destruct (ffmpeg s); [|by exists keys, s, []].
    destruct (_ <? _)%Z; [|by exists keys, s, []].
    eexists _, _, _. split; [done|]. by destruct s.
  - destruct (headerReceived s); [|by exists keys, s, []].
    eexists _, _, _. split; [done|]. by destruct s.
  - destruct (headerReceived s); [|by exists keys, s, []].
    eexists _, _, _. split; [done|]. by destruct s.
  - destruct (idleInterval s); [|by exists keys, s, []].
    unfold on_ws_close.
    destruct (ffmpeg s); (eexists _, _, _; split; [done|]; split;
                          [by destruct s|]);
      cbn [set_ffmpeg rtmpKey]; destruct (rtmpKey s); try done;
      destruct (_ && _); try done; apply subseteq_difference_l; done.
  - by exists keys, s, [].
Qed.

Lemma conn_run_not_started cbs keys s :
  started s = false -> Forall (fun cb => is_message cb = false) cbs ->
  exists keys' s' out,
    conn_run cbs (keys, s) = Normal (keys', s', out)
    /\ started s' = false /\ keys' ⊆ keys.
Proof.
  intros Hs Hcbs. revert keys s Hs.
  induction Hcbs as [|cb cbs Hcb _ IH]; intros keys s Hs.
  - by exists keys, s, [].
  - destruct (conn_step_not_started cb keys s Hs Hcb)
      as (keys1 & s1 & out1 & Hstep & Hs1 & Hk1).
    destruct (IH keys1 s1 Hs1) as (keys2 & s2 & out2 & Hrun & Hs2 & Hk2).
    exists keys2, s2, (out1 ++ out2). cbn [conn_run]. rewrite Hstep, Hrun.
    split; [done|]. split; [done|]. by transitivity keys1.
Qed.

(** Once a failure is recorded, no callback spawns or writes. *)
Lemma conn_step_failed cb keys s :
  failed s ->
  exists keys' s' out,
    conn_step cb (keys, s) = Normal (keys', s', out)
    /\ failed s' /\ Forall (fun e => feeds_process e = false) out.
Proof.
  intros (Hs & Hh & He).
  destruct cb as [env msg isBinary|t|code signal|m| |]; cbn [conn_step].
  - destruct (idleInterval s); [|by exists keys, s, []].
    unfold on_message, on_stream_chunk. cbn [snd].
    rewrite Hs, Hh, He. by exists keys, s, [].
  - destruct (idleInterval s); [|by exists keys, s, []].
    unfold idle_tick. destruct (ffmpeg s); [|by exists keys, s, []].
    destruct (_ <? _)%Z; [|by exists keys, s, []].
    eexists _, _, _. split; [done|]. destruct s; cbn in *.
    split; [done|]. by repeat constructor.
  - rewrite Hh. eexists _, _, _. split; [done|]. destruct s; cbn in *.
    split; [done|]. by repeat constructor.
  - rewrite Hh. eexists _, _, _. split; [done|]. destruct s; cbn in *.
    split; [done|]. by repeat constructor.
  - destruct (idleInterval s); [|by exists keys, s, []].
    unfold on_ws_close. destruct (ffmpeg s);
      (eexists _, _, _; split; [done|]; destruct s; cbn in *;
       split; [done|]; by repeat constructor).
  - by exists keys, s, [].
Qed.

Lemma run_failed evs srv srv' tr c s :
  connections srv !! c = Some s -> failed s ->
  run evs srv = Normal (srv', tr) ->
  Forall (fun e => feeds_process e = false) (of_conn c tr).
Proof.
  revert srv s tr. induction evs as [|ev evs IH]; intros srv s tr Hc Hf;
    cbn [run].
  - intros [= <- <-]. constructor.
  - destruct (step ev srv) as [[srv1 out1]|] eqn:Hstep; [|done].
    destruct (run evs srv1) as [[srv2 out2]|] eqn:Hrun; [|done].
    intros [= <- <-]. rewrite of_conn_app. apply Forall_app.
    assert (exists s1, connections srv1 !! c = Some s1 /\ failed s1
                       /\ Forall (fun e => feeds_process e = false)
                                 (of_conn c out1))
      as (s1 & Hc1 & Hf1 & Hout1).
    { destruct ev as [c' t|c' cb]; cbn [step] in Hstep.
      - destruct (connections srv !! c') eqn:Hc'.
        + injection Hstep as <- <-. exists s. split; [done|]; split; [done|]; (done || by constructor).
        + injection Hstep as <- <-. exists s. cbn [connections].
          rewrite lookup_insert_ne by congruence. split; [done|]; split; [done|]; (done || by constructor).
      - destruct (connections srv !! c') as [s0|] eqn:Hc'.
        2:{ injection Hstep as <- <-. exists s. split; [done|]; split; [done|]; (done || by constructor). }
        destruct (decide (c' = c)) as [->|Hne].
        + rewrite Hc in Hc'. injection Hc' as <-.
          destruct (conn_step_failed cb (activeKeys srv) s Hf)
            as (keys1 & s1 & o1 & Hcb & Hf1 & Ho1).
          rewrite Hcb in Hstep. injection Hstep as <- <-.
          exists s1. cbn [connections]. rewrite lookup_insert_eq, of_conn_own.
          split; [done|]; split; [done|]; (done || by constructor).
        + destruct (conn_step cb (activeKeys srv, s0)) as [[[keys1 s1] o1]|];
            [|done].
          injection Hstep as <- <-. exists s. cbn [connections].
          rewrite lookup_insert_ne, of_conn_other by done. split; [done|]; split; [done|]; (done || by constructor). }
    split; [done|]. by eapply IH.
Qed.

End Runs.

(** * The properties of the specification *)

(** ** The header check (C2) *)

(** C2. The specification has it that the check accepts a buffer if and only if it is at
    least as long as the four-byte signature and starts with it, so the
    signature alone is accepted.  The code asks for [concat.length > 4]:
    the buffer that is exactly the signature is refused, and accepted as
    soon as one more byte follows. *)
Theorem C2_signature_alone_refused :
  length EBML_SIGNATURE = 4%nat
  /\ take 4 EBML_SIGNATURE = EBML_SIGNATURE
  /\ ebml_header_check EBML_SIGNATURE = false
  /\ forall b : byte, ebml_header_check (EBML_SIGNATURE ++ [b]) = true.
Proof. repeat split. Qed.

(** ** The destination key (C8) *)

Lemma final_segment_no_slash (k : JSString) :
  existsb (N.eqb 0x2F) k = false -> final_segment k = k.
Proof.
  destruct k as [|c k]; [done|]. cbn [final_segment existsb].
  intros Hk. apply orb_false_iff in Hk as [Hc Hk]. rewrite Hk.
  by rewrite N.eqb_sym, Hc.
Qed.

Lemma final_segment_after_slash (pre k : JSString) :
  existsb (N.eqb 0x2F) k = false ->
  final_segment (pre ++ 0x2F%N :: k) = k.
Proof.
  intros Hk. induction pre as [|c pre IH].
  - cbn [app final_segment]. by rewrite Hk.
  - rewrite <- app_comm_cons. cbn [final_segment].
    rewrite existsb_app. cbn [existsb]. by rewrite orb_true_r.
Qed.

(** Where the code and the specification agree: a captured text without [/] is the
    final segment of the URL. *)
Lemma match_live2_final_segment (url key : JSString) :
  match_live2 url = Some key ->
  existsb (N.eqb 0x2F) key = false ->
  final_segment url = key.
Proof.
  intros Hm Hk. destruct (match_live2_Some _ _ Hm) as (pre & -> & _).
  change (str "live2/" ++ key) with (str "live2" ++ 0x2F%N :: key).
  rewrite app_assoc. by apply final_segment_after_slash.
Qed.

(** C8. The specification has it that the extracted key is the final segment of the URL's
    path, with no separator in it.  The pattern captures everything after
    [live2/]: for [rtmp://a.rtmp.youtube.com/live2/abc/def] the key the
    connection registers is [abc/def], while the final segment is [def]. *)
Theorem C8_key_keeps_later_segments :
  let url := str "rtmp://a.rtmp.youtube.com/live2/abc/def" in
  let msg := Node.init_message "rtmp://a.rtmp.youtube.com/live2/abc/def" in
  match_live2 url = Some (str "abc/def")
  /\ final_segment url = str "def"
  /\ @on_message Node.platform (Node.env 0) msg false (∅, new_session 0)
     = Normal ({[str "abc/def"]} ∪ ∅,
               set_started true
                 (set_ws_rtmpUrl (Some url)
                    (set_rtmpKey (Some (str "abc/def")) (new_session 0))),
               [WsSend (NoticeOk "waiting for WebM header")]).
Proof.
  intros url msg. split; [by vm_compute|]. split; [by vm_compute|].
  unfold on_message. cbn [snd new_session started negb].
  apply (@on_init_accept Node.platform); [|by vm_compute|apply not_elem_of_empty].
  eexists. split; by vm_compute.
Qed.

(** The other half of the statement holds: a destination the pattern does not
    match is answered with the invalid-key notice and a close, and nothing
    is registered. *)
Lemma on_message_invalid_destination `{Platform} env msg isBinary keys s url :
  started s = false -> carries_url msg url -> url <> [] ->
  match_live2 url = None ->
  on_message env msg isBinary (keys, s)
  = Normal (keys, set_rtmpKey None s,
            [WsSend (NoticeError "Invalid RTMP key in URL"); WsClose]).
Proof.
  intros Hs Hmsg Hurl Hm. unfold on_message. cbn [snd]. rewrite Hs.
  by apply on_init_no_match with (url := url).
Qed.

(** A destination that is not a string: [rtmpUrl.match] is not a function
    and the TypeError escapes the callback. *)
Example init_with_number_throws :
  @on_message Node.platform (Node.env 0)
    (list_byte_of_string "{" ++ [x22] ++ list_byte_of_string "rtmpUrl"
     ++ [x22] ++ list_byte_of_string ":5}") false (∅, new_session 0)
  = Throw "TypeError: rtmpUrl.match is not a function".
Proof. vm_compute. reflexivity. Qed.

(** ** The watchdog before the header (C9) *)

(** C9. The timer callback does something only when [ffmpeg] is set.  In
    every state the server can reach, a connection whose header has not been
    accepted has no process; a tick of its timer, at whatever time, changes
    nothing and calls nothing, and so does any number of them: the
    connection, its buffer and its key stay as they are until another
    callback (a message, the socket closing) runs. *)
Theorem C9_no_timeout_before_header `{Platform}
    (evs ticks : list Event) (srv : Server) (tr : Trace) (c : nat)
    (s : Session) :
  run evs boot = Normal (srv, tr) ->
  connections srv !! c = Some s ->
  headerReceived s = false ->
  Forall (is_tick_of c) ticks ->
  ffmpeg s = None
  /\ (forall t, idle_tick t s = (s, []))
  /\ run ticks srv = Normal (srv, []).
Proof.
  intros Hrun Hc Hh Hticks.
  pose proof (reachable_inv _ _ _ Hrun c) as Hinv. rewrite Hc in Hinv.
  destruct Hinv as [(_ & _ & Hnone & _) _]. specialize (Hnone Hh).
  assert (forall t, idle_tick t s = (s, [])) as Htick
    by (intros t; unfold idle_tick; by rewrite Hnone).
  split; [done|]. split; [done|].
  induction Hticks as [|ev ticks [t ->] _ IH]; [done|].
  cbn [run step]. rewrite Hc. cbn [conn_step]. rewrite Htick.
  assert (mkServer (activeKeys srv) (<[c:=s]> (connections srv)) = srv) as Hsame
    by (destruct srv; cbn in *; by rewrite insert_id).
  destruct (idleInterval s); cbn [fmap list_fmap]; rewrite Hsame, IH; done.
Qed.

Lemma C9_witness :
  exists srv,
    @run Node.platform publisher_waiting boot
    = Normal (srv, [(1%nat, WsSend (NoticeOk "waiting for WebM header"))])
    /\ @run Node.platform
         [Fire 1 (IdleTick 100000); Fire 1 (IdleTick 200000)] srv
       = Normal (srv, []).
Proof.
  eexists. split; [vm_compute; reflexivity|].
  eapply (@C9_no_timeout_before_header Node.platform publisher_waiting
            _ _ _ 1%nat).
  - vm_compute. reflexivity.
  - vm_compute. reflexivity.
  - reflexivity.
  - repeat constructor; by eexists.
Defined.

(** ** No process before the header (C5) *)

(** C5. In every state the server can reach, and for each connection:
    - while its header has not been accepted it has no process, and it has
      so far neither spawned one nor called anything on one;
    - once its header has been accepted its buffer is empty;
    - a message that arrives while the header is awaited spawns exactly when
      it is binary and the check accepts the buffered chunks followed by
      it; the spawn is followed by one write, of those bytes, and the
      buffer is emptied; otherwise nothing is called and, when binary, the
      message is appended to the buffer;
    - a message that arrives after the header was accepted spawns nothing,
      buffers nothing, and can only cause its own bytes to be written. *)
Theorem C5_no_process_before_header `{Platform}
    (evs : list Event) (srv : Server) (tr : Trace) (c : nat) (s : Session) :
  run evs boot = Normal (srv, tr) ->
  connections srv !! c = Some s ->
  (headerReceived s = false ->
     ffmpeg s = None
     /\ Forall (fun e => touches_process e = false) (of_conn c tr))
  /\ (headerReceived s = true -> initialBuffer s = [])
  /\ (started s = true -> headerReceived s = false ->
      forall env msg isBinary keys,
        let acc := Buffer_concat (initialBuffer s ++ [msg]) in
        on_message env msg isBinary (keys, s)
        = if isBinary && ebml_header_check acc
          then Normal (keys,
                       mkSession (Some (spawned env)) true (lastChunkAt s)
                                 false [] true (rtmpKey s) (ws_rtmpUrl s)
                                 (idleInterval s),
                       [Spawn "ffmpeg" ffArgs (ws_rtmpUrl s);
                        StdinWrite (spawned env) acc;
                        WsSend (NoticeOk "ffmpeg started")])
          else Normal (keys,
                       if isBinary
                       then set_initialBuffer (initialBuffer s ++ [msg]) s
                       else s,
                       []))
  /\ (headerReceived s = true ->
      forall env msg isBinary keys keys' s' out,
        on_message env msg isBinary (keys, s) = Normal (keys', s', out) ->
        headerReceived s' = true /\ initialBuffer s' = []
        /\ Forall (fun e => (exists p, e = StdinWrite p msg)
                            \/ touches_process e = false) out).
Proof.
  intros Hrun Hc.
  pose proof (reachable_inv _ _ _ Hrun c) as Hinv. rewrite Hc in Hinv.
  destruct Hinv as [(Hi1 & Hi2 & Hi3 & Hi4 & Hi5) Htr].
  split; [auto|]. split; [auto|]. split.
  - intros Hs Hh env msg isBinary keys acc. subst acc.
    destruct isBinary; cbn [andb].
    + destruct (ebml_header_check _) eqn:Hcheck.
      * by apply on_message_header_accept.
      * by apply on_message_header_buffer.
    + by apply on_message_header_text.
  - intros Hh env msg isBinary keys keys' s' out Hmsg.
    assert (started s = true) as Hs
      by (destruct (started s); [done|]; rewrite Hi1 in Hh; done).
    destruct (on_message_streaming _ _ _ _ _ _ _ _ Hs Hh Hmsg)
      as (_ & ? & Hbuf & ?).
    rewrite Hbuf, Hi4; done.
Qed.

Lemma C5_witness :
  exists srv s,
    @run Node.platform publisher_waiting boot
    = Normal (srv, [(1%nat, WsSend (NoticeOk "waiting for WebM header"))])
    /\ connections srv !! 1%nat = Some s
    /\ initialBuffer s = [[x00; x01]]
    /\ ffmpeg s = None.
Proof.
  eexists _, _. split; [vm_compute; reflexivity|].
  split; [vm_compute; reflexivity|]. split; [reflexivity|].
  eapply (@C5_no_process_before_header Node.platform publisher_waiting
            _ _ 1%nat).
  - vm_compute. reflexivity.
  - vm_compute. reflexivity.
  - reflexivity.
Defined.

(** ** A failed write (C7) *)

(** C7. When [ffmpeg.stdin.write] throws on a chunk of a streaming
    connection, the callback makes that one write, sends one error notice
    and closes the socket, and sets [ffmpegError].  From then on every
    message of the connection is dropped without any call, and whatever
    runs on the server afterwards, the connection never writes to a process
    or spawns one again. *)
Theorem C7_write_failure_terminal `{Platform}
    (srv : Server) (c : nat) (s : Session) (p : ChildProcess) (env : Env)
    (msg : Buffer) (m : string) :
  connections srv !! c = Some s ->
  started s = true -> headerReceived s = true -> idleInterval s = true ->
  ffmpegError s = false -> ffmpeg s = Some p ->
  stdin_writable env = true -> write_error env = Some m ->
  exists srv' s',
    step (Fire c (Message env msg true)) srv
    = Normal (srv',
              [(c, StdinWrite p msg);
               (c, WsSend (NoticeMessage "FFmpeg stdin write error" m));
               (c, WsClose)])
    /\ connections srv' !! c = Some s'
    /\ ffmpegError s' = true
    /\ (forall env' msg' isBinary keys,
          on_message env' msg' isBinary (keys, s') = Normal (keys, s', []))
    /\ (forall evs srv'' tr,
          run evs srv' = Normal (srv'', tr) ->
          Forall (fun e => feeds_process e = false) (of_conn c tr)).
Proof.
  intros Hc Hs Hh Ha He Hp Hw Hm.
  set (s' := set_ffmpegError true (set_lastChunkAt (now env) s)).
  assert (failed s') as Hf by (destruct s; by cbn in * ).
  exists (mkServer (activeKeys srv) (<[c:=s']> (connections srv))), s'.
  split; [|split; [|split; [|split]]].
  - cbn [step]. rewrite Hc. cbn [conn_step]. rewrite Ha.
    unfold on_message, on_stream_chunk. cbn [snd].
    rewrite Hs, Hh, He. cbn [negb set_lastChunkAt ffmpeg].
    by rewrite Hp, Hw, Hm.
  - cbn [connections]. by rewrite lookup_insert_eq.
  - by destruct s.
  - intros env' msg' isBinary keys. destruct Hf as (Hs' & Hh' & He').
    unfold on_message, on_stream_chunk. cbn [snd]. by rewrite Hs', Hh', He'.
  - intros evs srv'' tr Hrun.
    eapply run_failed; [|exact Hf|exact Hrun].
    cbn [connections]. by rewrite lookup_insert_eq.
Qed.

Lemma C7_witness :
  exists srv',
    @step Node.platform
      (Fire 1 (Message (mkEnv 9 7 true (Some "EPIPE"%string)) [x01; x02] true))
      one_streaming
    = Normal (srv',
              [(1%nat, StdinWrite 7 [x01; x02]);
               (1%nat, WsSend (NoticeMessage "FFmpeg stdin write error" "EPIPE"));
               (1%nat, WsClose)])
    /\ forall tr srv'',
         @run Node.platform
           [Fire 1 (Message (Node.env 10) [x03] true)] srv' = Normal (srv'', tr) ->
         Forall (fun e => feeds_process e = false) (of_conn 1 tr).
Proof.
  destruct (@C7_write_failure_terminal Node.platform one_streaming 1
              (streaming 0 7 (str KEY_URL) (str "KEY")) 7
              (mkEnv 9 7 true (Some "EPIPE"%string)) [x01; x02] "EPIPE"%string)
    as (srv' & s' & Hstep & _ & _ & _ & Hafter);
    try reflexivity.
  exists srv'. split; [exact Hstep|]. intros tr srv''. apply Hafter.
Defined.

(** The other way a write fails in Node, the ['error'] event of the input
    stream, ends the same way. *)
Lemma stdin_error_terminal `{Platform}
    (srv : Server) (c : nat) (s : Session) (m : string) :
  connections srv !! c = Some s ->
  started s = true -> headerReceived s = true ->
  exists srv',
    step (Fire c (StdinError m)) srv
    = Normal (srv', [(c, WsSend (NoticeMessage "FFmpeg stdin error" m));
                     (c, WsClose)])
    /\ (forall evs srv'' tr,
          run evs srv' = Normal (srv'', tr) ->
          Forall (fun e => feeds_process e = false) (of_conn c tr)).
Proof.
  intros Hc Hs Hh.
  exists (mkServer (activeKeys srv)
                   (<[c:=set_ffmpegError true s]> (connections srv))).
  split.
  - cbn [step]. rewrite Hc. cbn [conn_step]. by rewrite Hh.
  - intros evs srv'' tr Hrun.
    eapply (run_failed evs _ _ _ c (set_ffmpegError true s)); [| |exact Hrun].
    + cbn [connections]. by rewrite lookup_insert_eq.
    + destruct s; by cbn in *.
Qed.

(** ** The idle timeout *)

(** A binary chunk of a streaming connection records the time it arrived,
    which is what the timer compares with. *)
Lemma stream_chunk_touches `{Platform} env msg keys s keys' s' out :
  started s = true -> headerReceived s = true -> ffmpegError s = false ->
  on_message env msg true (keys, s) = Normal (keys', s', out) ->
  lastChunkAt s' = now env.
Proof.
  intros Hs Hh He. unfold on_message, on_stream_chunk. cbn [snd].
  rewrite Hs, Hh, He. cbn [negb set_lastChunkAt ffmpeg].
  destruct (ffmpeg s); [destruct (stdin_writable env);
                        [destruct (write_error env)|]|];
    by intros [= <- <- <-].
Qed.

(** The tick does nothing before the timeout has passed. *)
Lemma idle_tick_early (t : Z) (s : Session) :
  (t - lastChunkAt s <= IDLE_TIMEOUT_MS)%Z -> idle_tick t s = (s, []).
Proof.
  intros Hearly. unfold idle_tick. destruct (ffmpeg s); [|done].
  by rewrite (proj2 (Z.ltb_ge _ _) Hearly).
Qed.

(** ** The registry over whole runs (C1) *)

(** C1. The specification has it that a connection refused as a duplicate never removes the
    key from the registry when it closes, so a third connection is still
    refused while the holder is active.  The handler assigns [rtmpKey]
    before it tests [activeKeys.has(rtmpKey)], and the close callback
    deletes whatever [rtmpKey] names: when the refused connection 2 closes,
    the key of connection 1 is deleted, connection 3 is acknowledged for the
    same key, and connections 1 and 3 hold it together. *)
Theorem C1_refused_connection_releases_key :
  exists srv s1 s3,
    @run Node.platform third_publisher boot
    = Normal (srv,
              [(1%nat, WsSend (NoticeOk "waiting for WebM header"));
               (2%nat, WsSend (NoticeError "RTMP key already in use"));
               (2%nat, WsClose);
               (2%nat, ClearInterval);
               (3%nat, WsSend (NoticeOk "waiting for WebM header"))])
    /\ connections srv !! 1%nat = Some s1
    /\ connections srv !! 3%nat = Some s3
    /\ holds (str "KEY") s1 = true
    /\ holds (str "KEY") s3 = true.
Proof.
  eexists _, _, _. split; [vm_compute; reflexivity|].
  split; [vm_compute; reflexivity|]. split; [vm_compute; reflexivity|].
  split; vm_compute; reflexivity.
Qed.

(** The step that goes wrong, for any key and any two connections: the
    close callback of a connection that never added the key removes it. *)
Lemma refused_close_deletes_key (keys : gset JSString) (s : Session)
    (key : JSString) :
  key <> [] -> key ∈ keys -> ffmpeg s = None ->
  on_ws_close (keys, set_rtmpKey (Some key) s)
  = (keys ∖ {[key]}, set_idleInterval false (set_rtmpKey (Some key) s),
     [ClearInterval]).
Proof.
  intros Hne Hin Hp. unfold on_ws_close. cbn [set_rtmpKey ffmpeg rtmpKey].
  rewrite Hp. cbn [no_key rtmpKey set_rtmpKey].
  by rewrite bool_decide_eq_false_2, bool_decide_eq_true_2 by done.
Qed.

(** ** The success scenario (C3) *)

(** C3, as stated, fails: after the acknowledged first message, a first
    binary chunk [00] that is not a header is buffered in silence, and the
    next chunk, which begins with the four signature bytes, is buffered in
    silence too: nothing is spawned, nothing is acknowledged. *)
Lemma C3_counterexample :
  ebml_header_check [x00] = false
  /\ take 4 (EBML_SIGNATURE ++ [x01; x02]) = EBML_SIGNATURE
  /\ ebml_header_check (EBML_SIGNATURE ++ [x01; x02]) = true
  /\ exists keys s,
       @conn_run Node.platform late_header (∅, new_session 0)
       = Normal (keys, s, [WsSend (NoticeOk "waiting for WebM header")])
       /\ ffmpeg s = None /\ headerReceived s = false
       /\ initialBuffer s = [[x00]; EBML_SIGNATURE ++ [x01; x02]].
Proof.
  split; [reflexivity|]. split; [reflexivity|]. split; [reflexivity|].
  eexists _, _. split; [vm_compute; reflexivity|]. by repeat split.
Qed.

(** * Further properties of [server.js] *)

(** ** Every outcome of the first message *)

Lemma rtmpUrl_of_init (init : JSValue) :
  (if truthy init && truthy_opt (get_prop init (str "rtmpUrl"))
   then get_prop init (str "rtmpUrl") else None)
  = if truthy_opt (get_prop init (str "rtmpUrl"))
    then get_prop init (str "rtmpUrl") else None.
Proof. destruct init; cbn [get_prop truthy truthy_opt andb]; by rewrite ?andb_false_r. Qed.

Lemma on_init_throws_iff `{Platform} msg tag keys s :
  on_init msg tag (keys, s)
  = Throw "TypeError: rtmpUrl.match is not a function"
  <-> carries_non_string msg.
Proof.
  unfold on_init, carries_non_string. rewrite JSON_parse_arg_tag.
  destruct (JSON_parse (Buffer_toString msg)) as [init|].
  2:{ split; [done|]. by intros (? & ? & ? & _). }
  rewrite rtmpUrl_of_init.
  destruct (get_prop init (str "rtmpUrl")) as [v|] eqn:Hget; cbn [truthy_opt].
  2:{ cbn. split; [done|]. intros (? & ? & [= <-] & ? & _). congruence. }
  destruct (truthy v) eqn:Hv; cbn [negb truthy_opt]; rewrite ?Hv; cbn [negb].
  2:{ split; [done|]. intros (? & ? & [= <-] & Hg & Ht & _). congruence. }
  destruct v as [| | |url| |];
    try (split; [intros _; exists init; eexists; repeat split; done | done]).
  split.
  - destruct (no_key _); [done|]. cbn [set_rtmpKey rtmpKey].
    destruct (match_live2 url); [|done]. by case_bool_decide.
  - intros (? & ? & [= <-] & Hg & _ & Hnot). rewrite Hget in Hg.
    injection Hg as <-. by destruct (Hnot url).
Qed.

Lemma on_init_throws_only `{Platform} msg tag keys s e :
  on_init msg tag (keys, s) = Throw e ->
  e = "TypeError: rtmpUrl.match is not a function"%string.
Proof.
  unfold on_init.
  destruct (JSON_parse_arg _) as [init|]; [|done].
  destruct (negb _); [done|].
  destruct (if truthy init && _ then _ else _) as [[| | |url| |]|];
    try by intros [= <-].
  destruct (no_key _); [done|]. cbn [set_rtmpKey rtmpKey].
  destruct (match_live2 url); [|done]. by case_bool_decide.
Qed.

(** X1. The first message of a connection ends in exactly one of three
    ways.  It is acknowledged, and then its key was not in [activeKeys], has
    been added, and [started] is set.  Or it is refused with exactly one
    error notice followed by [ws.close()], and then [activeKeys],
    [started], the process handle, the buffer, the clock and the timer are
    as before.  Or a TypeError escapes the callback, which happens exactly
    when the parsed [rtmpUrl] is truthy and not a string. *)
Theorem X1_first_message_outcomes `{Platform}
    (env : Env) (msg : Buffer) (tag : bool) (keys : gset JSString)
    (s : Session) :
  started s = false ->
  (on_message env msg tag (keys, s)
   = Throw "TypeError: rtmpUrl.match is not a function"
   <-> carries_non_string msg)
  /\ (forall e, on_message env msg tag (keys, s) = Throw e ->
                e = "TypeError: rtmpUrl.match is not a function"%string)
  /\ (forall keys' s' out,
        on_message env msg tag (keys, s) = Normal (keys', s', out) ->
        (out = [WsSend (NoticeOk "waiting for WebM header")]
         /\ started s' = true
         /\ exists key, rtmpKey s' = Some key /\ (key ∉ keys)
                        /\ keys' = {[key]} ∪ keys)
        \/ (exists e, out = [WsSend (NoticeError e); WsClose])
           /\ keys' = keys /\ started s' = false
           /\ ffmpeg s' = ffmpeg s /\ headerReceived s' = headerReceived s
           /\ initialBuffer s' = initialBuffer s
           /\ lastChunkAt s' = lastChunkAt s
           /\ idleInterval s' = idleInterval s).
Proof.
  intros Hs. unfold on_message. cbn [snd]. rewrite Hs. cbn [negb].
  split; [apply on_init_throws_iff|]. split; [apply on_init_throws_only|].
  intros keys' s' out Hrun.
    apply on_init_cases in Hrun
      as [(e & k & -> & -> & [-> | ->]) | (url & key & _ & ? & -> & -> & ->)].
  - right. split; [by exists e|]. by repeat split.
  - right. split; [by exists e|]. destruct s. by repeat split.
  - left. split; [done|]. destruct s. split; [done|]. by exists key.
Qed.

Lemma X1_witness :
  started (new_session 0) = false
  /\ @on_message Node.platform (Node.env 0) number_init false
       (∅, new_session 0)
     = Throw "TypeError: rtmpUrl.match is not a function".
Proof.
  split; [reflexivity|].
  apply (@X1_first_message_outcomes Node.platform (Node.env 0) number_init
           false ∅ (new_session 0) eq_refl).
  eexists _, _. split; [vm_compute; reflexivity|].
  split; [vm_compute; reflexivity|]. split; [reflexivity|]. discriminate.
Defined.

(** ** Runs of the server *)

Section MoreRuns.
Context `{Platform}.

Lemma run_app (evs1 evs2 : list Event) (srv : Server) :
  run (evs1 ++ evs2) srv
  = match run evs1 srv with
    | Normal (srv1, out1) =>
        match run evs2 srv1 with
        | Normal (srv2, out2) => Normal (srv2, out1 ++ out2)
        | Throw e => Throw e
        end
    | Throw e => Throw e
    end.
Proof.
  revert srv. induction evs1 as [|ev evs1 IH]; intros srv.
  - cbn [app run]. by destruct (run evs2 srv) as [[? ?]|].
  - rewrite <- app_comm_cons. cbn [run].
    destruct (step ev srv) as [[srv1 out1]|]; [|done].
    rewrite IH. destruct (run evs1 srv1) as [[srv2 out2]|]; [|done].
    destruct (run evs2 srv2) as [[srv3 out3]|]; [|done].
    by rewrite app_assoc.
Qed.

(** A property of the variables of a closure and of the calls it has made
    that holds at connection time and that every callback keeps holds in
    every state the server reaches. *)
Lemma reachable_traces (Q : Session -> list Effect -> Prop) :
  (forall t, Q (new_session t) []) ->
  (forall cb keys s keys' s' out tr,
     Q s tr -> conn_step cb (keys, s) = Normal (keys', s', out) ->
     Q s' (tr ++ out)) ->
  forall evs srv tr c s,
    run evs boot = Normal (srv, tr) -> connections srv !! c = Some s ->
    Q s (of_conn c tr).
Proof.
  intros Hnew Hkeep.
  set (I := fun (srv : Server) (tr : Trace) =>
              forall c, match connections srv !! c with
                        | Some s => Q s (of_conn c tr)
                        | None => of_conn c tr = []
                        end).
  assert (forall ev srv tr srv' out,
            I srv tr -> step ev srv = Normal (srv', out) -> I srv' (tr ++ out))
    as Hstep.
  { intros ev srv tr srv' out HI Hstep c'. specialize (HI c') as Hc'.
    destruct ev as [c t|c cb]; cbn [step] in Hstep.
    - destruct (connections srv !! c) as [s|] eqn:Hc.
      + injection Hstep as <- <-. by rewrite app_nil_r.
      + injection Hstep as <- <-. cbn [connections]. rewrite app_nil_r.
        destruct (decide (c = c')) as [->|Hne].
        * rewrite lookup_insert_eq. rewrite Hc in Hc'. rewrite Hc'. apply Hnew.
        * by rewrite lookup_insert_ne.
    - destruct (connections srv !! c) as [s|] eqn:Hc.
      2:{ injection Hstep as <- <-. by rewrite app_nil_r. }
      destruct (conn_step cb (activeKeys srv, s)) as [[[keys1 s1] out1]|] eqn:Hcb;
        [|done].
      injection Hstep as <- <-. cbn [connections]. rewrite of_conn_app.
      destruct (decide (c = c')) as [->|Hne].
      + rewrite lookup_insert_eq, of_conn_own. rewrite Hc in Hc'.
        by eapply Hkeep.
      + by rewrite lookup_insert_ne, of_conn_other, app_nil_r by done. }
  assert (forall evs srv tr srv' out,
            I srv tr -> run evs srv = Normal (srv', out) -> I srv' (tr ++ out))
    as Hrun.
  { induction evs as [|ev evs IH]; intros srv tr srv' out HI; cbn [run].
    - intros [= <- <-]. by rewrite app_nil_r.
    - destruct (step ev srv) as [[srv1 out1]|] eqn:Hs; [|done].
      destruct (run evs srv1) as [[srv2 out2]|] eqn:Hr; [|done].
      intros [= <- <-]. rewrite app_assoc. eapply IH; [|done]. by eapply Hstep. }
  intros evs srv tr c s Hreach Hc.
  assert (I boot []) as Hboot
    by (intros c0; unfold boot; cbn [connections]; by rewrite lookup_empty).
  pose proof (Hrun evs boot [] srv tr Hboot Hreach c) as HQ.
  by rewrite Hc in HQ.
Qed.

Lemma reachable_sessions (P : Session -> Prop) :
  (forall t, P (new_session t)) ->
  (forall cb keys s keys' s' out,
     P s -> conn_step cb (keys, s) = Normal (keys', s', out) -> P s') ->
  forall evs srv tr c s,
    run evs boot = Normal (srv, tr) -> connections srv !! c = Some s -> P s.
Proof.
  intros Hnew Hkeep evs srv tr c s Hrun Hc.
  apply (reachable_traces (fun s _ => P s)) with evs srv tr c; eauto.
Qed.

(** What the handlers of later messages leave alone. *)
Lemma chunk_frame env msg tag keys s keys' s' out :
  on_header_chunk env msg tag (keys, s) = (keys', s', out)
  \/ on_stream_chunk env msg tag (keys, s) = (keys', s', out) ->
  keys' = keys /\ started s' = started s /\ rtmpKey s' = rtmpKey s
  /\ ws_rtmpUrl s' = ws_rtmpUrl s /\ idleInterval s' = idleInterval s.
Proof.
  unfold on_header_chunk, on_stream_chunk. destruct s; cbn.
  intros [Hr | Hr];
    repeat
      (match type of Hr with
       | context [if ?b then _ else _] => destruct b
       | context [match ?o with Some _ => _ | None => _ end] => destruct o
       end; cbn in Hr);
    by injection Hr as <- <- <-.
Qed.

(** After a callback, a key of [activeKeys] was there before, or is held
    by the connection that ran it; and a key that was there before and was
    held by that connection still is. *)
Lemma conn_step_holders cb keys s keys' s' out k :
  session_inv s ->
  conn_step cb (keys, s) = Normal (keys', s', out) ->
  k ∈ keys' ->
  (k ∈ keys /\ (holds k s = true -> holds k s' = true))
  \/ holds k s' = true.
Proof.
  intros Hinv Hrun Hk.
  destruct cb as [env msg tag|t|code signal|m| |]; cbn [conn_step] in Hrun.
  - destruct (idleInterval s) eqn:Ha; [|by injection Hrun as <- <- <-; left].
    unfold on_message in Hrun. cbn [snd] in Hrun.
    destruct (started s) eqn:Hs; cbn [negb] in Hrun.
    + assert (on_header_chunk env msg tag (keys, s) = (keys', s', out)
              \/ on_stream_chunk env msg tag (keys, s) = (keys', s', out))
        as Hor by (destruct (headerReceived s); injection Hrun as Hrun; auto).
      destruct (chunk_frame _ _ _ _ _ _ _ _ Hor) as (-> & Hs' & Hk' & _ & Ha').
      left. split; [done|]. unfold holds. by rewrite Hs', Hk', Ha', Hs, Ha.
    + apply on_init_cases in Hrun
        as [(e & k0 & -> & -> & [-> | ->]) | (url & key & Hm & _ & -> & -> & ->)].
      * by left.
      * left. split; [done|]. unfold holds. destruct s; cbn in *. by subst.
      * apply elem_of_union in Hk as [Hk%elem_of_singleton | Hk].
        -- right. subst k. unfold holds. destruct s; cbn in *. subst.
           by rewrite bool_decide_eq_true_2.
        -- left. split; [done|]. unfold holds. by rewrite Hs.
  - destruct (idleInterval s) eqn:Ha; [|by injection Hrun as <- <- <-; left].
    unfold idle_tick in Hrun.
    destruct (ffmpeg s); [destruct (_ <? _)%Z|]; injection Hrun as <- <- <-;
      left; (split; [done|]); by destruct s.
  - destruct (headerReceived s); injection Hrun as <- <- <-;
      left; (split; [done|]); by destruct s.
  - destruct (headerReceived s); injection Hrun as <- <- <-;
      left; (split; [done|]); by destruct s.
  - destruct (idleInterval s) eqn:Ha; [|by injection Hrun as <- <- <-; left].
    left. unfold on_ws_close in Hrun.
    assert (exists s0, rtmpKey s0 = rtmpKey s
              /\ Normal (match rtmpKey s0 with
                         | Some key =>
                             if negb (no_key (rtmpKey s0))
                                && bool_decide (key ∈ keys)
                             then keys ∖ {[key]} else keys
                         | None => keys
                         end) = Normal keys') as (s0 & Hk0 & Hkeys).
    { destruct (ffmpeg s); injection Hrun as <- _ _; eexists; split; try done;
        by destruct s. }
    injection Hkeys as <-. rewrite Hk0 in Hk.
    assert (k ∈ keys) as Hin.
    { destruct (rtmpKey s); [|done]. destruct (_ && _); [|done].
      by apply elem_of_difference in Hk as [? _]. }
    split; [done|]. intros Hheld. exfalso.
    unfold holds in Hheld.
    apply andb_true_iff in Hheld as [[Hst _]%andb_true_iff Hkey].
    apply bool_decide_eq_true in Hkey. rewrite Hkey in Hk. cbn [no_key] in Hk.
    destruct Hinv as (_ & _ & _ & _ & Hurl).
    destruct (Hurl Hst) as (url & key & _ & Hkey' & Hm).
    rewrite Hkey in Hkey'. injection Hkey' as <-.
    destruct (match_live2_nonempty _ _ Hm) as [_ Hne].
    rewrite bool_decide_eq_false_2, bool_decide_eq_true_2 in Hk by done.
    by apply deleted_key_absent in Hk.
  - injection Hrun as <- <- <-. by left.
Qed.

Lemma step_keys_held ev srv tr srv' out :
  server_inv srv tr -> keys_held srv ->
  step ev srv = Normal (srv', out) -> keys_held srv'.
Proof.
  intros Hinv Hheld Hstep k Hk.
  destruct ev as [c t|c cb]; cbn [step] in Hstep.
  - destruct (connections srv !! c) as [s|] eqn:Hc; injection Hstep as <- <-.
    + by apply Hheld.
    + cbn [activeKeys connections] in *.
      destruct (Hheld k Hk) as (c' & s' & Hc' & Hs').
      exists c', s'. split; [|done].
      rewrite lookup_insert_ne; [done|]. congruence.
  - destruct (connections srv !! c) as [s|] eqn:Hc.
    2:{ injection Hstep as <- <-. by apply Hheld. }
    destruct (conn_step cb (activeKeys srv, s)) as [[[keys1 s1] out1]|] eqn:Hcb;
      [|done].
    injection Hstep as <- <-. cbn [activeKeys connections] in *.
    pose proof (Hinv c) as Hs. rewrite Hc in Hs. destruct Hs as [Hs _].
    destruct (conn_step_holders _ _ _ _ _ _ k Hs Hcb Hk) as [[Hold Hkeep] | Hnew].
    + destruct (Hheld k Hold) as (c' & s' & Hc' & Hs').
      destruct (decide (c' = c)) as [->|Hne].
      * rewrite Hc in Hc'. injection Hc' as <-.
        exists c, s1. rewrite lookup_insert_eq. auto.
      * exists c', s'. by rewrite lookup_insert_ne.
    + exists c, s1. by rewrite lookup_insert_eq.
Qed.

Lemma run_keys_held evs srv tr srv' out :
  server_inv srv tr -> keys_held srv ->
  run evs srv = Normal (srv', out) -> keys_held srv'.
Proof.
  revert srv tr out. induction evs as [|ev evs IH]; intros srv tr out Hinv Hheld;
    cbn [run].
  - by intros [= <- <-].
  - destruct (step ev srv) as [[srv1 out1]|] eqn:Hstep; [|done].
    destruct (run evs srv1) as [[srv2 out2]|] eqn:Hrun; [|done].
    intros [= <- <-].
    eapply (IH srv1 (tr ++ out1)); [by eapply step_inv|by eapply step_keys_held|done].
Qed.

Lemma key_inv_reachable evs srv tr c s :
  run evs boot = Normal (srv, tr) -> connections srv !! c = Some s ->
  key_inv s.
Proof.
  apply (reachable_sessions key_inv); [by intros t k|].
  intros cb keys s0 keys' s' out Hs0 Hrun k.
  destruct cb as [env msg tag|t|code signal|m| |]; cbn [conn_step] in Hrun.
  - destruct (idleInterval s0); [|injection Hrun as <- <- <-; apply Hs0].
    unfold on_message in Hrun. cbn [snd] in Hrun.
    destruct (started s0) eqn:Hst; cbn [negb] in Hrun.
    + assert (on_header_chunk env msg tag (keys, s0) = (keys', s', out)
              \/ on_stream_chunk env msg tag (keys, s0) = (keys', s', out))
        as Hor by (destruct (headerReceived s0); injection Hrun as Hrun; auto).
      destruct (chunk_frame _ _ _ _ _ _ _ _ Hor) as (_ & _ & -> & _).
      apply Hs0.
    + unfold on_init in Hrun.
      destruct (JSON_parse_arg _); [|injection Hrun as <- <- <-; apply Hs0].
      destruct (negb _); [injection Hrun as <- <- <-; apply Hs0|].
      destruct (if truthy j && _ then _ else _) as [[| | |url| |]|]; try done.
      cbn [set_rtmpKey rtmpKey] in Hrun.
      destruct (match_live2 url) as [key|] eqn:Hm.
      2:{ injection Hrun as <- <- <-. by destruct s0. }
      destruct (match_live2_nonempty _ _ Hm) as [_ Hne].
      destruct (no_key _); [|case_bool_decide]; injection Hrun as <- <- <-;
        destruct s0; cbn; by intros [= <-].
  - destruct (idleInterval s0); [|injection Hrun as <- <- <-; apply Hs0].
    unfold idle_tick in Hrun.
    destruct (ffmpeg s0); [destruct (_ <? _)%Z|]; injection Hrun as <- <- <-;
      try apply Hs0; destruct s0; apply Hs0.
  - destruct (headerReceived s0); injection Hrun as <- <- <-;
      try apply Hs0; destruct s0; apply Hs0.
  - destruct (headerReceived s0); injection Hrun as <- <- <-;
      try apply Hs0; destruct s0; apply Hs0.
  - destruct (idleInterval s0); [|injection Hrun as <- <- <-; apply Hs0].
    unfold on_ws_close in Hrun.
    destruct (ffmpeg s0); injection Hrun as <- <- <-; destruct s0; apply Hs0.
  - injection Hrun as <- <- <-. apply Hs0.
Qed.

End MoreRuns.

(** ** A destination that is not a string ends every run *)

(** X2. When the first message of an open connection carries an [rtmpUrl]
    that is truthy and not a string (a number, [true], an array, an object),
    the TypeError of [rtmpUrl.match] escapes the message callback: the run
    of the whole server ends there, whatever the other connections were
    doing and whatever would have followed. *)
Theorem X2_non_string_destination_ends_run `{Platform}
    (evs1 evs2 : list Event) (srv0 srv : Server) (tr : Trace) (c : nat)
    (s : Session) (env : Env) (msg : Buffer) (tag : bool) :
  run evs1 srv0 = Normal (srv, tr) ->
  connections srv !! c = Some s ->
  started s = false -> idleInterval s = true ->
  carries_non_string msg ->
  run (evs1 ++ Fire c (Message env msg tag) :: evs2) srv0
  = Throw "TypeError: rtmpUrl.match is not a function".
Proof.
  intros Hrun Hc Hs Ha Hmsg. rewrite run_app, Hrun. cbn [run step].
  rewrite Hc. cbn [conn_step]. rewrite Ha. unfold on_message. cbn [snd].
  rewrite Hs. cbn [negb].
  by rewrite (proj2 (on_init_throws_iff msg tag (activeKeys srv) s) Hmsg).
Qed.

Lemma X2_witness :
  @run Node.platform
    ([Connect 1 0]
     ++ Fire 1 (Message (Node.env 1) number_init false)
        :: [Connect 2 2;
            Fire 2 (Message (Node.env 3) (Node.init_message KEY_URL) false)])
    boot
  = Throw "TypeError: rtmpUrl.match is not a function".
Proof.
  apply (@X2_non_string_destination_ends_run Node.platform [Connect 1 0] _
           boot one_connected [] 1 (new_session 0)).
  - reflexivity.
  - vm_compute. reflexivity.
  - reflexivity.
  - reflexivity.
  - eexists _, _. split; [vm_compute; reflexivity|].
    split; [vm_compute; reflexivity|]. split; [reflexivity|]. discriminate.
Defined.

(** ** No key outlives the connections *)

(** X3. In every state the server reaches, each key of [activeKeys] is the
    key of a connection that was acknowledged and whose socket has not
    closed.  So once every socket has closed, [activeKeys] is empty: no
    destination stays locked after its publishers have gone. *)
Theorem X3_no_key_outlives_its_holder `{Platform}
    (evs : list Event) (srv : Server) (tr : Trace) :
  run evs boot = Normal (srv, tr) ->
  keys_held srv /\ (all_closed srv -> activeKeys srv = ∅).
Proof.
  intros Hrun.
  assert (keys_held srv) as Hheld.
  { eapply (run_keys_held evs boot []); [apply server_inv_boot| |exact Hrun].
    intros k Hk. unfold boot in Hk. cbn [activeKeys] in Hk.
    by apply not_elem_of_empty in Hk. }
  split; [done|]. intros Hclosed. apply set_eq. intros k.
  split; [|by intros ?%not_elem_of_empty].
  intros Hk. destruct (Hheld k Hk) as (c & s & Hc & Hs).
  unfold holds in Hs. rewrite (Hclosed c s Hc) in Hs.
  by rewrite andb_false_r in Hs.
Qed.

Lemma X3_witness :
  exists srv tr,
    @run Node.platform
      [Connect 1 0;
       Fire 1 (Message (Node.env 1) (Node.init_message KEY_URL) false);
       Fire 1 WsClosed] boot = Normal (srv, tr)
    /\ activeKeys srv = ∅.
Proof.
  eexists _, _. split; [vm_compute; reflexivity|].
  eapply (@X3_no_key_outlives_its_holder Node.platform
            [Connect 1 0;
             Fire 1 (Message (Node.env 1) (Node.init_message KEY_URL) false);
             Fire 1 WsClosed]).
  - vm_compute. reflexivity.
  - match goal with
    | |- all_closed ?srv =>
        apply (bool_decide_unpack
                 (map_Forall (fun (_ : nat) s => idleInterval s = false)
                             (connections srv)))
    end.
    vm_compute. exact I.
Defined.

(** ** The socket closes *)

(** X4. In every state the server reaches, when the socket of a connection
    closes, in whatever phase, the close callback ends and signals the
    process if the connection has one, clears the timer, and removes the key
    the connection names from [activeKeys]; nothing else leaves
    [activeKeys] and nothing enters it.  Afterwards the connection has no
    process handle, and no socket or timer callback of it does anything. *)
Theorem X4_close_releases `{Platform}
    (evs : list Event) (srv : Server) (tr : Trace) (c : nat) (s : Session)
    (later : list Callback) :
  run evs boot = Normal (srv, tr) ->
  connections srv !! c = Some s -> idleInterval s = true ->
  Forall (fun cb => of_socket_or_timer cb = true) later ->
  exists srv' s',
    step (Fire c WsClosed) srv
    = Normal (srv',
              (fun e => (c, e)) <$>
                (match ffmpeg s with
                 | Some p => [StdinEnd p; Kill p "SIGINT"]
                 | None => []
                 end ++ [ClearInterval]))
    /\ connections srv' !! c = Some s'
    /\ ffmpeg s' = None /\ idleInterval s' = false
    /\ (forall k, rtmpKey s = Some k -> k ∉ activeKeys srv')
    /\ (forall k, k ∈ activeKeys srv' <->
                  k ∈ activeKeys srv /\ rtmpKey s <> Some k)
    /\ conn_run later (activeKeys srv', s') = Normal (activeKeys srv', s', []).
Proof.
  intros Hrun Hc Ha Hlater.
  pose proof (key_inv_reachable _ _ _ _ _ Hrun Hc) as Hkey.
  set (keys' := match rtmpKey s with
                | Some k => activeKeys srv ∖ {[k]}
                | None => activeKeys srv
                end).
  set (s' := set_idleInterval false (set_ffmpeg None s)).
  assert (on_ws_close (activeKeys srv, s)
          = (keys', s',
             match ffmpeg s with
             | Some p => [StdinEnd p; Kill p "SIGINT"]
             | None => []
             end ++ [ClearInterval])) as Hclose.
  { unfold on_ws_close.
    assert (forall s0, rtmpKey s0 = rtmpKey s ->
              match rtmpKey s0 with
              | Some key =>
                  if negb (no_key (rtmpKey s0))
                     && bool_decide (key ∈ activeKeys srv)
                  then activeKeys srv ∖ {[key]} else activeKeys srv
              | None => activeKeys srv
              end = keys') as Hkeys.
    { intros s0 ->. subst keys'. destruct (rtmpKey s) as [k|] eqn:Hk; [|done].
      cbn [no_key]. rewrite bool_decide_eq_false_2 by by apply Hkey.
      cbn [negb andb]. case_bool_decide; [done|].
      by rewrite delete_absent_key. }
    destruct (ffmpeg s) eqn:Hp.
    - rewrite Hkeys by by destruct s. subst s'. by destruct s.
    - rewrite Hkeys by done. subst s'. destruct s; cbn in *. by subst. }
  exists (mkServer keys' (<[c:=s']> (connections srv))), s'.
  split; [|split; [|split; [|split; [|split; [|split]]]]].
  - cbn [step]. rewrite Hc. cbn [conn_step]. by rewrite Ha, Hclose.
  - cbn [connections]. by rewrite lookup_insert_eq.
  - by destruct s.
  - by destruct s.
  - intros k Hk. cbn [activeKeys]. subst keys'. rewrite Hk.
    apply deleted_key_absent.
  - intros k. cbn [activeKeys]. subst keys'.
    destruct (rtmpKey s) as [k0|].
    + rewrite elem_of_difference, elem_of_singleton.
      split; intros [? Hne]; (split; [done|]); congruence.
    + split; [by intros ?|by intros [? _]].
  - apply conn_run_closed; [by destruct s|done].
Qed.

Lemma X4_witness :
  exists srv',
    @step Node.platform (Fire 1 WsClosed) one_streaming
    = Normal (srv', [(1%nat, StdinEnd 7); (1%nat, Kill 7 "SIGINT");
                     (1%nat, ClearInterval)])
    /\ str "KEY" ∉ activeKeys srv'.
Proof.
  destruct (@X4_close_releases Node.platform
              [Connect 1 0;
               Fire 1 (Message (Node.env 0) (Node.init_message KEY_URL) false);
               Fire 1 (Message (mkEnv 0 7 true None)
                         (EBML_SIGNATURE ++ [x01]) true)]
              one_streaming
              [(1%nat, WsSend (NoticeOk "waiting for WebM header"));
               (1%nat, Spawn "ffmpeg" ffArgs (Some (str KEY_URL)));
               (1%nat, StdinWrite 7 (EBML_SIGNATURE ++ [x01]));
               (1%nat, WsSend (NoticeOk "ffmpeg started"))]
              1 (streaming 0 7 (str KEY_URL) (str "KEY")) [])
    as (srv' & s' & Hstep & _ & _ & _ & Hkey & _).
  - vm_compute. reflexivity.
  - vm_compute. reflexivity.
  - reflexivity.
  - constructor.
  - exists srv'. split; [exact Hstep|]. by apply Hkey.
Defined.

(** ** The process exits on its own *)

(** X5. A connection whose header was accepted sees its process exit: it
    is sent the exit notice and its socket is closed; when the socket has
    closed its key is out of [activeKeys], without any further call on the
    process, and the first message of another connection for that key is
    acknowledged. *)
Theorem X5_key_reusable_after_exit `{Platform}
    (srv : Server) (c d : nat) (s sd : Session) (code : option Z)
    (signal : option string) (env : Env) (msg : Buffer) (tag : bool)
    (url key : JSString) :
  c <> d ->
  connections srv !! c = Some s -> connections srv !! d = Some sd ->
  started s = true -> headerReceived s = true -> idleInterval s = true ->
  rtmpKey s = Some key ->
  started sd = false -> idleInterval sd = true ->
  carries_url msg url -> match_live2 url = Some key ->
  exists srv' sd',
    run [Fire c (FfmpegClose code signal); Fire c WsClosed;
         Fire d (Message env msg tag)] srv
    = Normal (srv',
              [(c, WsSend (NoticeExit "FFmpeg exited" code signal));
               (c, WsClose);
               (c, ClearInterval);
               (d, WsSend (NoticeOk "waiting for WebM header"))])
    /\ connections srv' !! d = Some sd'
    /\ holds key sd' = true
    /\ key ∈ activeKeys srv'.
Proof.
  intros Hcd Hc Hd Hs Hh Ha Hk Hsd Had Hmsg Hm.
  destruct (match_live2_nonempty _ _ Hm) as [_ Hne].
  set (s1 := set_ffmpeg None (set_ffmpegError true s)).
  set (s2 := set_idleInterval false s1).
  set (sd' := set_started true
                (set_ws_rtmpUrl (Some url) (set_rtmpKey (Some key) sd))).
  set (keys1 := activeKeys srv ∖ {[key]}).
  set (srv1 := mkServer (activeKeys srv) (<[c:=s1]> (connections srv))).
  set (srv2 := mkServer keys1 (<[c:=s2]> (connections srv1))).
  set (srv3 := mkServer ({[key]} ∪ keys1) (<[d:=sd']> (connections srv2))).
  assert (step (Fire c (FfmpegClose code signal)) srv
          = Normal (srv1, [(c, WsSend (NoticeExit "FFmpeg exited" code signal));
                           (c, WsClose)])) as H1.
  { cbn [step]. rewrite Hc. cbn [conn_step]. by rewrite Hh. }
  assert (step (Fire c WsClosed) srv1 = Normal (srv2, [(c, ClearInterval)]))
    as H2.
  { cbn [step]. subst srv1. cbn [connections activeKeys].
    rewrite lookup_insert_eq. cbn [conn_step].
    assert (idleInterval s1 = true) as -> by by destruct s.
    unfold on_ws_close.
    assert (ffmpeg s1 = None) as -> by by destruct s.
    assert (rtmpKey s1 = Some key) as -> by by destruct s.
    cbn [no_key]. rewrite bool_decide_eq_false_2 by done. cbn [negb andb].
    case_bool_decide as Hin; [done|].
    subst srv2 keys1. by rewrite (delete_absent_key _ _ Hin). }
  assert (step (Fire d (Message env msg tag)) srv2
          = Normal (srv3, [(d, WsSend (NoticeOk "waiting for WebM header"))]))
    as H3.
  { cbn [step]. subst srv2 srv1. cbn [connections activeKeys].
    rewrite !lookup_insert_ne, Hd by done. cbn [conn_step]. rewrite Had.
    unfold on_message. cbn [snd]. rewrite Hsd. cbn [negb].
    rewrite (on_init_accept msg tag keys1 sd url key); [done..|].
    apply deleted_key_absent. }
  exists srv3, sd'. split; [|split; [|split]].
  - cbn [run]. by rewrite H1, H2, H3.
  - subst srv3. cbn [connections]. by rewrite lookup_insert_eq.
  - subst sd'. unfold holds. destruct sd; cbn in *. subst.
    by rewrite bool_decide_eq_true_2.
  - subst srv3. cbn [activeKeys]. apply elem_of_union_l.
    by apply elem_of_singleton.
Qed.

Lemma X5_witness :
  exists srv',
    @run Node.platform
      [Fire 1 (FfmpegClose (Some 1%Z) None); Fire 1 WsClosed;
       Fire 2 (Message (Node.env 9) (Node.init_message KEY_URL) false)]
      streaming_and_new
    = Normal (srv',
              [(1%nat, WsSend (NoticeExit "FFmpeg exited" (Some 1%Z) None));
               (1%nat, WsClose);
               (1%nat, ClearInterval);
               (2%nat, WsSend (NoticeOk "waiting for WebM header"))])
    /\ str "KEY" ∈ activeKeys srv'.
Proof.
  assert (@carries_url Node.platform (Node.init_message KEY_URL) (str KEY_URL))
    as Hmsg by (eexists; split; vm_compute; reflexivity).
  destruct (@X5_key_reusable_after_exit Node.platform streaming_and_new 1 2
              (streaming 0 7 (str KEY_URL) (str "KEY")) (new_session 5)
              (Some 1%Z) None (Node.env 9) (Node.init_message KEY_URL) false
              (str KEY_URL) (str "KEY"))
    as (srv' & sd' & Hrun & _ & _ & Hin).
  - discriminate.
  - vm_compute. reflexivity.
  - vm_compute. reflexivity.
  - reflexivity.
  - reflexivity.
  - reflexivity.
  - reflexivity.
  - reflexivity.
  - reflexivity.
  - exact Hmsg.
  - vm_compute. reflexivity.
  - exists srv'. split; [exact Hrun | exact Hin].
Defined.

(** ** One process per connection *)

Section Spawns.
Context `{Platform}.





End Spawns.



(** ** The bytes that reach the process *)

Lemma written_app (out1 out2 : list Effect) :
  written (out1 ++ out2) = written out1 ++ written out2.
Proof.
  induction out1 as [|e out1 IH]; [done|].
  destruct e; cbn [app written]; rewrite ?IH; try done. by rewrite app_assoc.
Qed.

Lemma Buffer_concat_snoc (chunks : list Buffer) (msg : Buffer) :
  Buffer_concat (chunks ++ [msg]) = Buffer_concat chunks ++ msg.
Proof.
  unfold Buffer_concat. rewrite concat_app. cbn. by rewrite app_nil_r.
Qed.

Section Relay.
Context `{Platform}.

(** Once the header is accepted, every binary message is written, and
    nothing else is called, as long as the input stays writable and no write
    throws. *)
Lemma relay_streaming cbs keys s p :
  started s = true -> headerReceived s = true -> idleInterval s = true ->
  ffmpegError s = false -> ffmpeg s = Some p -> initialBuffer s = [] ->
  Forall healthy_message cbs ->
  exists s' out,
    conn_run cbs (keys, s) = Normal (keys, s', out)
    /\ written out = binary_bytes cbs
    /\ initialBuffer s' = [] /\ headerReceived s' = true.
Proof.
  intros Hs Hh Ha He Hp Hb Hcbs. revert s Hs Hh Ha He Hp Hb.
  induction Hcbs as [|cb cbs (env & msg & tag & -> & Hw & Hn) _ IH];
    intros s Hs Hh Ha He Hp Hb.
  - by exists s, [].
  - assert (exists s1,
              conn_step (Message env msg tag) (keys, s)
              = Normal (keys, s1, if tag then [StdinWrite p msg] else [])
              /\ started s1 = true /\ headerReceived s1 = true
              /\ idleInterval s1 = true /\ ffmpegError s1 = false
              /\ ffmpeg s1 = Some p /\ initialBuffer s1 = [])
      as (s1 & Hstep & ? & ? & ? & ? & ? & ?).
    { cbn [conn_step]. rewrite Ha. unfold on_message, on_stream_chunk.
      cbn [snd]. rewrite Hs, Hh, He. cbn [negb].
      destruct tag; cbn [negb]; [|by exists s].
      cbn [set_lastChunkAt ffmpeg]. rewrite Hp, Hw, Hn.
      eexists. split; [done|]. by destruct s. }
    destruct (IH s1) as (s' & out & Hrun & Hwr & ? & ?); [done..|].
    exists s'. eexists. cbn [conn_run]. rewrite Hstep, Hrun.
    split; [done|]. rewrite written_app, Hwr.
    split; [|by split]. destruct tag; cbn [written binary_bytes app]; [|done].
    by rewrite app_nil_r.
Qed.

Lemma relay_validating cbs keys s :
  started s = true -> headerReceived s = false -> idleInterval s = true ->
  Forall healthy_message cbs ->
  exists s' out,
    conn_run cbs (keys, s) = Normal (keys, s', out)
    /\ written out ++ Buffer_concat (initialBuffer s')
       = Buffer_concat (initialBuffer s) ++ binary_bytes cbs
    /\ (headerReceived s' = true -> initialBuffer s' = []).
Proof.
  intros Hs Hh Ha Hcbs. revert s Hs Hh Ha.
  induction Hcbs as [|cb cbs (env & msg & tag & -> & Hw & Hn) Hrest IH];
    intros s Hs Hh Ha.
  - exists s, []. split; [done|]. cbn [written binary_bytes app].
    rewrite app_nil_r. split; [done|]. congruence.
  - cbn [conn_run conn_step]. rewrite Ha. destruct tag.
    + destruct (ebml_header_check (Buffer_concat (initialBuffer s ++ [msg])))
        eqn:Hcheck.
      * rewrite on_message_header_accept by done.
        destruct (relay_streaming cbs keys
                    (mkSession (Some (spawned env)) true (lastChunkAt s) false
                               [] true (rtmpKey s) (ws_rtmpUrl s)
                               (idleInterval s)) (spawned env))
          as (s' & out & Hrun & Hwr & Hb & Hh'); [done..|].
        exists s'. eexists. rewrite Hrun. split; [done|].
        cbn [binary_bytes app written]. rewrite Hwr, Hb.
        split; [|done]. rewrite Buffer_concat_snoc. cbn.
        by rewrite app_nil_r, app_assoc.
      * rewrite on_message_header_buffer by done.
        destruct (IH (set_initialBuffer (initialBuffer s ++ [msg]) s))
          as (s' & out & Hrun & Hwr & Hb); [by destruct s..|].
        exists s', out. rewrite Hrun. split; [done|]. split; [|done].
        rewrite Hwr. cbn [binary_bytes set_initialBuffer initialBuffer].
        by rewrite Buffer_concat_snoc, app_assoc.
    + rewrite on_message_header_text by done.
      destruct (IH s) as (s' & out & Hrun & Hwr & Hb); [done..|].
      exists s', out. by rewrite Hrun.
Qed.

End Relay.

(** X8. Nothing is lost and nothing is reordered.  A connection awaiting
    its header receives any sequence of messages, the input of the process
    being writable and no write throwing.  Then the bytes written to the
    process, in order, followed by the bytes still in the buffer, are the
    bytes that were in the buffer followed by the bytes of the binary
    messages, in order; text messages contribute nothing.  Once the header
    is accepted the buffer is empty, so everything received has been
    written. *)
Theorem X8_bytes_relayed_in_order `{Platform}
    (cbs : list Callback) (keys : gset JSString) (s : Session) :
  started s = true -> headerReceived s = false -> idleInterval s = true ->
  Forall healthy_message cbs ->
  exists s' out,
    conn_run cbs (keys, s) = Normal (keys, s', out)
    /\ written out ++ Buffer_concat (initialBuffer s')
       = Buffer_concat (initialBuffer s) ++ binary_bytes cbs
    /\ (headerReceived s' = true ->
        written out = Buffer_concat (initialBuffer s) ++ binary_bytes cbs).
Proof.
  intros Hs Hh Ha Hcbs.
  destruct (relay_validating cbs keys s Hs Hh Ha Hcbs)
    as (s' & out & Hrun & Hwr & Hb).
  exists s', out. split; [done|]. split; [done|].
  intros Hh'. rewrite <- Hwr, (Hb Hh'). cbn. by rewrite app_nil_r.
Qed.

Lemma X8_witness :
  exists s' out,
    @conn_run Node.platform
      [Message (Node.env 1) [x1a; x45] true;
       Message (Node.env 2) [x00] false;
       Message (Node.env 3) [xdf; xa3; x01] true;
       Message (Node.env 4) [x02; x03] true]
      (∅, awaiting_header 0 (str KEY_URL) (str "KEY"))
    = Normal (∅, s', out)
    /\ written out ++ Buffer_concat (initialBuffer s')
       = [x1a; x45; xdf; xa3; x01; x02; x03].
Proof.
  destruct (@X8_bytes_relayed_in_order Node.platform
              [Message (Node.env 1) [x1a; x45] true;
               Message (Node.env 2) [x00] false;
               Message (Node.env 3) [xdf; xa3; x01] true;
               Message (Node.env 4) [x02; x03] true]
              ∅ (awaiting_header 0 (str KEY_URL) (str "KEY")))
    as (s' & out & Hrun & Hwr & _); try reflexivity.
  - repeat constructor; eexists _, _, _; by repeat split.
  - exists s', out. split; [exact Hrun | exact Hwr].
Defined.

(** ** A buffer that cannot become a header *)

Lemma ebml_header_check_hopeless (b rest : Buffer) :
  (4 <= length b)%nat -> take 4 b <> EBML_SIGNATURE ->
  ebml_header_check (b ++ rest) = false.
Proof.
  intros Hlen Hne. destruct (ebml_header_check (b ++ rest)) eqn:Hc; [|done].
  apply ebml_header_check_spec in Hc as [_ Htake].
  rewrite take_app_le in Htake by done. done.
Qed.

(** X9. The check looks at the first four bytes of everything buffered.
    Once the buffer holds four bytes that are not the signature, no message
    can make the check succeed: whatever the publisher sends, and however
    long it goes on, nothing is spawned, nothing is sent back, the timer
    never stops anything, and every binary message is kept in the buffer. *)
Theorem X9_wrong_start_never_starts `{Platform}
    (cbs : list Callback) (keys : gset JSString) (s : Session) :
  started s = true -> headerReceived s = false -> idleInterval s = true ->
  ffmpeg s = None ->
  (4 <= length (Buffer_concat (initialBuffer s)))%nat ->
  take 4 (Buffer_concat (initialBuffer s)) <> EBML_SIGNATURE ->
  Forall (fun cb => quiet cb = true) cbs ->
  exists s',
    conn_run cbs (keys, s) = Normal (keys, s', [])
    /\ headerReceived s' = false /\ ffmpeg s' = None
    /\ initialBuffer s' = initialBuffer s ++ binary_chunks cbs.
Proof.
  intros Hs Hh Ha Hp Hlen Hne Hcbs. revert s Hs Hh Ha Hp Hlen Hne.
  induction Hcbs as [|cb cbs Hcb _ IH]; intros s Hs Hh Ha Hp Hlen Hne.
  - exists s. by rewrite app_nil_r.
  - destruct cb as [env msg tag|t| | | |]; try done; cbn [conn_run conn_step].
    + rewrite Ha. destruct tag.
      * rewrite on_message_header_buffer; [|done|done|].
        2:{ rewrite Buffer_concat_snoc. by apply ebml_header_check_hopeless. }
        destruct (IH (set_initialBuffer (initialBuffer s ++ [msg]) s))
          as (s' & Hrun & ? & ? & Hb); try by destruct s.
        { cbn [set_initialBuffer initialBuffer].
          rewrite Buffer_concat_snoc, length_app. lia. }
        { cbn [set_initialBuffer initialBuffer].
          rewrite Buffer_concat_snoc, take_app_le by done. done. }
        exists s'. rewrite Hrun. split; [done|]. split; [done|].
        split; [done|]. rewrite Hb. cbn [set_initialBuffer initialBuffer binary_chunks].
        by rewrite <- app_assoc.
      * rewrite on_message_header_text by done.
        destruct (IH s) as (s' & Hrun & ? & ? & Hb); try done.
        exists s'. by rewrite Hrun.
    + rewrite Ha. unfold idle_tick. rewrite Hp. lazy beta iota.
      destruct (IH s) as (s' & Hrun & ? & ? & Hb); try done.
      exists s'. by rewrite Hrun.
    + unfold on_ws_error. lazy beta iota.
      destruct (IH s) as (s' & Hrun & ? & ? & Hb); try done.
      exists s'. by rewrite Hrun.
Qed.

Lemma X9_witness :
  exists s',
    @conn_run Node.platform
      [Message (Node.env 1) (EBML_SIGNATURE ++ [x01]) true; IdleTick 99999;
       Message (Node.env 2) (EBML_SIGNATURE ++ [x02]) true]
      (∅, set_initialBuffer [[x00; x00; x00; x00]]
            (awaiting_header 0 (str KEY_URL) (str "KEY")))
    = Normal (∅, s', [])
    /\ initialBuffer s'
       = [[x00; x00; x00; x00]; EBML_SIGNATURE ++ [x01]; EBML_SIGNATURE ++ [x02]].
Proof.
  destruct (@X9_wrong_start_never_starts Node.platform
              [Message (Node.env 1) (EBML_SIGNATURE ++ [x01]) true;
               IdleTick 99999;
               Message (Node.env 2) (EBML_SIGNATURE ++ [x02]) true]
              ∅ (set_initialBuffer [[x00; x00; x00; x00]]
                   (awaiting_header 0 (str KEY_URL) (str "KEY"))))
    as (s' & Hrun & _ & _ & Hb); try reflexivity.
  - intros Heq. vm_compute in Heq. discriminate.
  - by repeat constructor.
  - exists s'. split; [exact Hrun | exact Hb].
Defined.

(** ** Which destinations the pattern accepts *)

Lemma match_live2_leftmost (url key : JSString) :
  match_live2 url = Some key ->
  exists pre,
    url = pre ++ str "live2/" ++ key /\ dot_text key
    /\ forall pre' k',
         url = pre' ++ str "live2/" ++ k' -> dot_text k' ->
         (length pre <= length pre')%nat.
Proof.
  induction url as [|c url IH]; cbn [match_live2].
  - by rewrite live2_here_nil.
  - destruct (live2_here (c :: url)) as [k|] eqn:Hh.
    + intros [= ->]. apply live2_here_Some in Hh as [Heq Hk].
      exists []. split; [done|]. split; [done|]. intros; cbn; lia.
    + intros Hm. destruct (IH Hm) as (pre & -> & Hk & Hleft).
      exists (c :: pre). split; [done|]. split; [done|].
      intros pre' k' Heq Hk'. destruct pre' as [|c' pre'].
      * assert (live2_here (c :: pre ++ str "live2/" ++ key) = Some k') as Hyes
          by (apply live2_here_Some; by rewrite Heq).
        congruence.
      * injection Heq as _ Heq. cbn [length].
        specialize (Hleft pre' k' Heq Hk'). lia.
Qed.

(** X10. [rtmpUrl.match(/live2\/(.+)$/)] returns [null] exactly when the URL
    has no occurrence of [live2/] that is followed, up to the end of the
    string, by a non-empty text without line terminator; so a URL that ends
    in [live2/], or whose key is followed by a line break, is refused.
    When it matches, the key is the whole rest of the URL after the
    leftmost such occurrence. *)
Theorem X10_destination_pattern (url : JSString) :
  (match_live2 url = None
   <-> forall pre k, url = pre ++ str "live2/" ++ k -> ~ dot_text k)
  /\ (forall key,
        match_live2 url = Some key ->
        exists pre,
          url = pre ++ str "live2/" ++ key /\ dot_text key
          /\ forall pre' k',
               url = pre' ++ str "live2/" ++ k' -> dot_text k' ->
               (length pre <= length pre')%nat).
Proof.
  split; [|apply match_live2_leftmost]. split.
  - intros Hnone pre k -> Hk.
    destruct (match_live2_is_Some pre k Hk) as [key Hsome]. congruence.
  - intros Hno. destruct (match_live2 url) as [key|] eqn:Hm; [|done].
    destruct (match_live2_Some _ _ Hm) as (pre & -> & Hk).
    by destruct (Hno pre key).
Qed.

Example match_live2_edges :
  match_live2 (str "rtmp://a.rtmp.youtube.com/live2/") = None
  /\ match_live2 (str "rtmp://a.rtmp.youtube.com/live2/KEY" ++ [0x0A%N]) = None
  /\ match_live2 (str "rtmp://a.rtmp.youtube.com/LIVE2/KEY") = None
  /\ match_live2 (str "live2/a" ++ [0x0A%N] ++ str "live2/b") = Some (str "b")
  /\ match_live2 (str "x/live2/live2/k") = Some (str "live2/k").
Proof. vm_compute. by repeat split. Qed.

(** * Properties of [working-youtube-server.js] *)

(** ** The first server: what the publisher is never told *)

Section WorkingServer.
Context `{Platform}.

Lemma working_step_started cb s :
  Working.started s = true ->
  let '(s', out) := Working.conn_step cb s in
  Working.started s' = true
  /\ Forall (fun e => Working.on_socket e = false
                      /\ forall c a d, e <> Working.Spawn c a d) out
  /\ (Working.ffmpeg s = None ->
      Working.ffmpeg s' = None
      /\ Forall (fun e => e = Working.ClearInterval) out).
Proof.
  intros Hs.
  destruct cb as [env msg tag|t|code signal|m| |]; cbn [Working.conn_step].
  - destruct (Working.idleInterval s); [|by repeat split].
    unfold Working.on_message. rewrite Hs. cbn [negb].
    destruct tag; cbn [negb]; [|by repeat split].
    cbn [Working.ffmpeg Working.started].
    destruct (Working.ffmpeg s) as [p|] eqn:Hp; [|by repeat split].
    destruct (stdin_writable env); (split; [done|]; split; [|done]);
      by repeat constructor.
  - destruct (Working.idleInterval s); [|by repeat split].
    unfold Working.idle_tick.
    destruct (Working.ffmpeg s) as [p|] eqn:Hp; [|by repeat split].
    destruct (_ <? _)%Z; (split; [done|]; split; [|done]);
      by repeat constructor.
  - rewrite Hs. by repeat split.
  - rewrite Hs. by repeat split.
  - destruct (Working.idleInterval s); [|by repeat split].
    unfold Working.on_ws_close.
    destruct (Working.ffmpeg s) as [p|] eqn:Hp.
    + split; [done|]. split; [|done]. by repeat constructor.
    + split; [done|]. split; [by repeat constructor|].
      intros _. split; [done|]. by repeat constructor.
  - by repeat split.
Qed.

End WorkingServer.

(** X11. In the first server of [working-youtube-server.js], once the
    first message has been acknowledged no callback ever sends a notice,
    closes the socket or spawns again.  And once the process handle is gone
    (the process exited, or the idle timer stopped it) it stays gone: every
    later chunk is dropped without a word, the only call left being the
    [clearInterval] of the close callback. *)
Theorem X11_working_server_never_reports `{Platform}
    (cbs : list Callback) (s : Working.Session) :
  Working.started s = true ->
  Forall (fun e => Working.on_socket e = false
                   /\ forall c a d, e <> Working.Spawn c a d)
         (snd (Working.conn_run cbs s))
  /\ (Working.ffmpeg s = None ->
      Working.ffmpeg (fst (Working.conn_run cbs s)) = None
      /\ Forall (fun e => e = Working.ClearInterval)
                (snd (Working.conn_run cbs s))).
Proof.
  revert s. induction cbs as [|cb cbs IH]; intros s Hs.
  - by repeat split.
  - cbn [Working.conn_run].
    pose proof (working_step_started cb s Hs) as Hstep.
    destruct (Working.conn_step cb s) as [s1 out1].
    destruct Hstep as (Hs1 & Hout1 & Hnone1).
    specialize (IH s1 Hs1).
    destruct (Working.conn_run cbs s1) as [s2 out2]. cbn [fst snd] in *.
    destruct IH as [Hout2 Hnone2].
    split; [by apply Forall_app|].
    intros Hp. destruct (Hnone1 Hp) as [Hp1 Hc1].
    destruct (Hnone2 Hp1) as [Hp2 Hc2]. split; [done|]. by apply Forall_app.
Qed.

Lemma X11_witness :
  snd (@Working.conn_run Node.platform
         [Message (Node.env 1) (Node.init_message KEY_URL) false;
          Message (Node.env 2) [x01] true;
          FfmpegClose (Some 1%Z) None;
          Message (Node.env 3) [x02] true;
          IdleTick 99999]
         (Working.new_session 0))
  = [Working.Spawn "ffmpeg" Working.ffArgs (JString (str KEY_URL));
     Working.WsSend (NoticeOk "ffmpeg started");
     Working.StdinWrite 1 [x01]]
  /\ Forall (fun e => e = Working.ClearInterval)
            (snd (@Working.conn_run Node.platform
                    [Message (Node.env 3) [x02] true; IdleTick 99999; WsClosed]
                    (Working.mkSession None true 2 true))).
Proof.
  split; [vm_compute; reflexivity|].
  by apply (@X11_working_server_never_reports Node.platform
              [Message (Node.env 3) [x02] true; IdleTick 99999; WsClosed]
              (Working.mkSession None true 2 true) eq_refl).
Defined.

(** ** The first server: the bytes that reach the process *)

(** X12. In the first server, while the process handle is set and its
    input is writable, the bytes written to the process are exactly the
    bytes of the binary messages, in order; text messages are dropped, and
    a write that throws changes nothing (the error is logged and the next
    chunk is written all the same). *)
Theorem X12_working_server_relays_in_order `{Platform}
    (cbs : list Callback) (s : Working.Session) (p : ChildProcess) :
  Working.started s = true -> Working.idleInterval s = true ->
  Working.ffmpeg s = Some p ->
  Forall writable_message cbs ->
  Working.written (snd (Working.conn_run cbs s)) = binary_bytes cbs
  /\ Forall (fun e => Working.is_write e = true)
            (snd (Working.conn_run cbs s))
  /\ Working.ffmpeg (fst (Working.conn_run cbs s)) = Some p.
Proof.
  intros Hs Ha Hp Hcbs. revert s Hs Ha Hp.
  induction Hcbs as [|cb cbs (env & msg & tag & -> & Hw) _ IH];
    intros s Hs Ha Hp.
  - by repeat split.
  - cbn [Working.conn_run Working.conn_step]. rewrite Ha.
    unfold Working.on_message. rewrite Hs. cbn [negb].
    destruct tag; cbn [negb].
    + cbn [Working.ffmpeg]. rewrite Hp, Hw.
      specialize (IH (Working.mkSession (Some p) true (now env)
                                        (Working.idleInterval s))
                     eq_refl Ha eq_refl).
      destruct (Working.conn_run cbs _) as [s2 out2]. lazy beta iota.
      cbn [fst snd] in *.
      destruct IH as (Hwr & Hout & Hp2). cbn [app Working.written binary_bytes].
      rewrite Hwr. split; [done|]. split; [|done]. by constructor.
    + specialize (IH s Hs Ha Hp).
      destruct (Working.conn_run cbs s) as [s2 out2]. lazy beta iota.
      cbn [fst snd] in *.
      by destruct IH as (Hwr & Hout & Hp2).
Qed.

Lemma X12_witness :
  Working.written
    (snd (@Working.conn_run Node.platform
            [Message (mkEnv 1 1 true (Some "EPIPE"%string)) [x01; x02] true;
             Message (Node.env 2) [x03] false;
             Message (Node.env 3) [x04] true]
            (Working.mkSession (Some 7) true 0 true)))
  = [x01; x02; x04].
Proof.
  apply (@X12_working_server_relays_in_order Node.platform
           [Message (mkEnv 1 1 true (Some "EPIPE"%string)) [x01; x02] true;
            Message (Node.env 2) [x03] false;
            Message (Node.env 3) [x04] true]
           (Working.mkSession (Some 7) true 0 true) 7); try reflexivity.
  repeat constructor; eexists _, _, _; by split.
Defined.

(** ** The second server: the destination it streams to *)

Lemma slash_dot_spec (s : JSString) :
  slash_dot s = true
  <-> exists b rest, s = 0x2F%N :: b :: rest /\ is_line_terminator b = false.
Proof.
  unfold slash_dot. destruct s as [|c [|d r]].
  - split; [done|]. by intros (? & ? & ? & _).
  - split; [done|]. by intros (? & ? & ? & _).
  - rewrite andb_true_iff, N.eqb_eq, negb_true_iff. split.
    + intros [-> Hd]. by exists d, r.
    + by intros (? & ? & [= -> -> ->] & ?).
Qed.

Lemma dot_plus_slash_dot_spec (s : JSString) :
  dot_plus_slash_dot s = true
  <-> exists a b rest,
        s = a ++ 0x2F%N :: b :: rest /\ a <> []
        /\ Forall (fun c => is_line_terminator c = false) a
        /\ is_line_terminator b = false.
Proof.
  induction s as [|c s IH]; cbn [dot_plus_slash_dot].
  - split; [done|]. intros (a & b & rest & Heq & Ha & _). by destruct a.
  - rewrite andb_true_iff, negb_true_iff, orb_true_iff, slash_dot_spec, IH.
    split.
    + intros [Hc [(b & rest & -> & Hb) | (a & b & rest & -> & Ha & Hall & Hb)]].
      * exists [c], b, rest. split; [done|]. split; [done|].
        split; [by constructor|done].
      * exists (c :: a), b, rest. split; [done|]. split; [done|].
        split; [by constructor|done].
    + intros (a & b & rest & Heq & Ha & Hall & Hb).
      destruct a as [|c' a]; [done|]. injection Heq as <- ->.
      apply Forall_cons in Hall as [Hc Hall]. split; [done|].
      destruct a as [|c'' a].
      * left. by exists b, rest.
      * right. by exists (c'' :: a), b, rest.
Qed.

(** X13. [/^rtmp:\/\/.+\/.+/] accepts exactly the strings that begin with
    [rtmp://], then have one character or more, a [/], and one more
    character, none of these being a line terminator; what follows is not
    looked at. *)
Theorem X13_rtmp_pattern (s : JSString) :
  test_rtmp s = true
  <-> exists a b rest,
        s = str "rtmp://" ++ a ++ 0x2F%N :: b :: rest /\ a <> []
        /\ Forall (fun c => is_line_terminator c = false) a
        /\ is_line_terminator b = false.
Proof.
  unfold test_rtmp. destruct (strip_prefix (str "rtmp://") s) as [r|] eqn:Hp.
  - apply strip_prefix_Some in Hp as ->. rewrite dot_plus_slash_dot_spec.
    split; intros (a & b & rest & Heq & ?); exists a, b, rest;
      (split; [|done]).
    + by rewrite Heq.
    + by apply app_inv_head in Heq.
  - split; [done|]. intros (a & b & rest & -> & _).
    assert (strip_prefix (str "rtmp://")
              (str "rtmp://" ++ a ++ 0x2F%N :: b :: rest)
            = Some (a ++ 0x2F%N :: b :: rest)) as Hyes
      by by apply strip_prefix_Some.
    congruence.
Qed.

Example fallback_destinations :
  @Fallback.destination Node.platform padded_init = str "rtmp://host/app/key"
  /\ @Fallback.destination Node.platform
       (Node.init_message "https://relay.example/live2/ABCDEF")
     = Fallback.default_destination
  /\ @Fallback.destination Node.platform number_init
     = Fallback.default_destination
  /\ @Fallback.destination Node.platform [x00; x01]
     = Fallback.default_destination.
Proof. vm_compute. by repeat split. Qed.

(** ** The page script: escaping *)

Lemma replaceAll_app (c : N) (rep s1 s2 : JSString) :
  Page.replaceAll c rep (s1 ++ s2)
  = Page.replaceAll c rep s1 ++ Page.replaceAll c rep s2.
Proof. unfold Page.replaceAll. apply flat_map_app. Qed.

(** The three passes are one pass, character by character. *)
Lemma escape_passes (s : JSString) :
  Page.replaceAll 0x3E (str "&gt;")
    (Page.replaceAll 0x3C (str "&lt;")
       (Page.replaceAll 0x26 (str "&amp;") s))
  = flat_map Page.escape_unit s.
Proof.
  induction s as [|x s IH]; [done|].
  change (x :: s) with ([x] ++ s).
  rewrite !replaceAll_app, IH. cbn [flat_map]. f_equal.
  unfold Page.escape_unit.
  destruct (N.eqb_spec x 0x26) as [->|H26]; [by vm_compute|].
  destruct (N.eqb_spec x 0x3C) as [->|H3C]; [by vm_compute|].
  destruct (N.eqb_spec x 0x3E) as [->|H3E]; [by vm_compute|].
  unfold Page.replaceAll. cbn [flat_map app].
  apply N.eqb_neq in H26, H3C, H3E.
  rewrite H26. cbn [flat_map app]. rewrite H3C. cbn [flat_map app].
  by rewrite H3E.
Qed.

(** What one character becomes: itself, if it is not [&], or [&] followed
    by one of three names. *)
Lemma escape_unit_cases (x : N) :
  (Page.escape_unit x = [x] /\ x <> 0x26%N /\ x <> 0x3C%N /\ x <> 0x3E%N)
  \/ (x = 0x26%N /\ Page.escape_unit x = 0x26%N :: str "amp;")
  \/ (x = 0x3C%N /\ Page.escape_unit x = 0x26%N :: str "lt;")
  \/ (x = 0x3E%N /\ Page.escape_unit x = 0x26%N :: str "gt;").
Proof.
  unfold Page.escape_unit.
  destruct (N.eqb_spec x 0x26) as [->|H26]; [by right; left|].
  destruct (N.eqb_spec x 0x3C) as [->|H3C]; [by right; right; left|].
  destruct (N.eqb_spec x 0x3E) as [->|H3E]; [by right; right; right|].
  by left.
Qed.

(** An occurrence of [c] in [w ++ x] lies in [x] when [w] has none. *)
Lemma occurrence_after (c : N) (w x pre post : JSString) :
  c ∉ w -> w ++ x = pre ++ c :: post ->
  exists pre', pre = w ++ pre' /\ x = pre' ++ c :: post.
Proof.
  revert pre. induction w as [|a w IH]; intros pre Hw Heq.
  - by exists pre.
  - apply not_elem_of_cons in Hw as [Hne Hw].
    destruct pre as [|b pre]; cbn in Heq.
    + injection Heq as -> _. done.
    + injection Heq as -> Heq.
      destruct (IH pre Hw Heq) as (pre' & -> & ->). by exists pre'.
Qed.

Lemma escaped_no_angle (s : JSString) :
  (0x3C%N ∉ flat_map Page.escape_unit s)
  /\ (0x3E%N ∉ flat_map Page.escape_unit s).
Proof.
  induction s as [|x s [IH1 IH2]]; cbn [flat_map].
  - split; apply not_elem_of_nil.
  - rewrite !not_elem_of_app.
    destruct (escape_unit_cases x)
      as [(-> & _ & H3C & H3E) | [(_ & ->) | [(_ & ->) | (_ & ->)]]].
    + split; (split; [|done]); apply not_elem_of_cons;
        (split; [done|apply not_elem_of_nil]).
    + split; (split; [|done]); by vm_compute; intros Hin;
        repeat (apply elem_of_cons in Hin as [Hin|Hin]; [done|]);
        apply elem_of_nil in Hin.
    + split; (split; [|done]); by vm_compute; intros Hin;
        repeat (apply elem_of_cons in Hin as [Hin|Hin]; [done|]);
        apply elem_of_nil in Hin.
    + split; (split; [|done]); by vm_compute; intros Hin;
        repeat (apply elem_of_cons in Hin as [Hin|Hin]; [done|]);
        apply elem_of_nil in Hin.
Qed.

Lemma escaped_ampersand (s pre post : JSString) :
  flat_map Page.escape_unit s = pre ++ 0x26%N :: post ->
  exists rest,
    post = str "amp;" ++ rest \/ post = str "lt;" ++ rest
    \/ post = str "gt;" ++ rest.
Proof.
  revert pre. induction s as [|x s IH]; intros pre Heq; cbn [flat_map] in Heq.
  - by destruct pre.
  - assert (forall w, 0x26%N ∉ w ->
              0x26%N :: w ++ flat_map Page.escape_unit s
              = pre ++ 0x26%N :: post ->
              (exists rest, post = w ++ rest)
              \/ exists pre', flat_map Page.escape_unit s
                              = pre' ++ 0x26%N :: post) as Hname.
    { intros w Hw Hw'. destruct pre as [|b pre]; cbn in Hw'.
      - injection Hw' as <-. left. by eexists.
      - injection Hw' as _ Hw'.
        destruct (occurrence_after _ _ _ _ _ Hw Hw') as (pre' & _ & ->).
        right. by exists pre'. }
    assert (forall w : JSString, Forall (fun c => c <> 0x26%N) w -> 0x26%N ∉ w)
      as Hfree.
    { intros w Hw Hin. rewrite Forall_forall in Hw. by apply (Hw _ Hin). }
    destruct (escape_unit_cases x)
      as [(Hx & H26 & _) | [(_ & Hx) | [(_ & Hx) | (_ & Hx)]]];
      rewrite Hx in Heq.
    + destruct (occurrence_after 0x26%N [x] (flat_map Page.escape_unit s)
                  pre post) as (pre' & _ & Hs);
        [|done|by apply (IH pre')].
      apply not_elem_of_cons. split; [done|apply not_elem_of_nil].
    + destruct (Hname (str "amp;")) as [[rest ->] | [pre' Hs]];
        [apply Hfree; by repeat constructor | done | | by apply (IH pre')].
      exists rest. by left.
    + destruct (Hname (str "lt;")) as [[rest ->] | [pre' Hs]];
        [apply Hfree; by repeat constructor | done | | by apply (IH pre')].
      exists rest. by right; left.
    + destruct (Hname (str "gt;")) as [[rest ->] | [pre' Hs]];
        [apply Hfree; by repeat constructor | done | | by apply (IH pre')].
      exists rest. by right; right.
Qed.

(** X15. On every string, empty or not, [escapeHtml] returns the text with
    each [&], [<] and [>] replaced by its entity and every other character
    kept: the three passes do not interfere.  The result holds no [<] and
    no [>], and each [&] in it starts one of the three entities. *)
Theorem X15_escapeHtml_output (s : JSString) :
  exists out,
    Page.escapeHtml (Some (JString s)) = Normal out
    /\ out = flat_map Page.escape_unit s
    /\ (0x3C%N ∉ out) /\ (0x3E%N ∉ out)
    /\ forall pre post, out = pre ++ 0x26%N :: post ->
         exists rest,
           post = str "amp;" ++ rest \/ post = str "lt;" ++ rest
           \/ post = str "gt;" ++ rest.
Proof.
  exists (flat_map Page.escape_unit s).
  split; [|split; [done|]].
  - unfold Page.escapeHtml. destruct s as [|x s]; [done|].
    cbn [truthy_opt truthy negb]. by rewrite escape_passes.
  - destruct (escaped_no_angle s) as [H1 H2]. split; [done|]. split; [done|].
    intros pre post. apply escaped_ampersand.
Qed.

(** X16. [escapeHtml] loses nothing: two strings with the same escaped form
    are the same string. *)
Theorem X16_escapeHtml_injective (s1 s2 : JSString) :
  Page.escapeHtml (Some (JString s1)) = Page.escapeHtml (Some (JString s2)) ->
  s1 = s2.
Proof.
  assert (forall s, Page.escapeHtml (Some (JString s))
                    = Normal (flat_map Page.escape_unit s)) as Hesc.
  { intros [|x s]; [done|]. unfold Page.escapeHtml.
    cbn [truthy_opt truthy negb]. by rewrite escape_passes. }
  rewrite !Hesc. intros [= Heq]. revert s2 Heq.
  induction s1 as [|x s1 IH]; intros [|y s2] Heq; cbn [flat_map] in Heq.
  - done.
  - destruct (escape_unit_cases y)
      as [(Hy & _) | [(_ & Hy) | [(_ & Hy) | (_ & Hy)]]];
      rewrite Hy in Heq; discriminate.
  - destruct (escape_unit_cases x)
      as [(Hx & _) | [(_ & Hx) | [(_ & Hx) | (_ & Hx)]]];
      rewrite Hx in Heq; discriminate.
  - destruct (escape_unit_cases x)
      as [(Hx & Hx1 & _) | [(-> & Hx) | [(-> & Hx) | (-> & Hx)]]];
    destruct (escape_unit_cases y)
      as [(Hy & Hy1 & _) | [(-> & Hy) | [(-> & Hy) | (-> & Hy)]]];
      rewrite ?Hx, ?Hy in Heq; cbn in Heq; try discriminate;
      try (injection Heq as Heq; by rewrite (IH s2 Heq));
      try (injection Heq as Hc _; congruence).
    injection Heq as -> Heq. by rewrite (IH s2 Heq).
Qed.

Lemma X16_witness :
  Page.escapeHtml (Some (JString (str "a<b & c>d")))
  = Page.escapeHtml (Some (JString (str "a<b & c>d")))
  /\ str "a<b & c>d" = str "a<b & c>d".
Proof.
  split; [reflexivity|].
  apply (X16_escapeHtml_injective (str "a<b & c>d") (str "a<b & c>d")).
  reflexivity.
Defined.

Example escapeHtml_edges :
  Page.escapeHtml (Some (JString (str "a<b & c>d")))
  = Normal (str "a&lt;b &amp; c&gt;d")
  /\ Page.escapeHtml (Some (JString (str "&lt;")))
     = Normal (str "&amp;lt;")
  /\ Page.escapeHtml None = Normal []
  /\ Page.escapeHtml (Some JNull) = Normal []
  /\ Page.escapeHtml (Some (JBool true))
     = Throw "TypeError: s.replaceAll is not a function".
Proof. vm_compute. by repeat split. Qed.

(** ** The page script: the pasted links *)

Lemma trim_start_head (l : JSString) (c : N) (r : JSString) :
  trim_start l = c :: r -> is_trim_space c = false.
Proof.
  induction l as [|a l IH]; cbn [trim_start]; [done|].
  destruct (is_trim_space a) eqn:Ha; [done|]. by intros [= <- _].
Qed.

Lemma trim_start_suffix (l : JSString) :
  exists pre, l = pre ++ trim_start l.
Proof.
  induction l as [|a l [pre IH]]; cbn [trim_start]; [by exists []|].
  destruct (is_trim_space a).
  - exists (a :: pre). cbn. by rewrite <- IH.
  - by exists [].
Qed.

Lemma trim_end_prefix (l : JSString) :
  exists suf, l = trim_end l ++ suf.
Proof.
  unfold trim_end. destruct (trim_start_suffix (rev l)) as [pre Hpre].
  exists (rev pre). rewrite <- rev_app_distr, <- Hpre. by rewrite rev_involutive.
Qed.

Lemma trim_infix (l : JSString) :
  exists pre suf, l = pre ++ trim l ++ suf.
Proof.
  unfold trim. destruct (trim_start_suffix l) as [pre Hpre].
  destruct (trim_end_prefix (trim_start l)) as [suf Hsuf].
  exists pre, suf. by rewrite <- Hsuf.
Qed.

Lemma trim_trimmed (l : JSString) : trimmed (trim l).
Proof.
  split; intros c r Heq.
  - unfold trim in Heq.
    destruct (trim_end_prefix (trim_start l)) as [suf Hsuf].
    rewrite Heq in Hsuf. by apply (trim_start_head l c (r ++ suf)).
  - unfold trim, trim_end in Heq.
    apply (trim_start_head (rev (trim_start l)) c (rev r)).
    apply (f_equal (@rev N)) in Heq.
    by rewrite rev_involutive, rev_app_distr in Heq.
Qed.

Lemma trimmed_trim (l : JSString) : trimmed l -> trim l = l.
Proof.
  intros [Hhd Hlast]. unfold trim.
  assert (trim_start l = l) as Hstart.
  { destruct l as [|c r]; [done|]. cbn [trim_start].
    by rewrite (Hhd c r eq_refl). }
  rewrite Hstart. unfold trim_end.
  assert (trim_start (rev l) = rev l) as Hend;
    [|rewrite Hend; apply rev_involutive].
  destruct (rev l) as [|c r] eqn:Hrev; [done|]. cbn [trim_start].
  rewrite (Hlast c (rev r)); [done|].
  apply (f_equal (@rev N)) in Hrev. by rewrite rev_involutive in Hrev.
Qed.

Lemma not_elem_of_rev (x : N) (l : JSString) : x ∉ l -> x ∉ rev l.
Proof. by rewrite !list_elem_of_In, <- in_rev. Qed.

Lemma split_lines_no_newline (cur s : JSString) :
  0x0A%N ∉ cur ->
  Forall (fun p => 0x0A%N ∉ p) (Page.split_lines_from cur s).
Proof.
  revert cur. induction s as [|c r IH]; intros cur Hcur;
    cbn [Page.split_lines_from].
  - constructor; [|done]. by apply not_elem_of_rev.
  - assert (0x0A%N ∉ rev cur) as Hrev by by apply not_elem_of_rev.
    destruct (N.eqb_spec c 0x0A) as [->|Hc].
    + constructor; [done|]. apply IH, not_elem_of_nil.
    + assert (0x0A%N ∉ c :: cur) as Hcons
        by (apply not_elem_of_cons; split; [congruence|done]).
      destruct r as [|d r']; [by apply IH|].
      destruct ((c =? 0x0D) && (d =? 0x0A))%N eqn:Hcr; [|by apply IH].
      constructor; [done|].
      assert (Forall (fun p => 0x0A%N ∉ p)
                (Page.split_lines_from [c] (d :: r'))) as Hnext.
      { apply IH, not_elem_of_cons. split; [congruence|apply not_elem_of_nil]. }
      apply andb_true_iff in Hcr as [_ Hd]. apply N.eqb_eq in Hd as ->.
      cbn [Page.split_lines_from] in Hnext. rewrite N.eqb_refl in Hnext.
      by apply Forall_cons in Hnext as [_ Hnext].
Qed.

(** A text without line feed is one piece. *)
Lemma split_lines_last (cur l : JSString) :
  0x0A%N ∉ l -> Page.split_lines_from cur l = [rev cur ++ l].
Proof.
  revert cur. induction l as [|c r IH]; intros cur Hl;
    cbn [Page.split_lines_from].
  - by rewrite app_nil_r.
  - apply not_elem_of_cons in Hl as [Hc Hr].
    apply not_eq_sym, N.eqb_neq in Hc. rewrite Hc.
    assert (Page.split_lines_from (c :: cur) r = [rev cur ++ c :: r]) as Hgo.
    { rewrite (IH (c :: cur) Hr). cbn [rev]. by rewrite <- app_assoc. }
    destruct r as [|d r']; [done|].
    apply not_elem_of_cons in Hr as [Hd _].
    apply not_eq_sym, N.eqb_neq in Hd. by rewrite Hd, andb_false_r.
Qed.

(** A line that does not end with a carriage return is cut off at the line
    feed after it. *)
Lemma split_lines_cons (cur l rest : JSString) :
  0x0A%N ∉ l ->
  (forall r c, l = r ++ [c] -> c <> 0x0D%N) ->
  Page.split_lines_from cur (l ++ 0x0A%N :: rest)
  = (rev cur ++ l) :: Page.split_lines_from [] rest.
Proof.
  revert cur. induction l as [|c r IH]; intros cur Hl Hlast.
  - cbn [app Page.split_lines_from]. by rewrite N.eqb_refl, app_nil_r.
  - apply not_elem_of_cons in Hl as [Hc Hr].
    assert (Page.split_lines_from (c :: cur) (r ++ 0x0A%N :: rest)
            = (rev cur ++ c :: r) :: Page.split_lines_from [] rest) as Hgo.
    { rewrite (IH (c :: cur) Hr).
      - cbn [rev]. by rewrite <- app_assoc.
      - intros r0 c0 ->. by apply (Hlast (c :: r0) c0). }
    change ((c :: r) ++ 0x0A%N :: rest) with (c :: (r ++ 0x0A%N :: rest)).
    cbn [Page.split_lines_from].
    apply not_eq_sym, N.eqb_neq in Hc. rewrite Hc.
    destruct r as [|d r']; cbn [app] in *.
    + assert (c <> 0x0D%N) as Hcr by by apply (Hlast [] c).
      apply N.eqb_neq in Hcr. by rewrite Hcr.
    + apply not_elem_of_cons in Hr as [Hd _].
      apply not_eq_sym, N.eqb_neq in Hd. by rewrite Hd, andb_false_r.
Qed.

Lemma trimmed_no_cr_end (l : JSString) :
  trimmed l -> forall r c, l = r ++ [c] -> c <> 0x0D%N.
Proof. intros [_ Hlast] r c Heq ->. by specialize (Hlast _ _ Heq). Qed.

Lemma split_join_lines (links : list JSString) :
  links <> [] ->
  Forall (fun l => trimmed l /\ 0x0A%N ∉ l) links ->
  Page.split_lines (Page.join_lines links) = links.
Proof.
  unfold Page.split_lines.
  induction links as [|l links IH]; [done|]. intros _ Hall.
  apply Forall_cons in Hall as [[Htr Hnl] Hall].
  destruct links as [|l2 links].
  - cbn [Page.join_lines]. by rewrite split_lines_last.
  - change (Page.join_lines (l :: l2 :: links))
      with (l ++ 0x0A%N :: Page.join_lines (l2 :: links)).
    rewrite split_lines_cons; [|done|by apply trimmed_no_cr_end].
    by rewrite IH.
Qed.

(** What the page sends is read back unchanged by the same parsing. *)
Lemma parse_join_lines (links : list JSString) :
  Forall (fun l => l <> [] /\ trimmed l /\ 0x0A%N ∉ l) links ->
  Page.parse_links (Page.join_lines links) = links.
Proof.
  intros Hall. unfold Page.parse_links.
  assert (filter (fun l : JSString => l <> []) (trim <$> links) = links)
    as Hsame.
  { induction Hall as [|l' links' (Hne & Htr & _) _ IH]; [done|].
    rewrite fmap_cons, (trimmed_trim _ Htr), filter_cons_True by done.
    by rewrite IH. }
  destruct links as [|l links]; [done|].
  rewrite split_join_lines; [done|done|].
  eapply Forall_impl; [exact Hall|]. by intros l' (_ & ? & ?).
Qed.

(** X17. The links read from the text area are non-empty, neither start
    nor end with white space and hold no line feed; joined with line feeds
    and parsed again, for any text of the area, they are the same links in
    the same order. *)
Theorem X17_links_round_trip (value : JSString) :
  Forall (fun l => l <> [] /\ trimmed l /\ 0x0A%N ∉ l) (Page.parse_links value)
  /\ Page.parse_links (Page.join_lines (Page.parse_links value))
     = Page.parse_links value.
Proof.
  assert (Forall (fun l => l <> [] /\ trimmed l /\ 0x0A%N ∉ l)
            (Page.parse_links value)) as Hall; [|by split; [|apply parse_join_lines]].
  apply Forall_forall. intros l Hl. unfold Page.parse_links in Hl.
  apply list_elem_of_filter in Hl as [Hne Hl].
  apply list_elem_of_fmap in Hl as (p & -> & Hp).
  split; [done|]. split; [apply trim_trimmed|].
  assert (0x0A%N ∉ p) as Hnl.
  { pose proof (split_lines_no_newline [] value (not_elem_of_nil _)) as Hsp.
    rewrite Forall_forall in Hsp. by apply Hsp. }
  destruct (trim_infix p) as (pre & suf & Hp').
  intros Hin. apply Hnl. rewrite Hp'.
  apply elem_of_app. right. apply elem_of_app. by left.
Qed.

Example parse_links_edges :
  Page.parse_links (str "  https://youtu.be/a  " ++ [0x0D; 0x0A]%N
                    ++ [0x0A]%N ++ str "https://youtu.be/b" ++ [0x0D]%N)
  = [str "https://youtu.be/a"; str "https://youtu.be/b"]
  /\ Page.parse_links [] = []
  /\ Page.join_lines [str "a"; str "b"] = str "a" ++ [0x0A]%N ++ str "b".
Proof. vm_compute. by repeat split. Qed.

(** ** The second server: what reaches the process *)

Lemma fallback_relay `{Platform} (p : ChildProcess)
    (ms : list (Env * Buffer)) :
  Forall (fun em => healthy_env em.1) ms ->
  Fallback.on_messages ms (Fallback.mkSession (Some p) true)
  = Normal (Fallback.mkSession (Some p) true,
            (fun em => Fallback.StdinWrite p em.2) <$> ms).
Proof.
  induction 1 as [|[env msg] ms [Hw He] _ IH]; [done|].
  cbn [Fallback.on_messages Fallback.on_message Fallback.started
       Fallback.ffmpeg negb fst] in *.
  by rewrite Hw, He, IH.
Qed.

(** X18. On the second server the first message of a connection only
    chooses the destination; every later message, whatever it holds, is
    written as it is to the process spawned by the first, in the order of
    arrival, as long as its input is writable and the writes return.  The
    close of the socket then ends the input of that process and, unless
    that throws, interrupts it. *)
Theorem X18_fallback_relays_every_message `{Platform}
    (env0 : Env) (msg0 : Buffer) (ms : list (Env * Buffer))
    (end_throws : bool) :
  Forall (fun em => healthy_env em.1) ms ->
  exists s,
    Fallback.on_messages ((env0, msg0) :: ms) Fallback.new_session
    = Normal (s, Fallback.Spawn "ffmpeg" Fallback.ffArgs
                   (Fallback.destination msg0)
                 :: ((fun em => Fallback.StdinWrite (spawned env0) em.2)
                       <$> ms))
    /\ Fallback.on_ws_close end_throws s
       = (s, Fallback.StdinEnd (spawned env0)
             :: (if end_throws then []
                 else [Fallback.Kill (spawned env0) "SIGINT"])).
Proof.
  intros Hms. exists (Fallback.mkSession (Some (spawned env0)) true).
  split.
  - cbn [Fallback.on_messages Fallback.on_message Fallback.new_session
         Fallback.started negb].
    by rewrite (fallback_relay _ _ Hms).
  - unfold Fallback.on_ws_close. cbn [Fallback.ffmpeg]. by destruct end_throws.
Qed.

Lemma X18_witness :
  Forall (fun em : Env * Buffer => healthy_env em.1)
    [(Node.env 1, [x1a; x45]); (Node.env 2, [xdf])]
  /\ exists s,
       @Fallback.on_messages Node.platform
         [(Node.env 0, padded_init);
          (Node.env 1, [x1a; x45]); (Node.env 2, [xdf])]
         Fallback.new_session
       = Normal (s, [Fallback.Spawn "ffmpeg" Fallback.ffArgs
                       (str "rtmp://host/app/key");
                     Fallback.StdinWrite 1 [x1a; x45];
                     Fallback.StdinWrite 1 [xdf]])
       /\ Fallback.on_ws_close false s
          = (s, [Fallback.StdinEnd 1; Fallback.Kill 1 "SIGINT"]).
Proof.
  assert (Forall (fun em : Env * Buffer => healthy_env em.1)
            [(Node.env 1, [x1a; x45]); (Node.env 2, [xdf])]) as Hms.
  { repeat constructor. }
  split; [exact Hms|].
  destruct (@X18_fallback_relays_every_message Node.platform
              (Node.env 0) padded_init _ false Hms) as (s & Hrun & Hclose).
  exists s. split; [|exact Hclose].
  rewrite Hrun. vm_compute. reflexivity.
Defined.

(** * Whole runs: what one event does to one connection *)

Section Events.
Context `{Platform}.

Lemma run_snoc (evs : list Event) (ev : Event) (srv0 srv : Server) (tr : Trace) :
  run (evs ++ [ev]) srv0 = Normal (srv, tr) ->
  exists srv1 tr1 out,
    run evs srv0 = Normal (srv1, tr1) /\ step ev srv1 = Normal (srv, out)
    /\ tr = tr1 ++ out.
Proof.
  rewrite run_app. destruct (run evs srv0) as [[srv1 tr1]|] eqn:Hrun; [|done].
  cbn [run]. destruct (step ev srv1) as [[srv2 out]|] eqn:Hstep; [|done].
  intros [= <- <-]. exists srv1, tr1, out. by rewrite app_nil_r.
Qed.

Lemma run_split (evs1 evs2 : list Event) (srv0 srv : Server) (tr : Trace) :
  run (evs1 ++ evs2) srv0 = Normal (srv, tr) ->
  exists srv1 tr1 tr2,
    run evs1 srv0 = Normal (srv1, tr1) /\ run evs2 srv1 = Normal (srv, tr2)
    /\ tr = tr1 ++ tr2.
Proof.
  rewrite run_app. destruct (run evs1 srv0) as [[srv1 tr1]|] eqn:Hrun1; [|done].
  destruct (run evs2 srv1) as [[srv2 tr2]|] eqn:Hrun2; [|done].
  intros [= <- <-]. by exists srv1, tr1, tr2.
Qed.

(** Where the closure of [c] after an event comes from: it was there
    before, or the event connected [c], or it ran a callback of [c]. *)
Lemma step_session (ev : Event) (srv srv' : Server) (out : Trace)
    (c : nat) (s' : Session) :
  step ev srv = Normal (srv', out) -> connections srv' !! c = Some s' ->
  (connections srv !! c = Some s' /\ of_conn c out = []
   /\ forall cb, ev <> Fire c cb)
  \/ (exists t, ev = Connect c t /\ connections srv !! c = None
                /\ s' = new_session t /\ out = [])
  \/ (exists cb s o,
        ev = Fire c cb /\ connections srv !! c = Some s
        /\ conn_step cb (activeKeys srv, s) = Normal (activeKeys srv', s', o)
        /\ of_conn c out = o).
Proof.
  intros Hstep Hc. destruct ev as [c' t|c' cb]; cbn [step] in Hstep.
  - destruct (connections srv !! c') as [s0|] eqn:Hc'.
    + injection Hstep as <- <-. by left.
    + injection Hstep as <- <-. cbn [connections] in Hc.
      destruct (decide (c' = c)) as [->|Hne].
      * rewrite lookup_insert_eq in Hc. injection Hc as <-.
        right; left. by exists t.
      * rewrite lookup_insert_ne in Hc by done. by left.
  - destruct (connections srv !! c') as [s0|] eqn:Hc'.
    2:{ injection Hstep as <- <-. left. split; [done|]. split; [done|].
        intros cb0 [= -> _]. congruence. }
    destruct (conn_step cb (activeKeys srv, s0)) as [[[keys1 s1] o]|] eqn:Hcb;
      [|done].
    injection Hstep as <- <-. cbn [connections activeKeys] in *.
    destruct (decide (c' = c)) as [->|Hne].
    + rewrite lookup_insert_eq in Hc. injection Hc as <-.
      right; right. exists cb, s0, o. by rewrite of_conn_own.
    + rewrite lookup_insert_ne in Hc by done. left.
      split; [done|]. split; [by rewrite of_conn_other|]. congruence.
Qed.

(** The same, read forwards. *)
Lemma step_forward (ev : Event) (srv srv' : Server) (out : Trace)
    (c : nat) (s : Session) :
  connections srv !! c = Some s -> step ev srv = Normal (srv', out) ->
  (connections srv' !! c = Some s /\ of_conn c out = []
   /\ forall cb, ev <> Fire c cb)
  \/ (exists cb s',
        ev = Fire c cb /\ connections srv' !! c = Some s'
        /\ conn_step cb (activeKeys srv, s)
           = Normal (activeKeys srv', s', of_conn c out)).
Proof.
  intros Hc Hstep. destruct ev as [c' t|c' cb]; cbn [step] in Hstep.
  - left. destruct (connections srv !! c') as [s0|] eqn:Hc'.
    + by injection Hstep as <- <-.
    + injection Hstep as <- <-. cbn [connections].
      rewrite lookup_insert_ne by congruence. done.
  - destruct (decide (c' = c)) as [->|Hne].
    + rewrite Hc in Hstep.
      destruct (conn_step cb (activeKeys srv, s)) as [[[keys1 s1] o]|] eqn:Hcb;
        [|done].
      injection Hstep as <- <-. right. exists cb, s1.
      cbn [connections activeKeys].
      by rewrite lookup_insert_eq, of_conn_own.
    + left. destruct (connections srv !! c') as [s0|] eqn:Hc'.
      2:{ injection Hstep as <- <-. split; [done|]. split; [done|]. congruence. }
      destruct (conn_step cb (activeKeys srv, s0)) as [[[keys1 s1] o]|];
        [|done].
      injection Hstep as <- <-. cbn [connections].
      rewrite lookup_insert_ne, of_conn_other by done.
      split; [done|]. split; [done|]. congruence.
Qed.

(** A property of the closure of [c] that its callbacks keep, as long as
    they are among those allowed, holds after any run; and what they call
    is what they are allowed to. *)
Lemma run_conn_keeps (c : nat) (ok : Callback -> Prop)
    (P : Session -> Prop) (Q : Effect -> Prop) :
  (forall cb keys s keys' s' out,
     ok cb -> P s -> conn_step cb (keys, s) = Normal (keys', s', out) ->
     P s' /\ Forall Q out) ->
  forall evs srv srv' tr s,
    connections srv !! c = Some s -> P s ->
    (forall cb, Fire c cb ∈ evs -> ok cb) ->
    run evs srv = Normal (srv', tr) ->
    (exists s', connections srv' !! c = Some s' /\ P s')
    /\ Forall Q (of_conn c tr).
Proof.
  intros Hkeep. induction evs as [|ev evs IH]; intros srv srv' tr s Hc HP Hok;
    cbn [run].
  - intros [= <- <-]. split; [by exists s|constructor].
  - destruct (step ev srv) as [[srv1 out1]|] eqn:Hstep; [|done].
    destruct (run evs srv1) as [[srv2 out2]|] eqn:Hrun; [|done].
    intros [= <- <-]. rewrite of_conn_app, Forall_app.
    assert (forall cb, Fire c cb ∈ evs -> ok cb) as Hok'
      by (intros cb Hin; apply Hok; by right).
    destruct (step_forward _ _ _ _ _ _ Hc Hstep)
      as [(Hc1 & Hout & _) | (cb & s1 & -> & Hc1 & Hcb)].
    + destruct (IH _ _ _ _ Hc1 HP Hok' Hrun) as [Hs2 Hq2].
      split; [done|]. rewrite Hout. by split.
    + destruct (Hkeep _ _ _ _ _ _ (Hok cb (list_elem_of_here _ _)) HP Hcb)
        as [HP1 Hq1].
      destruct (IH _ _ _ _ Hc1 HP1 Hok' Hrun) as [Hs2 Hq2]. by split.
Qed.

(** ** The set of keys over a run *)

(** Only the close callback of a socket removes a key. *)
Lemma conn_step_keys_kept cb keys s keys' s' out :
  cb <> WsClosed ->
  conn_step cb (keys, s) = Normal (keys', s', out) -> keys ⊆ keys'.
Proof.
  intros Hcb Hrun.
  destruct cb as [env msg tag|t|code signal|m| |]; cbn [conn_step] in Hrun;
    try done.
  - destruct (idleInterval s); [|by injection Hrun as <- <- <-].
    unfold on_message in Hrun. cbn [snd] in Hrun.
    destruct (started s) eqn:Hs; cbn [negb] in Hrun.
    + assert (on_header_chunk env msg tag (keys, s) = (keys', s', out)
              \/ on_stream_chunk env msg tag (keys, s) = (keys', s', out))
        as Hor by (destruct (headerReceived s); injection Hrun as Hrun; auto).
      by destruct (chunk_frame _ _ _ _ _ _ _ _ Hor) as (-> & _).
    + apply on_init_cases in Hrun
        as [(e & k0 & -> & _) | (url & key & _ & _ & -> & _)]; [done|].
      apply union_subseteq_r.
  - destruct (idleInterval s); [|by injection Hrun as <- <- <-].
    destruct (idle_tick t s). by injection Hrun as <- <- <-.
  - destruct (headerReceived s); by injection Hrun as <- <- <-.
  - destruct (headerReceived s); by injection Hrun as <- <- <-.
  - by injection Hrun as <- <- <-.
Qed.

Lemma run_keys_kept (evs : list Event) (srv srv' : Server) (tr : Trace) :
  (forall c, Fire c WsClosed ∉ evs) ->
  run evs srv = Normal (srv', tr) -> activeKeys srv ⊆ activeKeys srv'.
Proof.
  revert srv tr. induction evs as [|ev evs IH]; intros srv tr Hno; cbn [run].
  - by intros [= <- <-].
  - destruct (step ev srv) as [[srv1 out1]|] eqn:Hstep; [|done].
    destruct (run evs srv1) as [[srv2 out2]|] eqn:Hrun; [|done].
    intros [= <- <-]. transitivity (activeKeys srv1).
    + destruct ev as [c t|c cb]; cbn [step] in Hstep.
      * by destruct (connections srv !! c); injection Hstep as <- <-.
      * destruct (connections srv !! c) as [s|];
          [|by injection Hstep as <- <-].
        destruct (conn_step cb (activeKeys srv, s)) as [[[keys1 s1] o]|] eqn:Hcb;
          [|done].
        injection Hstep as <- <-. cbn [activeKeys].
        apply (conn_step_keys_kept cb _ s _ s1 o); [|exact Hcb].
        intros ->. apply (Hno c). by left.
    + apply (IH srv1 out2); [|done]. intros c0 Hin. apply (Hno c0). by right.
Qed.

(** ** The idle clock *)

(** [lastChunkAt] is assigned by one statement, line 173, which a binary
    message reaches once the header has been accepted; and
    [headerReceived], once set, stays set. *)
Lemma conn_step_lastChunkAt cb keys s keys' s' out :
  conn_step cb (keys, s) = Normal (keys', s', out) ->
  (headerReceived s = true -> headerReceived s' = true)
  /\ (lastChunkAt s' = lastChunkAt s
      \/ exists env msg,
           cb = Message env msg true /\ headerReceived s = true
           /\ lastChunkAt s' = now env).
Proof.
  intros Hrun.
  destruct cb as [env msg tag|t|code signal|m| |]; cbn [conn_step] in Hrun.
  - destruct (idleInterval s); [|injection Hrun as <- <- <-; by split; [|left]].
    unfold on_message in Hrun. cbn [snd] in Hrun.
    destruct (started s) eqn:Hs; cbn [negb] in Hrun.
    + destruct (headerReceived s) eqn:Hh; cbn [negb] in Hrun;
        injection Hrun as Hrun.
      * unfold on_stream_chunk in Hrun.
        destruct (ffmpegError s);
          [injection Hrun as <- <- <-; by split; [|left]|].
        destruct tag; cbn [negb] in Hrun;
          [|injection Hrun as <- <- <-; by split; [|left]].
        split.
        -- intros _. cbn [set_lastChunkAt ffmpeg] in Hrun.
           destruct (ffmpeg s); [destruct (stdin_writable env);
                                 [destruct (write_error env)|]|];
             injection Hrun as <- <- <-; by destruct s.
        -- right. exists env, msg. split; [done|]. split; [done|].
           cbn [set_lastChunkAt ffmpeg] in Hrun.
           destruct (ffmpeg s); [destruct (stdin_writable env);
                                 [destruct (write_error env)|]|];
             by injection Hrun as <- <- <-.
      * split; [done|]. left. unfold on_header_chunk in Hrun.
        destruct tag; cbn [negb] in Hrun; [|by injection Hrun as <- <- <-].
        destruct (ebml_header_check _); by injection Hrun as <- <- <-.
    + apply on_init_cases in Hrun
        as [(e & k0 & -> & -> & [-> | ->]) | (url & key & _ & _ & -> & -> & ->)];
        (split; [by destruct s|left; by destruct s]).
  - destruct (idleInterval s); [|injection Hrun as <- <- <-; by split; [|left]].
    unfold idle_tick in Hrun.
    destruct (ffmpeg s); [destruct (_ <? _)%Z|]; injection Hrun as <- <- <-;
      (split; [by destruct s|left; by destruct s]).
  - destruct (headerReceived s) eqn:Hh; injection Hrun as <- <- <-;
      (split; [by destruct s|left; by destruct s]).
  - destruct (headerReceived s) eqn:Hh; injection Hrun as <- <- <-;
      (split; [by destruct s|left; by destruct s]).
  - destruct (idleInterval s); [|injection Hrun as <- <- <-; by split; [|left]].
    unfold on_ws_close in Hrun.
    destruct (ffmpeg s); injection Hrun as <- <- <-;
      (split; [by destruct s|left; by destruct s]).
  - injection Hrun as <- <- <-. by split; [|left].
Qed.

(** A connection made no later than [last] that was sent no binary message
    after [last] has not recorded a later time. *)
Lemma run_lastChunkAt (c : nat) (last : Z) (evs : list Event) :
  Forall (no_chunk_since c last) evs ->
  forall srv tr s,
    run evs boot = Normal (srv, tr) -> connections srv !! c = Some s ->
    (lastChunkAt s <= last)%Z.
Proof.
  induction evs as [|ev evs IH] using rev_ind; intros Hall srv tr s Hrun Hc.
  - injection Hrun as <- <-. unfold boot in Hc. cbn [connections] in Hc.
    by rewrite lookup_empty in Hc.
  - apply Forall_app in Hall as [Hall Hev].
    apply Forall_cons in Hev as [Hev _].
    apply run_snoc in Hrun as (srv1 & tr1 & out & Hrun1 & Hstep & _).
    destruct (step_session _ _ _ _ _ _ Hstep Hc)
      as [(Hc1 & _) | [(t & -> & _ & -> & _) | (cb & s1 & o & -> & Hc1 & Hcb & _)]].
    + by apply (IH Hall srv1 tr1).
    + by apply Hev.
    + destruct (conn_step_lastChunkAt _ _ _ _ _ _ Hcb)
        as [_ [-> | (env & msg & -> & _ & ->)]].
      * by apply (IH Hall srv1 tr1).
      * by apply Hev.
Qed.

(** The process handle is set only while the socket is open. *)
Lemma handle_while_open (evs : list Event) (srv : Server) (tr : Trace)
    (c : nat) (s : Session) :
  run evs boot = Normal (srv, tr) -> connections srv !! c = Some s ->
  idleInterval s = false -> ffmpeg s = None.
Proof.
  apply (reachable_sessions
           (fun s => idleInterval s = false -> ffmpeg s = None)); [done|].
  intros cb keys s0 keys' s' out HP Hrun Hclosed.
  destruct cb as [env msg tag|t|code signal|m| |]; cbn [conn_step] in Hrun.
  - destruct (idleInterval s0) eqn:Ha;
      [|injection Hrun as <- <- <-; by apply HP].
    unfold on_message in Hrun. cbn [snd] in Hrun.
    destruct (started s0) eqn:Hs; cbn [negb] in Hrun.
    + assert (on_header_chunk env msg tag (keys, s0) = (keys', s', out)
              \/ on_stream_chunk env msg tag (keys, s0) = (keys', s', out))
        as Hor by (destruct (headerReceived s0); injection Hrun as Hrun; auto).
      destruct (chunk_frame _ _ _ _ _ _ _ _ Hor) as (_ & _ & _ & _ & Ha').
      congruence.
    + apply on_init_cases in Hrun
        as [(e & k0 & -> & -> & [-> | ->]) | (url & key & _ & _ & -> & -> & ->)];
        destruct s0; cbn in *; congruence.
  - destruct (idleInterval s0) eqn:Ha;
      [|injection Hrun as <- <- <-; by apply HP].
    unfold idle_tick in Hrun.
    destruct (ffmpeg s0); [destruct (_ <? _)%Z|]; injection Hrun as <- <- <-;
      destruct s0; cbn in *; congruence.
  - destruct (headerReceived s0); injection Hrun as <- <- <-;
      [by destruct s0|by apply HP].
  - destruct (headerReceived s0); injection Hrun as <- <- <-;
      [destruct s0; cbn in *; by apply HP|by apply HP].
  - destruct (idleInterval s0) eqn:Ha;
      [|injection Hrun as <- <- <-; by apply HP].
    unfold on_ws_close in Hrun.
    destruct (ffmpeg s0) eqn:Hp; injection Hrun as <- <- <-;
      destruct s0; cbn in *; congruence.
  - injection Hrun as <- <- <-. by apply HP.
Qed.

(** ** After the process handle has been dropped *)

Lemma conn_step_dropped cb keys s keys' s' out :
  handle_dropped s ->
  conn_step cb (keys, s) = Normal (keys', s', out) ->
  handle_dropped s' /\ rtmpKey s' = rtmpKey s
  /\ Forall (fun e => touches_process e = false) out
  /\ (of_process cb = false -> Forall (fun e => e = ClearInterval) out)
  /\ (quiet cb = true ->
      out = [] /\ keys' = keys /\ idleInterval s' = idleInterval s).
Proof.
  intros (Hs & Hh & Hp) Hrun. unfold handle_dropped.
  destruct cb as [env msg tag|t|code signal|m| |]; cbn [conn_step] in Hrun.
  - assert (exists t', s' = set_lastChunkAt t' s /\ keys' = keys /\ out = [])
      as (t' & -> & -> & ->).
    { destruct (idleInterval s).
      2:{ injection Hrun as <- <- <-. exists (lastChunkAt s). by destruct s. }
      unfold on_message, on_stream_chunk in Hrun. cbn [snd] in Hrun.
      rewrite Hs, Hh in Hrun. cbn [negb] in Hrun.
      destruct (ffmpegError s).
      { injection Hrun as <- <- <-. exists (lastChunkAt s). by destruct s. }
      destruct tag; cbn [negb] in Hrun.
      2:{ injection Hrun as <- <- <-. exists (lastChunkAt s). by destruct s. }
      cbn [set_lastChunkAt ffmpeg] in Hrun. rewrite Hp in Hrun.
      injection Hrun as <- <- <-. by exists (now env). }
    destruct s; cbn in *. by repeat split.
  - assert (s' = s /\ keys' = keys /\ out = []) as (-> & -> & ->).
    { destruct (idleInterval s); [|by injection Hrun as <- <- <-].
      unfold idle_tick in Hrun. rewrite Hp in Hrun.
      by injection Hrun as <- <- <-. }
    by repeat split.
  - rewrite Hh in Hrun. injection Hrun as <- <- <-.
    destruct s; cbn in *. repeat split; try done. by repeat constructor.
  - rewrite Hh in Hrun. injection Hrun as <- <- <-.
    destruct s; cbn in *. repeat split; try done. by repeat constructor.
  - destruct (idleInterval s); [|injection Hrun as <- <- <-; by repeat split].
    unfold on_ws_close in Hrun. rewrite Hp in Hrun.
    injection Hrun as <- <- <-.
    destruct s; cbn in *. repeat split; try done; by repeat constructor.
  - injection Hrun as <- <- <-. by repeat split.
Qed.

End Events.

(** * The first message, whatever its tag (C10) *)

(** C10. While [started] is false a message is parsed as the
    initialisation record whatever its tag: the same bytes tagged binary
    and tagged text have the same outcome, which is that of
    [JSON.parse] on the decoded bytes.  Bytes that do not parse are
    answered with the invalid-JSON notice and a close.  Bytes that decode
    to a record whose [rtmpUrl] yields a key are, under either tag,
    acknowledged with [waiting for WebM header] and have the key added to
    [activeKeys] when it is free, and answered with the key-in-use notice
    and a close when it is not.  And the message is never treated as stream
    data: nothing is buffered, the header flag, the process handle and the
    idle clock stay as they are, and no process is created or written
    to. *)
Theorem C10_first_message_tag_irrelevant `{Platform}
    (env : Env) (msg : Buffer) (keys : gset JSString) (s : Session) :
  started s = false ->
  on_message env msg true (keys, s) = on_message env msg false (keys, s)
  /\ (JSON_parse (Buffer_toString msg) = None ->
      forall tag,
        on_message env msg tag (keys, s)
        = Normal (keys, s, [WsSend (NoticeError "Invalid init JSON"); WsClose]))
  /\ (forall url key,
        carries_url msg url -> match_live2 url = Some key ->
        forall tag,
          on_message env msg tag (keys, s)
          = if bool_decide (key ∈ keys)
            then Normal (keys, set_rtmpKey (Some key) s,
                         [WsSend (NoticeError "RTMP key already in use");
                          WsClose])
            else Normal ({[key]} ∪ keys,
                         set_started true
                           (set_ws_rtmpUrl (Some url)
                              (set_rtmpKey (Some key) s)),
                         [WsSend (NoticeOk "waiting for WebM header")]))
  /\ (forall tag keys' s' out,
        on_message env msg tag (keys, s) = Normal (keys', s', out) ->
        initialBuffer s' = initialBuffer s
        /\ headerReceived s' = headerReceived s
        /\ ffmpeg s' = ffmpeg s
        /\ lastChunkAt s' = lastChunkAt s
        /\ Forall (fun e => touches_process e = false) out).
Proof.
  intros Hs. unfold on_message. cbn [snd]. rewrite Hs. cbn [negb].
  split; [by rewrite (on_init_tag msg false)|].
  split; [|split].
  - intros Hparse tag. unfold on_init.
    by rewrite JSON_parse_arg_tag, Hparse.
  - intros url key Hmsg Hm tag. case_bool_decide as Hin.
    + by apply on_init_duplicate with (url := url).
    + by apply on_init_accept.
  - intros tag keys' s' out Hrun.
    apply on_init_cases in Hrun
      as [(e & k & -> & -> & [-> | ->]) | (url & key & _ & _ & -> & -> & ->)];
      destruct s; cbn; by repeat constructor.
Qed.

Lemma C10_witness :
  started (new_session 0) = false
  /\ forall tag,
       @on_message Node.platform (Node.env 0) (Node.init_message KEY_URL) tag
         (∅, new_session 0)
       = Normal ({[str "KEY"]} ∪ ∅, awaiting_header 0 (str KEY_URL) (str "KEY"),
                 [WsSend (NoticeOk "waiting for WebM header")]).
Proof.
  split; [reflexivity|]. intros tag.
  destruct (@C10_first_message_tag_irrelevant Node.platform (Node.env 0)
              (Node.init_message KEY_URL) ∅ (new_session 0) eq_refl)
    as (_ & _ & Hvalid & _).
  rewrite (Hvalid (str KEY_URL) (str "KEY")).
  - reflexivity.
  - eexists. split; vm_compute; reflexivity.
  - vm_compute. reflexivity.
Defined.

(** * The success scenario, amended (C3) *)

Lemma not_signature_refused (b : Buffer) :
  ~ begins_with_signature b -> ebml_header_check b = false.
Proof.
  intros Hnot. destruct (ebml_header_check b) eqn:Hcheck; [|done].
  apply ebml_header_check_spec in Hcheck as [_ Htake].
  exfalso. apply Hnot. exists (drop 4 b). by rewrite <- Htake, take_drop.
Qed.

Lemma signature_and_more_accepted (b rest : Buffer) :
  b = EBML_SIGNATURE ++ rest -> rest <> [] -> ebml_header_check b = true.
Proof.
  intros -> Hrest. rewrite ebml_header_check_app.
  by rewrite bool_decide_eq_false_2.
Qed.

(** C3, amended.  After the acknowledged first message, a first binary
    chunk that does not begin with the signature is buffered and nothing is
    sent.  A second binary chunk then causes the spawn, with the two chunks
    together as the first input of the process, and the second
    acknowledgment, when the two chunks together begin with the signature
    and go on after it; when the two chunks together do not begin with the
    signature, the second chunk is buffered as well and nothing is sent.
    The check reads everything buffered from its first byte: that the
    second chunk on its own begins with the signature is not what
    counts. *)
Theorem C3_header_over_buffered_chunks `{Platform}
    (env0 env1 env2 : Env) (init chunk1 chunk2 : Buffer) (tag : bool)
    (keys : gset JSString) (t : Z) (url key : JSString) :
  carries_url init url -> match_live2 url = Some key -> key ∉ keys ->
  ~ begins_with_signature chunk1 ->
  conn_run [Message env0 init tag; Message env1 chunk1 true]
           (keys, new_session t)
  = Normal ({[key]} ∪ keys,
            set_initialBuffer [chunk1] (awaiting_header t url key),
            [WsSend (NoticeOk "waiting for WebM header")])
  /\ (forall rest,
        chunk1 ++ chunk2 = EBML_SIGNATURE ++ rest -> rest <> [] ->
        conn_run [Message env0 init tag; Message env1 chunk1 true;
                  Message env2 chunk2 true] (keys, new_session t)
        = Normal ({[key]} ∪ keys, streaming t (spawned env2) url key,
                  [WsSend (NoticeOk "waiting for WebM header");
                   Spawn "ffmpeg" ffArgs (Some url);
                   StdinWrite (spawned env2) (chunk1 ++ chunk2);
                   WsSend (NoticeOk "ffmpeg started")]))
  /\ (~ begins_with_signature (chunk1 ++ chunk2) ->
      conn_run [Message env0 init tag; Message env1 chunk1 true;
                Message env2 chunk2 true] (keys, new_session t)
      = Normal ({[key]} ∪ keys,
                set_initialBuffer [chunk1; chunk2] (awaiting_header t url key),
                [WsSend (NoticeOk "waiting for WebM header")])).
Proof.
  intros Hinit Hm Hfree Hc1.
  assert (Buffer_concat [chunk1] = chunk1) as Hone
    by (unfold Buffer_concat; cbn; by rewrite app_nil_r).
  assert (Buffer_concat [chunk1; chunk2] = chunk1 ++ chunk2) as Htwo
    by (unfold Buffer_concat; cbn; by rewrite app_nil_r).
  set (s1 := awaiting_header t url key).
  set (s2 := set_initialBuffer [chunk1] s1).
  assert (conn_step (Message env0 init tag) (keys, new_session t)
          = Normal ({[key]} ∪ keys, s1,
                    [WsSend (NoticeOk "waiting for WebM header")])) as Hstep0.
  { cbn [conn_step new_session idleInterval]. unfold on_message.
    cbn [snd started negb].
    by rewrite (on_init_accept init tag keys _ url key). }
  assert (conn_step (Message env1 chunk1 true) ({[key]} ∪ keys, s1)
          = Normal ({[key]} ∪ keys, s2, [])) as Hstep1.
  { cbn [conn_step s1 awaiting_header idleInterval].
    rewrite on_message_header_buffer; [done..|].
    change (ebml_header_check (Buffer_concat [chunk1]) = false).
    rewrite Hone. by apply not_signature_refused. }
  split; [|split].
  - cbn [conn_run]. by rewrite Hstep0, Hstep1.
  - intros rest Hsig Hrest. cbn [conn_run]. rewrite Hstep0, Hstep1.
    cbn [conn_step s2 s1 awaiting_header set_initialBuffer idleInterval].
    rewrite on_message_header_accept; [|done|done|].
    + by rewrite <- Htwo.
    + change (ebml_header_check (Buffer_concat [chunk1; chunk2]) = true).
      rewrite Htwo. by apply (signature_and_more_accepted _ rest).
  - intros Hnot. cbn [conn_run]. rewrite Hstep0, Hstep1.
    cbn [conn_step s2 s1 awaiting_header set_initialBuffer idleInterval].
    rewrite on_message_header_buffer; [done|done|done|].
    change (ebml_header_check (Buffer_concat [chunk1; chunk2]) = false).
    rewrite Htwo. by apply not_signature_refused.
Qed.

Lemma C3_witness :
  ~ begins_with_signature [x1a; x45]
  /\ @conn_run Node.platform
       [Message (Node.env 1)
          (Node.init_message "https://relay.example/live2/ABCDEF") false;
        Message (Node.env 2) [x1a; x45] true;
        Message (Node.env 3) [xdf; xa3; x01] true] (∅, new_session 0)
     = Normal ({[str "ABCDEF"]} ∪ ∅,
               streaming 0 1 (str "https://relay.example/live2/ABCDEF")
                         (str "ABCDEF"),
               [WsSend (NoticeOk "waiting for WebM header");
                Spawn "ffmpeg" ffArgs
                      (Some (str "https://relay.example/live2/ABCDEF"));
                StdinWrite 1 [x1a; x45; xdf; xa3; x01];
                WsSend (NoticeOk "ffmpeg started")]).
Proof.
  assert (~ begins_with_signature [x1a; x45]) as Hshort.
  { intros [rest Heq]. discriminate Heq. }
  split; [exact Hshort|].
  destruct (@C3_header_over_buffered_chunks Node.platform (Node.env 1)
              (Node.env 2) (Node.env 3)
              (Node.init_message "https://relay.example/live2/ABCDEF")
              [x1a; x45] [xdf; xa3; x01] false ∅ 0
              (str "https://relay.example/live2/ABCDEF") (str "ABCDEF"))
    as (_ & Hstart & _).
  - eexists. split; vm_compute; reflexivity.
  - vm_compute. reflexivity.
  - apply not_elem_of_empty.
  - exact Hshort.
  - apply (Hstart [x01]); [reflexivity|discriminate].
Defined.

(** * The idle timeout, amended (C4) *)

(** C4, as stated, fails.  A publisher whose last chunk arrived at time 2
    is stopped by the tick of time 20003: the input of its process is
    ended and the process is signalled.  That is all the tick does.  With
    later ticks and chunks the connection is sent nothing, [ws.close()] is
    never called, and the connection still holds its key, which is still
    in [activeKeys].  And when the input of the process reports an error
    before the process exits, the notice and [ws.close()] come twice. *)
Lemma C4_counterexample :
  (exists srv s,
     @run Node.platform
       (stream_started
        ++ [Fire 1 (IdleTick 20003); Fire 1 (IdleTick 40000);
            Fire 1 (Message (Node.env 40001) [x02] true);
            Fire 1 (IdleTick 80000)]) boot
     = Normal (srv,
               [(1%nat, WsSend (NoticeOk "waiting for WebM header"));
                (1%nat, Spawn "ffmpeg" ffArgs (Some (str KEY_URL)));
                (1%nat, StdinWrite 1 (EBML_SIGNATURE ++ [x01]));
                (1%nat, WsSend (NoticeOk "ffmpeg started"));
                (1%nat, StdinEnd 1); (1%nat, Kill 1 "SIGINT")])
     /\ connections srv !! 1%nat = Some s
     /\ holds (str "KEY") s = true
     /\ str "KEY" ∈ activeKeys srv)
  /\ (exists srv,
        @run Node.platform
          (stream_started
           ++ [Fire 1 (IdleTick 20003); Fire 1 (StdinError "EPIPE");
               Fire 1 (FfmpegClose None (Some "SIGINT"%string));
               Fire 1 WsClosed]) boot
        = Normal (srv,
                  [(1%nat, WsSend (NoticeOk "waiting for WebM header"));
                   (1%nat, Spawn "ffmpeg" ffArgs (Some (str KEY_URL)));
                   (1%nat, StdinWrite 1 (EBML_SIGNATURE ++ [x01]));
                   (1%nat, WsSend (NoticeOk "ffmpeg started"));
                   (1%nat, StdinEnd 1); (1%nat, Kill 1 "SIGINT");
                   (1%nat, WsSend (NoticeMessage "FFmpeg stdin error" "EPIPE"));
                   (1%nat, WsClose);
                   (1%nat, WsSend (NoticeExit "FFmpeg exited" None
                                              (Some "SIGINT"%string)));
                   (1%nat, WsClose);
                   (1%nat, ClearInterval)])).
Proof.
  split.
  - eexists _, _. split; [vm_compute; reflexivity|].
    split; [vm_compute; reflexivity|]. split; [vm_compute; reflexivity|].
    match goal with |- ?P => apply (bool_decide_unpack P) end.
    vm_compute. exact I.
  - eexists. vm_compute. reflexivity.
Qed.

Section IdleStop.
Context `{Platform}.

Lemma Forall_False_nil {A : Type} (l : list A) :
  Forall (fun _ => False) l -> l = [].
Proof. by destruct 1. Qed.

(** With the handle dropped and the socket open, messages, ticks and
    socket errors of the connection call nothing and keep it so. *)
Lemma run_calm (c : nat) (key : JSString) (evs : list Event)
    (srv srv' : Server) (tr : Trace) (s : Session) :
  connections srv !! c = Some s ->
  handle_dropped s -> idleInterval s = true -> rtmpKey s = Some key ->
  calm c evs ->
  run evs srv = Normal (srv', tr) ->
  of_conn c tr = []
  /\ exists s', connections srv' !! c = Some s' /\ handle_dropped s'
                /\ idleInterval s' = true /\ rtmpKey s' = Some key.
Proof.
  intros Hc Hd Ha Hk Hcalm Hrun.
  destruct (run_conn_keeps c (fun cb => quiet cb = true)
              (fun s => handle_dropped s /\ idleInterval s = true
                        /\ rtmpKey s = Some key)
              (fun _ => False)) with evs srv srv' tr s
    as [(s' & Hc' & Hd' & Ha' & Hk') Hnone]; try done.
  - intros cb keys s0 keys' s0' out Hq (Hd0 & Ha0 & Hk0) Hstep.
    destruct (conn_step_dropped _ _ _ _ _ _ Hd0 Hstep)
      as (Hd1 & Hk1 & _ & _ & Hquiet).
    destruct (Hquiet Hq) as (-> & _ & Ha1).
    split; [|constructor]. split; [done|]. split; congruence.
  - split; [by apply Forall_False_nil|]. by exists s'.
Qed.

(** With the handle dropped, [ws.close()] is called once by each callback
    of the process and by nothing else. *)
Lemma conn_step_dropped_closes cb keys s keys' s' out :
  handle_dropped s ->
  conn_step cb (keys, s) = Normal (keys', s', out) ->
  ws_closes out = if of_process cb then 1%nat else 0%nat.
Proof.
  intros Hd Hstep.
  destruct (conn_step_dropped _ _ _ _ _ _ Hd Hstep) as (_ & _ & _ & Hclear & _).
  destruct (of_process cb) eqn:Hcb.
  - destruct Hd as (_ & Hh & _).
    destruct cb as [env msg tag|t|code signal|m| |]; try done;
      cbn [conn_step] in Hstep; rewrite Hh in Hstep;
      by injection Hstep as <- <- <-.
  - specialize (Hclear eq_refl). unfold ws_closes. clear Hstep.
    induction Hclear as [|e out -> _ IH]; [done|].
    by rewrite filter_cons_False.
Qed.

Lemma run_dropped_closes (c : nat) (evs : list Event)
    (srv srv' : Server) (tr : Trace) (s : Session) :
  connections srv !! c = Some s -> handle_dropped s ->
  run evs srv = Normal (srv', tr) ->
  ws_closes (of_conn c tr) = process_reports c evs.
Proof.
  revert srv tr s. induction evs as [|ev evs IH]; intros srv tr s Hc Hd;
    cbn [run].
  - by intros [= <- <-].
  - destruct (step ev srv) as [[srv1 out1]|] eqn:Hstep; [|done].
    destruct (run evs srv1) as [[srv2 out2]|] eqn:Hrun; [|done].
    intros [= <- <-]. unfold ws_closes, process_reports in *.
    rewrite of_conn_app, filter_app, length_app.
    destruct (step_forward _ _ _ _ _ _ Hc Hstep)
      as [(Hc1 & Hout & Hno) | (cb & s1 & -> & Hc1 & Hcb)].
    + rewrite Hout, (IH _ _ _ Hc1 Hd Hrun). cbn [filter length].
      rewrite filter_cons_False; [done|].
      destruct ev as [c' t|c' cb]; cbn [is_report]; [done|].
      case_bool_decide as Heq; [|done]. subst c'. by destruct (Hno cb).
    + pose proof (conn_step_dropped_closes _ _ _ _ _ _ Hd Hcb) as Hcount.
      destruct (conn_step_dropped _ _ _ _ _ _ Hd Hcb) as (Hd1 & _).
      unfold ws_closes in Hcount. rewrite Hcount, (IH _ _ _ Hc1 Hd1 Hrun).
      destruct (of_process cb) eqn:Hp.
      * rewrite filter_cons_True; [done|]. cbn [is_report].
        by rewrite bool_decide_eq_true_2, Hp.
      * rewrite filter_cons_False; [done|]. cbn [is_report].
        by rewrite bool_decide_eq_true_2, Hp.
Qed.

End IdleStop.

(** C4, amended.  A connection that was made, and was last sent a binary
    chunk, no later than [last], and whose process handle is set, is
    stopped by a tick that comes more than [IDLE_TIMEOUT_MS] after [last]:
    the tick ends the input of the process, signals it and drops the
    handle.  This happens once: whatever runs afterwards, the connection
    never calls anything on a process again.  The tick itself neither
    releases the key nor closes the connection: [activeKeys] is as before
    and the socket is open, and for as long as no callback of the process
    runs the connection is sent nothing and is not closed, and for as long
    as no socket closes no key leaves [activeKeys].  The teardown is the
    work of later callbacks: [ws.close()] is called once by each callback
    of the process that runs (its exit, an error of its input) and by
    nothing else; when the exit of the process is reported, one notice is
    sent and [ws.close()] is called, and when the socket then closes, the
    timer is cleared and the key is out of [activeKeys]. *)
Theorem C4_idle_timeout_teardown `{Platform}
    (evs : list Event) (srv : Server) (tr : Trace) (c : nat) (s : Session)
    (p : ChildProcess) (last t : Z) :
  run evs boot = Normal (srv, tr) ->
  Forall (no_chunk_since c last) evs ->
  connections srv !! c = Some s -> ffmpeg s = Some p ->
  (IDLE_TIMEOUT_MS < t - last)%Z ->
  exists srv1 s1 key,
    step (Fire c (IdleTick t)) srv
    = Normal (srv1, [(c, StdinEnd p); (c, Kill p "SIGINT")])
    /\ activeKeys srv1 = activeKeys srv
    /\ connections srv1 !! c = Some s1
    /\ ffmpeg s1 = None /\ idleInterval s1 = true /\ rtmpKey s1 = Some key
    /\ (forall evs' srv2 tr',
          run evs' srv1 = Normal (srv2, tr') ->
          Forall (fun e => touches_process e = false) (of_conn c tr')
          /\ ws_closes (of_conn c tr') = process_reports c evs'
          /\ ((forall cb, Fire c cb ∈ evs' -> of_process cb = false) ->
              Forall (fun e => e = ClearInterval) (of_conn c tr'))
          /\ ((forall c', Fire c' WsClosed ∉ evs') ->
              activeKeys srv1 ⊆ activeKeys srv2))
    /\ (forall evs1 evs2 code signal srv2 tr',
          calm c evs1 -> calm c evs2 ->
          run (evs1 ++ Fire c (FfmpegClose code signal)
                    :: evs2 ++ [Fire c WsClosed]) srv1
          = Normal (srv2, tr') ->
          of_conn c tr'
          = [WsSend (NoticeExit "FFmpeg exited" code signal); WsClose;
             ClearInterval]
          /\ key ∉ activeKeys srv2).
Proof.
  intros Hrun Hsince Hc Hp Hidle.
  (* what is known of a reachable connection with a process *)
  pose proof (reachable_inv _ _ _ Hrun c) as Hinv. rewrite Hc in Hinv.
  destruct Hinv as [(Hns & _ & Hnp & _ & Hurl) _].
  assert (headerReceived s = true) as Hh.
  { destruct (headerReceived s); [done|]. rewrite Hnp in Hp; done. }
  assert (started s = true) as Hs.
  { destruct (started s); [done|]. rewrite Hns in Hh; done. }
  destruct (Hurl Hs) as (url & key & _ & Hk & _).
  assert (key <> []) as Hne by exact (key_inv_reachable _ _ _ _ _ Hrun Hc _ Hk).
  assert (idleInterval s = true) as Ha.
  { destruct (idleInterval s) eqn:Ha; [done|].
    rewrite (handle_while_open _ _ _ _ _ Hrun Hc Ha) in Hp. done. }
  pose proof (run_lastChunkAt c last evs Hsince _ _ _ Hrun Hc) as Hlast.
  (* the tick *)
  set (s1 := set_ffmpeg None s).
  set (srv1 := mkServer (activeKeys srv) (<[c := s1]> (connections srv))).
  assert (connections srv1 !! c = Some s1) as Hc1
    by (subst srv1; cbn [connections]; by rewrite lookup_insert_eq).
  assert (handle_dropped s1) as Hd1 by (subst s1; destruct s; by cbn in * ).
  assert (idleInterval s1 = true) as Ha1 by (subst s1; by destruct s).
  assert (rtmpKey s1 = Some key) as Hk1 by (subst s1; by destruct s).
  exists srv1, s1, key.
  split; [|split; [done|split; [done|split; [by destruct s|split; [done|
             split; [done|split]]]]]].
  - cbn [step]. rewrite Hc. cbn [conn_step]. rewrite Ha. unfold idle_tick.
    rewrite Hp. rewrite (proj2 (Z.ltb_lt _ _)) by lia. done.
  - intros evs' srv2 tr' Hrun'. split; [|split; [|split]].
    + apply (run_conn_keeps c (fun _ => True) handle_dropped
               (fun e => touches_process e = false))
        with evs' srv1 srv2 s1; try done.
      intros cb keys s0 keys' s0' out _ Hd0 Hstep.
      by destruct (conn_step_dropped _ _ _ _ _ _ Hd0 Hstep) as (? & _ & ? & _).
    + by apply (run_dropped_closes c evs' srv1 srv2 tr' s1).
    + intros Hnone.
      apply (run_conn_keeps c (fun cb => of_process cb = false) handle_dropped
               (fun e => e = ClearInterval))
        with evs' srv1 srv2 s1; try done.
      intros cb keys s0 keys' s0' out Hcb Hd0 Hstep.
      destruct (conn_step_dropped _ _ _ _ _ _ Hd0 Hstep)
        as (? & _ & _ & Hclear & _).
      split; [done|]. by apply Hclear.
    + intros Hnone. by apply (run_keys_kept evs' srv1 srv2 tr').
  - intros evs1 evs2 code signal srv2 tr' Hcalm1 Hcalm2 Hrun'.
    apply run_split in Hrun' as (srvA & trA & trB & HrunA & HrunB & ->).
    destruct (run_calm c key evs1 srv1 srvA trA s1 Hc1 Hd1 Ha1 Hk1 Hcalm1 HrunA)
      as (HtrA & sA & HcA & HdA & HaA & HkA).
    (* the exit of the process *)
    cbn [run] in HrunB.
    destruct (step (Fire c (FfmpegClose code signal)) srvA)
      as [[srvB outB]|] eqn:HstepB; [|done].
    destruct (run (evs2 ++ [Fire c WsClosed]) srvB) as [[srvD trD]|] eqn:HrunD;
      [|done].
    injection HrunB as <- <-.
    destruct (step_forward _ _ _ _ _ _ HcA HstepB)
      as [(_ & _ & Hno) | (cb & sB & [= <-] & HcB & HcbB)];
      [by destruct (Hno (FfmpegClose code signal))|].
    cbn [conn_step] in HcbB. destruct HdA as (HsA & HhA & HpA).
    rewrite HhA in HcbB. injection HcbB as HkeysB <- HoutB.
    (* until the socket closes *)
    apply run_split in HrunD as (srvC & trC & trE & HrunC & HrunE & ->).
    set (sB := set_ffmpeg None (set_ffmpegError true sA)) in *.
    assert (handle_dropped sB) as HdB by (subst sB; destruct sA; by cbn in * ).
    assert (idleInterval sB = true) as HaB by (subst sB; by destruct sA).
    assert (rtmpKey sB = Some key) as HkB by (subst sB; by destruct sA).
    destruct (run_calm c key evs2 srvB srvC trC sB HcB HdB HaB HkB Hcalm2 HrunC)
      as (HtrC & sC & HcC & HdC & HaC & HkC).
    (* the close of the socket *)
    cbn [run] in HrunE.
    destruct (step (Fire c WsClosed) srvC) as [[srvE outE]|] eqn:HstepE;
      [|done].
    injection HrunE as <- <-.
    destruct (step_forward _ _ _ _ _ _ HcC HstepE)
      as [(_ & _ & Hno) | (cb & sE & [= <-] & HcE & HcbE)];
      [by destruct (Hno WsClosed)|].
    cbn [conn_step] in HcbE. rewrite HaC in HcbE. unfold on_ws_close in HcbE.
    destruct HdC as (_ & _ & HpC). rewrite HpC, HkC in HcbE.
    cbn [no_key] in HcbE. rewrite bool_decide_eq_false_2 in HcbE by done.
    cbn [negb andb app] in HcbE. injection HcbE as HkeysE _ HoutE.
    split.
    + rewrite !of_conn_app, HtrA, HtrC, <- HoutB, <- HoutE, app_nil_r. done.
    + rewrite <- HkeysE. case_bool_decide as Hin; [|done].
      apply deleted_key_absent.
Qed.

Lemma C4_witness :
  exists srv tr srv1,
    @run Node.platform stream_started boot = Normal (srv, tr)
    /\ Forall (no_chunk_since 1 2) stream_started
    /\ @step Node.platform (Fire 1 (IdleTick 20003)) srv
       = Normal (srv1, [(1%nat, StdinEnd 1); (1%nat, Kill 1 "SIGINT")])
    /\ activeKeys srv1 = activeKeys srv.
Proof.
  assert (Forall (no_chunk_since 1 2) stream_started) as Hsince.
  { repeat constructor; intros _; vm_compute; discriminate. }
  eexists _, _.
  destruct (@C4_idle_timeout_teardown Node.platform stream_started
              (mkServer {[str "KEY"]}
                        {[1%nat := streaming 0 1 (str KEY_URL) (str "KEY")]})
              [(1%nat, WsSend (NoticeOk "waiting for WebM header"));
               (1%nat, Spawn "ffmpeg" ffArgs (Some (str KEY_URL)));
               (1%nat, StdinWrite 1 (EBML_SIGNATURE ++ [x01]));
               (1%nat, WsSend (NoticeOk "ffmpeg started"))]
              1%nat (streaming 0 1 (str KEY_URL) (str "KEY")) 1%nat 2 20003)
    as (srv1 & s1 & key & Hstep & Hkeys & _).
  - vm_compute. reflexivity.
  - exact Hsince.
  - vm_compute. reflexivity.
  - reflexivity.
  - vm_compute. reflexivity.
  - exists srv1. split; [vm_compute; reflexivity|].
    split; [exact Hsince|]. split; [exact Hstep | exact Hkeys].
Defined.

(** * Two publishers for one destination, amended (C6) *)

(** C6, as stated, fails.  Connection 2 is refused for the key of
    connection 1 and [ws.close()] is called on it; [started] is still
    false, so its next message is read as a first message again.  Sent
    after connection 1 has closed, it is acknowledged: the refused
    connection now holds the key.  Sent while connection 1 still holds the
    key, it earns a second notice and a second [ws.close()]. *)
Lemma C6_counterexample :
  (exists srv s2,
     @run Node.platform
       (second_refused
        ++ [Fire 1 WsClosed;
            Fire 2 (Message (Node.env 5) (Node.init_message KEY_URL) false)])
       boot
     = Normal (srv,
               [(1%nat, WsSend (NoticeOk "waiting for WebM header"));
                (2%nat, WsSend (NoticeError "RTMP key already in use"));
                (2%nat, WsClose);
                (1%nat, ClearInterval);
                (2%nat, WsSend (NoticeOk "waiting for WebM header"))])
     /\ connections srv !! 2%nat = Some s2
     /\ holds (str "KEY") s2 = true
     /\ str "KEY" ∈ activeKeys srv)
  /\ (exists srv,
        @run Node.platform
          (second_refused
           ++ [Fire 2 (Message (Node.env 5) (Node.init_message KEY_URL) false)])
          boot
        = Normal (srv,
                  [(1%nat, WsSend (NoticeOk "waiting for WebM header"));
                   (2%nat, WsSend (NoticeError "RTMP key already in use"));
                   (2%nat, WsClose);
                   (2%nat, WsSend (NoticeError "RTMP key already in use"));
                   (2%nat, WsClose)])).
Proof.
  split.
  - eexists _, _. split; [vm_compute; reflexivity|].
    split; [vm_compute; reflexivity|]. split; [vm_compute; reflexivity|].
    match goal with |- ?P => apply (bool_decide_unpack P) end.
    vm_compute. exact I.
  - eexists. vm_compute. reflexivity.
Qed.

Section Refused.
Context `{Platform}.

(** While a key is in [activeKeys], no callback makes a holder of it out
    of a connection that is not one. *)
Lemma conn_step_not_holder cb keys s keys' s' out key :
  key ∈ keys -> holds key s = false ->
  conn_step cb (keys, s) = Normal (keys', s', out) ->
  holds key s' = false.
Proof.
  intros Hin Hnot Hrun.
  destruct cb as [env msg tag|t|code signal|m| |]; cbn [conn_step] in Hrun.
  - destruct (idleInterval s) eqn:Ha; [|by injection Hrun as <- <- <-].
    unfold on_message in Hrun. cbn [snd] in Hrun.
    destruct (started s) eqn:Hs; cbn [negb] in Hrun.
    + assert (on_header_chunk env msg tag (keys, s) = (keys', s', out)
              \/ on_stream_chunk env msg tag (keys, s) = (keys', s', out))
        as Hor by (destruct (headerReceived s); injection Hrun as Hrun; auto).
      destruct (chunk_frame _ _ _ _ _ _ _ _ Hor) as (_ & Hs' & Hk' & _ & Ha').
      unfold holds in *. by rewrite Hs', Hk', Ha'.
    + apply on_init_cases in Hrun
        as [(e & k0 & -> & -> & [-> | ->]) | (url & key0 & _ & Hfree & -> & -> & ->)].
      * done.
      * unfold holds. destruct s; cbn in *. by subst.
      * unfold holds. destruct s; cbn in *.
        rewrite bool_decide_eq_false_2; [by rewrite andb_false_r|].
        intros [= ->]. done.
  - destruct (idleInterval s) eqn:Ha; [|by injection Hrun as <- <- <-].
    unfold idle_tick in Hrun.
    destruct (ffmpeg s); [destruct (_ <? _)%Z|]; injection Hrun as <- <- <-;
      try done; by destruct s.
  - destruct (headerReceived s); injection Hrun as <- <- <-;
      try done; by destruct s.
  - destruct (headerReceived s); injection Hrun as <- <- <-;
      try done; by destruct s.
  - destruct (idleInterval s) eqn:Ha; [|by injection Hrun as <- <- <-].
    unfold on_ws_close in Hrun.
    destruct (ffmpeg s); injection Hrun as <- <- <-;
      unfold holds; destruct s; cbn; by rewrite andb_false_r.
  - by injection Hrun as <- <- <-.
Qed.

(** So a connection that does not hold a registered key comes to hold it
    only after the key has left [activeKeys]. *)
Lemma holder_only_after_release (key : JSString) (b : nat)
    (evs : list Event) (srv srv' : Server) (tr : Trace) (sb : Session) :
  key ∈ activeKeys srv ->
  connections srv !! b = Some sb -> holds key sb = false ->
  run evs srv = Normal (srv', tr) ->
  (exists sb', connections srv' !! b = Some sb' /\ holds key sb' = false)
  \/ (exists evs1 evs2 srvm trm,
        evs = evs1 ++ evs2 /\ run evs1 srv = Normal (srvm, trm)
        /\ key ∉ activeKeys srvm).
Proof.
  revert srv tr sb. induction evs as [|ev evs IH]; intros srv tr sb Hin Hb Hnot;
    cbn [run].
  - intros [= <- <-]. left. by exists sb.
  - destruct (step ev srv) as [[srv1 out1]|] eqn:Hstep; [|done].
    destruct (run evs srv1) as [[srv2 out2]|] eqn:Hrun; [|done].
    intros [= <- <-].
    destruct (decide (key ∈ activeKeys srv1)) as [Hin1 | Hout1].
    + assert (exists sb1, connections srv1 !! b = Some sb1
                          /\ holds key sb1 = false) as (sb1 & Hb1 & Hnot1).
      { destruct (step_forward _ _ _ _ _ _ Hb Hstep)
          as [(Hb1 & _) | (cb & sb1 & -> & Hb1 & Hcb)].
        - by exists sb.
        - exists sb1. split; [done|].
          by apply (conn_step_not_holder _ _ _ _ _ _ _ Hin Hnot Hcb). }
      destruct (IH srv1 out2 sb1 Hin1 Hb1 Hnot1 Hrun)
        as [Hleft | (evs1 & evs2 & srvm & trm & -> & Hrun1 & Hgone)].
      * by left.
      * right. exists (ev :: evs1), evs2, srvm, (out1 ++ trm).
        split; [done|]. split; [|done]. cbn [run]. by rewrite Hstep, Hrun1.
    + right. exists [ev], evs, srv1, (out1 ++ []).
      split; [done|]. split; [|done]. cbn [run]. by rewrite Hstep.
Qed.

End Refused.

(** C6, amended.  Two connections that have not been initialised send
    first messages whose destinations yield the same key, not yet in
    [activeKeys].  The first is acknowledged and from then on holds the
    key.  The second is answered, by the callback that refuses it, with
    the single notice that the key is already in use and a [ws.close()];
    that callback leaves [activeKeys] as it was and leaves [started]
    false, so exactly one of the two has gone past initialisation and the
    second does not hold the key.  Whatever runs afterwards (messages
    included, of either connection or of any other), the second
    connection comes to hold the key only after the key has left
    [activeKeys]. *)
Theorem C6_duplicate_destination_rejected `{Platform}
    (srv : Server) (a b : nat) (sa sb : Session) (ea eb : Env)
    (msga msgb : Buffer) (ta tb : bool) (urla urlb key : JSString) :
  a <> b ->
  connections srv !! a = Some sa -> connections srv !! b = Some sb ->
  started sa = false -> started sb = false ->
  idleInterval sa = true -> idleInterval sb = true ->
  carries_url msga urla -> carries_url msgb urlb ->
  match_live2 urla = Some key -> match_live2 urlb = Some key ->
  key ∉ activeKeys srv ->
  exists srv1 srv2 sa' sb',
    step (Fire a (Message ea msga ta)) srv
    = Normal (srv1, [(a, WsSend (NoticeOk "waiting for WebM header"))])
    /\ step (Fire b (Message eb msgb tb)) srv1
       = Normal (srv2, [(b, WsSend (NoticeError "RTMP key already in use"));
                        (b, WsClose)])
    /\ activeKeys srv1 = {[key]} ∪ activeKeys srv
    /\ activeKeys srv2 = activeKeys srv1
    /\ connections srv2 !! a = Some sa'
    /\ started sa' = true /\ holds key sa' = true
    /\ connections srv2 !! b = Some sb'
    /\ started sb' = false /\ holds key sb' = false
    /\ (forall evs srv3 tr sb3,
          run evs srv2 = Normal (srv3, tr) ->
          connections srv3 !! b = Some sb3 -> holds key sb3 = true ->
          exists evs1 evs2 srvm trm,
            evs = evs1 ++ evs2 /\ run evs1 srv2 = Normal (srvm, trm)
            /\ key ∉ activeKeys srvm).
Proof.
  intros Hab Ha Hb Hsa Hsb Haa Hab' Hma Hmb Hka Hkb Hfree.
  set (sa' := set_started true
                (set_ws_rtmpUrl (Some urla) (set_rtmpKey (Some key) sa))).
  set (sb' := set_rtmpKey (Some key) sb).
  set (srv1 := mkServer ({[key]} ∪ activeKeys srv)
                        (<[a:=sa']> (connections srv))).
  set (srv2 := mkServer ({[key]} ∪ activeKeys srv)
                        (<[b:=sb']> (<[a:=sa']> (connections srv)))).
  assert (connections srv2 !! b = Some sb') as Hb2
    by (subst srv2; cbn [connections]; by rewrite lookup_insert_eq).
  assert (holds key sb' = false) as Hnot
    by (subst sb'; destruct sb; cbn in *; by subst).
  exists srv1, srv2, sa', sb'.
  split; [|split; [|split; [|split; [|split; [|split; [|split; [|split;
    [|split; [|split]]]]]]]]].
  - cbn [step]. rewrite Ha. cbn [conn_step]. rewrite Haa.
    unfold on_message. cbn [snd]. rewrite Hsa. cbn [negb].
    by rewrite (on_init_accept msga ta _ sa urla key).
  - cbn [step]. subst srv1. cbn [connections activeKeys].
    rewrite lookup_insert_ne, Hb by done. cbn [conn_step]. rewrite Hab'.
    unfold on_message. cbn [snd]. rewrite Hsb. cbn [negb].
    rewrite (on_init_duplicate msgb tb _ sb urlb key); [done..|].
    apply elem_of_union_l. by apply elem_of_singleton.
  - done.
  - done.
  - subst srv2. cbn [connections].
    by rewrite lookup_insert_ne, lookup_insert_eq by done.
  - subst sa'. by destruct sa.
  - subst sa'. destruct sa; cbn in *. subst. cbn.
    by rewrite bool_decide_eq_true_2.
  - done.
  - subst sb'. by destruct sb.
  - done.
  - intros evs srv3 tr sb3 Hrun Hb3 Hholds.
    destruct (holder_only_after_release key b evs srv2 srv3 tr sb')
      as [(sb3' & Hb3' & Hnot3) | Hgone]; try done.
    + subst srv2. cbn [activeKeys]. apply elem_of_union_l.
      by apply elem_of_singleton.
    + rewrite Hb3 in Hb3'. injection Hb3' as <-. congruence.
Qed.

Lemma C6_witness :
  exists srv1 srv2,
    @step Node.platform
      (Fire 1 (Message (Node.env 3) (Node.init_message KEY_URL) false))
      two_connected
    = Normal (srv1, [(1%nat, WsSend (NoticeOk "waiting for WebM header"))])
    /\ @step Node.platform
         (Fire 2 (Message (Node.env 4) (Node.init_message KEY_URL) true)) srv1
       = Normal (srv2, [(2%nat, WsSend (NoticeError "RTMP key already in use"));
                        (2%nat, WsClose)])
    /\ activeKeys srv2 = activeKeys srv1.
Proof.
  assert (@carries_url Node.platform (Node.init_message KEY_URL) (str KEY_URL))
    as Hmsg by (eexists; split; vm_compute; reflexivity).
  assert (match_live2 (str KEY_URL) = Some (str "KEY")) as Hkey
    by (vm_compute; reflexivity).
  destruct (@C6_duplicate_destination_rejected Node.platform two_connected
              1 2 (new_session 0) (new_session 2) (Node.env 3) (Node.env 4)
              (Node.init_message KEY_URL) (Node.init_message KEY_URL)
              false true (str KEY_URL) (str KEY_URL) (str "KEY"))
    as (srv1 & srv2 & _ & _ & H1 & H2 & _ & Hkeys & _).
  - discriminate.
  - vm_compute. reflexivity.
  - vm_compute. reflexivity.
  - reflexivity.
  - reflexivity.
  - reflexivity.
  - reflexivity.
  - exact Hmsg.
  - exact Hmsg.
  - exact Hkey.
  - exact Hkey.
  - apply not_elem_of_empty.
  - exists srv1, srv2. split; [exact H1|]. split; [exact H2 | exact Hkeys].
Defined.

(** * The idle clock *)

(** X6. [lastChunkAt] is set when the socket connects, and until the
    header has been accepted it is still the time of the connection,
    whatever has been received.  From any state the server reaches, the
    only event that changes it is a binary message of the connection that
    arrives once the header has been accepted.  So the chunks that make up
    the header do not touch it: when the header is accepted more than
    [IDLE_TIMEOUT_MS] after the time recorded, the next tick stops the
    process that has just been spawned. *)
Theorem X6_header_does_not_reset_idle_clock `{Platform}
    (evs : list Event) (srv : Server) (tr : Trace) (c : nat) (s : Session) :
  run evs boot = Normal (srv, tr) -> connections srv !! c = Some s ->
  (headerReceived s = false ->
   exists t0, Connect c t0 ∈ evs /\ lastChunkAt s = t0)
  /\ (forall ev srv' out s',
        step ev srv = Normal (srv', out) -> connections srv' !! c = Some s' ->
        lastChunkAt s' <> lastChunkAt s ->
        exists env msg,
          ev = Fire c (Message env msg true) /\ headerReceived s = true
          /\ lastChunkAt s' = now env)
  /\ (forall env msg t,
        started s = true -> headerReceived s = false ->
        idleInterval s = true ->
        ebml_header_check (Buffer_concat (initialBuffer s ++ [msg])) = true ->
        (IDLE_TIMEOUT_MS < t - lastChunkAt s)%Z ->
        exists srv',
          run [Fire c (Message env msg true); Fire c (IdleTick t)] srv
          = Normal (srv',
                    [(c, Spawn "ffmpeg" ffArgs (ws_rtmpUrl s));
                     (c, StdinWrite (spawned env)
                           (Buffer_concat (initialBuffer s ++ [msg])));
                     (c, WsSend (NoticeOk "ffmpeg started"));
                     (c, StdinEnd (spawned env));
                     (c, Kill (spawned env) "SIGINT")])).
Proof.
  intros Hrun Hc. split; [|split].
  - (* the time of the connection, until the header is accepted *)
    revert srv tr s Hrun Hc.
    induction evs as [|ev evs IH] using rev_ind; intros srv tr s Hrun Hc Hh.
    + injection Hrun as <- <-. unfold boot in Hc. cbn [connections] in Hc.
      by rewrite lookup_empty in Hc.
    + apply run_snoc in Hrun as (srv1 & tr1 & out & Hrun1 & Hstep & _).
      destruct (step_session _ _ _ _ _ _ Hstep Hc)
        as [(Hc1 & _) | [(t & -> & _ & -> & _)
                        | (cb & s1 & o & -> & Hc1 & Hcb & _)]].
      * destruct (IH _ _ _ Hrun1 Hc1 Hh) as (t0 & Hin & Ht0).
        exists t0. split; [|done]. apply elem_of_app. by left.
      * exists t. split; [|done]. apply elem_of_app. right. by left.
      * destruct (conn_step_lastChunkAt _ _ _ _ _ _ Hcb) as [Hkept Hclock].
        assert (headerReceived s1 = false) as Hh1.
        { destruct (headerReceived s1); [|done]. by rewrite Hkept in Hh. }
        destruct Hclock as [Hsame | (env & msg & _ & Hh1' & _)]; [|congruence].
        destruct (IH _ _ _ Hrun1 Hc1 Hh1) as (t0 & Hin & Ht0).
        exists t0. split; [|congruence]. apply elem_of_app. by left.
  - (* the one event that sets it *)
    intros ev srv' out s' Hstep Hc' Hdiff.
    destruct (step_session _ _ _ _ _ _ Hstep Hc')
      as [(Hc1 & _) | [(t & -> & Hnone & _) | (cb & s1 & o & -> & Hc1 & Hcb & _)]].
    + rewrite Hc in Hc1. by injection Hc1 as <-.
    + by rewrite Hc in Hnone.
    + rewrite Hc in Hc1. injection Hc1 as <-.
      destruct (conn_step_lastChunkAt _ _ _ _ _ _ Hcb)
        as [_ [Hsame | (env & msg & -> & Hh & Ht)]]; [done|].
      by exists env, msg.
  - (* the header accepted late *)
    intros env msg t Hs Hh Ha Hcheck Hidle.
    set (s1 := mkSession (Some (spawned env)) true (lastChunkAt s) false []
                         true (rtmpKey s) (ws_rtmpUrl s) (idleInterval s)).
    eexists. cbn [run step]. rewrite Hc. cbn [conn_step]. rewrite Ha.
    rewrite on_message_header_accept by done.
    cbn [connections activeKeys]. rewrite lookup_insert_eq.
    cbn [conn_step idleInterval]. rewrite Ha. unfold idle_tick.
    cbn [ffmpeg lastChunkAt]. rewrite (proj2 (Z.ltb_lt _ _) Hidle).
    cbn [fmap list_fmap app]. reflexivity.
Qed.

Lemma X6_witness :
  exists srv tr srv',
    @run Node.platform
      [Connect 1 0;
       Fire 1 (Message (Node.env 1) (Node.init_message KEY_URL) false);
       Fire 1 (Message (Node.env 29000) [x1a; x45] true)] boot
    = Normal (srv, tr)
    /\ @run Node.platform
         [Fire 1 (Message (Node.env 29999) [xdf; xa3; x01] true);
          Fire 1 (IdleTick 30000)] srv
       = Normal (srv',
                 [(1%nat, Spawn "ffmpeg" ffArgs (Some (str KEY_URL)));
                  (1%nat, StdinWrite 1 [x1a; x45; xdf; xa3; x01]);
                  (1%nat, WsSend (NoticeOk "ffmpeg started"));
                  (1%nat, StdinEnd 1); (1%nat, Kill 1 "SIGINT")]).
Proof.
  eexists _, _.
  destruct (@X6_header_does_not_reset_idle_clock Node.platform
              [Connect 1 0;
               Fire 1 (Message (Node.env 1) (Node.init_message KEY_URL) false);
               Fire 1 (Message (Node.env 29000) [x1a; x45] true)]
              (mkServer {[str "KEY"]}
                 {[1%nat := set_initialBuffer [[x1a; x45]]
                              (awaiting_header 0 (str KEY_URL) (str "KEY"))]})
              [(1%nat, WsSend (NoticeOk "waiting for WebM header"))]
              1%nat
              (set_initialBuffer [[x1a; x45]]
                 (awaiting_header 0 (str KEY_URL) (str "KEY"))))
    as (_ & _ & Hlate).
  - vm_compute. reflexivity.
  - vm_compute. reflexivity.
  - destruct (Hlate (Node.env 29999) [xdf; xa3; x01] 30000%Z)
      as (srv' & Hrun); try reflexivity.
    exists srv'. split; [vm_compute; reflexivity | exact Hrun].
Defined.

(** * The second server: the destination it streams to *)

(** X14. The destination the second server hands to [spawn] is decided by
    the first message alone.  When the message parses to a record whose
    [rtmpUrl] is a string that, with white space stripped from both ends,
    passes the pattern, the destination is that stripped string.  In every
    other case (the bytes do not parse, there is no [rtmpUrl], it is not a
    string, or the stripped string does not pass) it is the built-in
    default.  Either way it passes the pattern. *)
Theorem X14_fallback_destination `{Platform} (msg : Buffer) :
  (forall data u,
     JSON_parse (Buffer_toString msg) = Some data ->
     get_prop data (str "rtmpUrl") = Some (JString u) ->
     test_rtmp (trim u) = true ->
     Fallback.destination msg = trim u)
  /\ ((forall data u,
         JSON_parse (Buffer_toString msg) = Some data ->
         get_prop data (str "rtmpUrl") = Some (JString u) ->
         test_rtmp (trim u) = false) ->
      Fallback.destination msg = Fallback.default_destination)
  /\ test_rtmp (Fallback.destination msg) = true.
Proof.
  assert (test_rtmp Fallback.default_destination = true) as Hdef
    by (vm_compute; reflexivity).
  split; [|split].
  - intros data u Hparse Hget Htest.
    unfold Fallback.destination, Fallback.candidate.
    rewrite Hparse.
    assert (truthy data = true) as ->
      by (destruct data; try discriminate Hget; done).
    rewrite Hget.
    assert (truthy (JString (trim u)) = true) as ->.
    { cbn [truthy]. destruct (trim u); [discriminate Htest|].
      by rewrite bool_decide_eq_false_2. }
    by rewrite Htest.
  - intros Hnone. unfold Fallback.destination.
    destruct (test_rtmp (Fallback.candidate msg)) eqn:Htest; [|done].
    cbn [negb]. unfold Fallback.candidate in *.
    destruct (JSON_parse (Buffer_toString msg)) as [data|] eqn:Hparse; [|done].
    destruct (truthy data); [|done].
    destruct (get_prop data (str "rtmpUrl")) as [[| | |u| |]|] eqn:Hget;
      try done.
    destruct (truthy (JString (trim u))); [|done].
    rewrite (Hnone data u eq_refl Hget) in Htest. done.
  - unfold Fallback.destination.
    by destruct (test_rtmp (Fallback.candidate msg)) eqn:Htest.
Qed.
